(** * Pagination: a shallow embedding of [src/index.ts]

    The TypeScript class [Pagination] has four static, pure methods:
    [calculate], [getPageNumbers], [parseSearchParams] and
    [generateMetaTags].  Each is embedded below as a Rocq function that
    follows the source line by line, and the properties the
    specification states about them are proved afterwards.

    Numbers.  A JavaScript [number] is a binary64 value.  It is embedded
    as the type [JSNum.number]: NaN, an infinity, or a finite value held
    as the rational it denotes.  Every arithmetic operation of the source
    ([+], [-], [*], [/]) computes the exact result and rounds it to the
    nearest binary64 value, ties to even; comparisons, [Math.max],
    [Math.min], [Math.ceil] and [Math.floor] are exact.  The two zeros are
    not told apart: the source never divides by zero and never prints a
    zero.

    Integers.  The specification types the arguments of [calculate] and
    [getPageNumbers] as integers.  Module [Exact] holds the same two
    methods read over unbounded integers, with no rounding; the embedding
    agrees with it as long as the values stay below 2^53
    ([calculate_exact], [getPageNumbers_exact]), and differs from it
    beyond. *)

From Stdlib Require Import ZArith QArith List String Ascii Bool Lia.
From Stdlib Require Import Qround DecimalString DecimalPos Sorted.
Import ListNotations.

Local Open Scope Z_scope.

(** ** The JavaScript operators the source uses *)

Module JS.

(** [a ?? d]: [d] when [a] is [undefined] or [null], else [a]. *)
Definition nullish {A : Type} (a : option A) (d : A) : A :=
  match a with
  | Some v => v
  | None => d
  end.

(** A parameter declared with a default value, [x : number = d]: the
    default is taken when the argument is left out. *)
Definition default_arg {A : Type} (a : option A) (d : A) : A :=
  match a with
  | Some v => v
  | None => d
  end.

(** [a.push (x)] on an array held as a list. *)
Definition push {A : Type} (a : list A) (x : A) : list A := a ++ [x].

(** The decimal numeral of an integer, with a minus sign when it is
    negative, and ["null"] for [null]: what a template literal prints
    for an integer of magnitude below 2^53 (beyond, the literal prints
    the shortest digits that denote the same binary64 value, and from
    10^21 it uses exponent notation). *)
Definition to_string (v : option Z) : string :=
  match v with
  | Some z => NilZero.string_of_int (Z.to_int z)
  | None => "null"
  end.

(** How a call ends: with a value, with the [RangeError] that creating
    an array of 2^32 elements or more raises, or not at all within the
    steps allowed. *)
Inductive outcome (A : Type) : Type :=
| Returns (a : A)
| RangeError
| OutOfFuel.

Arguments Returns {A} a.
Arguments RangeError {A}.
Arguments OutOfFuel {A}.

End JS.

(** ** Numbers read from strings

    [parseSearchParams] applies [Number] to what [URLSearchParams.get]
    returns, a string or [null].  The result is a binary64 value: NaN, an
    infinity, or a finite value, held here as the rational it denotes, in
    lowest terms (the two zeros are not told apart: both are falsy and
    neither reaches the output).  A string is a sequence of code units;
    the model keeps the code units below 256. *)

Module JSNum.

Inductive number : Type :=
| NaN
| Infinity (negative : bool)
| Finite (q : Q).

Definition of_Z (z : Z) : number := Finite (inject_Z z).

(** [x <= y] on numbers; false as soon as one side is NaN. *)
Definition leb (x y : number) : bool :=
  match x, y with
  | NaN, _ | _, NaN => false
  | Infinity true, _ => true
  | _, Infinity false => true
  | Infinity false, _ => false
  | _, Infinity true => false
  | Finite p, Finite q => Qle_bool p q
  end.

Definition is_NaN (x : number) : bool :=
  match x with
  | NaN => true
  | _ => false
  end.

(** [Math.max (x, y)] and [Math.min (x, y)]: NaN when an argument is
    NaN, else the larger (smaller) argument. *)
Definition Math_max (x y : number) : number :=
  if is_NaN x || is_NaN y then NaN else if leb x y then y else x.

Definition Math_min (x y : number) : number :=
  if is_NaN x || is_NaN y then NaN else if leb x y then x else y.

(** ToBoolean on a number: NaN and zero are falsy. *)
Definition truthy (x : number) : bool :=
  match x with
  | NaN => false
  | Infinity _ => true
  | Finite q => negb (Qeq_bool q 0)
  end.

(** [x || d]. *)
Definition or (x d : number) : number := if truthy x then x else d.

(** *** Rounding a positive fraction [n / d] to binary64 *)

(** The nearest integer to [n / d], ties to even. *)
Definition round_half_even (n d : Z) : Z :=
  let q := n / d in
  let r := n mod d in
  match 2 * r ?= d with
  | Lt => q
  | Gt => q + 1
  | Eq => if Z.even q then q else q + 1
  end.

(** [2 ^ e <= n / d]. *)
Definition pow2_le (e n d : Z) : bool :=
  if 0 <=? e then d * 2 ^ e <=? n else d <=? n * 2 ^ (- e).

(** The integer [e] with [2 ^ e <= n / d < 2 ^ (e + 1)]. *)
Definition log2_frac (n d : Z) : Z :=
  let e := Z.log2 n - Z.log2 d in
  if pow2_le e n d then e else e - 1.

(** Round to nearest, ties to even, with 53 bits of precision, the
    smallest exponent -1022 (below it the spacing stays 2 ^ -1074) and
    overflow to an infinity from 2 ^ 1024. *)
Definition round_binary64 (negative : bool) (n d : Z) : number :=
  if n =? 0 then Finite 0
  else
    let e := Z.max (log2_frac n d) (-1022) in
    let k := e - 52 in
    let m :=
      if 0 <=? k
      then round_half_even n (d * 2 ^ k)
      else round_half_even (n * 2 ^ (- k)) d in
    let m := if negative then - m else m in
    if 0 <=? k
    then
      if 2 ^ 1024 <=? Z.abs m * 2 ^ k
      then Infinity negative
      else Finite (Qred (Qmake (m * 2 ^ k) 1))
    else Finite (Qred (Qmake m (Z.to_pos (2 ^ (- k))))).

(** [m * 10 ^ e] as a number, for [m >= 0]. *)
Definition of_decimal (negative : bool) (m e : Z) : number :=
  if 0 <=? e
  then round_binary64 negative (m * 10 ^ e) 1
  else round_binary64 negative m (10 ^ (- e)).

(** *** The grammar of numeric strings (StringNumericLiteral) *)

Definition is_char (c : ascii) (s : string) : bool :=
  String.eqb (String c EmptyString) s.

(** StrWhiteSpaceChar: TAB, LF, VT, FF, CR, SP and NBSP. *)
Definition is_white_space (c : ascii) : bool :=
  let n := Z.of_N (N_of_ascii c) in
  ((9 <=? n) && (n <=? 13)) || (n =? 32) || (n =? 160).

Fixpoint drop_white_space (s : list ascii) : list ascii :=
  match s with
  | c :: t => if is_white_space c then drop_white_space t else s
  | [] => []
  end.

Definition trim (s : list ascii) : list ascii :=
  rev (drop_white_space (rev (drop_white_space s))).

Definition digit_of (c : ascii) : option Z :=
  let n := Z.of_N (N_of_ascii c) in
  if (48 <=? n) && (n <=? 57) then Some (n - 48)
  else if (97 <=? n) && (n <=? 102) then Some (n - 87)
  else if (65 <=? n) && (n <=? 70) then Some (n - 55)
  else None.

Definition digit_in (base : Z) (c : ascii) : option Z :=
  match digit_of c with
  | Some v => if v <? base then Some v else None
  | None => None
  end.

(** The longest prefix of digits of the base, and what follows it. *)
Fixpoint span_digits (base : Z) (s : list ascii) : list Z * list ascii :=
  match s with
  | c :: t =>
      match digit_in base c with
      | Some v => let '(ds, r) := span_digits base t in (v :: ds, r)
      | None => ([], s)
      end
  | [] => ([], [])
  end.

Definition digits_value (base : Z) (ds : list Z) : Z :=
  fold_left (fun acc d => acc * base + d) ds 0.

Definition nonempty {A : Type} (l : list A) : bool :=
  match l with
  | [] => false
  | _ :: _ => true
  end.

(** ExponentPart, optional, up to the end of the literal. *)
Definition exponent_part (s : list ascii) : option Z :=
  match s with
  | [] => Some 0
  | c :: t =>
      if is_char c "e" || is_char c "E"
      then
        let '(neg, u) :=
          match t with
          | c' :: t' =>
              if is_char c' "+" then (false, t')
              else if is_char c' "-" then (true, t')
              else (false, t)
          | [] => (false, t)
          end in
        match span_digits 10 u with
        | (d :: ds, []) =>
            let v := digits_value 10 (d :: ds) in
            Some (if neg then - v else v)
        | _ => None
        end
      else None
  end.

(** StrUnsignedDecimalLiteral, under the sign read before it. *)
Definition unsigned_decimal (negative : bool) (s : list ascii) : number :=
  if String.eqb (string_of_list_ascii s) "Infinity" then Infinity negative
  else
    let '(ip, r1) := span_digits 10 s in
    let '(dot, (fp, r2)) :=
      match r1 with
      | c :: t =>
          if is_char c "." then (true, span_digits 10 t)
          else (false, ([], r1))
      | [] => (false, ([], []))
      end in
    if nonempty ip || (dot && nonempty fp)
    then
      match exponent_part r2 with
      | Some e =>
          of_decimal negative
            (digits_value 10 (ip ++ fp)) (e - Z.of_nat (List.length fp))
      | None => NaN
      end
    else NaN.

(** NonDecimalIntegerLiteral: [0x], [0o] or [0b] and digits. *)
Definition non_decimal (s : list ascii) : option number :=
  match s with
  | z :: x :: ds =>
      let base :=
        if is_char x "x" || is_char x "X" then Some 16
        else if is_char x "o" || is_char x "O" then Some 8
        else if is_char x "b" || is_char x "B" then Some 2
        else None in
      match base with
      | Some b =>
          if is_char z "0"
          then
            match span_digits b ds with
            | (d :: vs, []) =>
                Some (round_binary64 false (digits_value b (d :: vs)) 1)
            | _ => Some NaN
            end
          else None
      | None => None
      end
  | _ => None
  end.

(** StringToNumber. *)
Definition StringToNumber (s : string) : number :=
  match trim (list_ascii_of_string s) with
  | [] => Finite 0
  | c :: t =>
      if is_char c "+" then unsigned_decimal false t
      else if is_char c "-" then unsigned_decimal true t
      else
        match non_decimal (c :: t) with
        | Some v => v
        | None => unsigned_decimal false (c :: t)
        end
  end.

(** [Number (v)] for [v : string | null]. *)
Definition Number (v : option string) : number :=
  match v with
  | None => Finite 0
  | Some s => StringToNumber s
  end.

(** *** Arithmetic: the exact result, rounded to binary64 *)

(** The binary64 value nearest to the rational [q]. *)
Definition round (q : Q) : number :=
  match Qnum q with
  | 0 => Finite 0
  | Z.pos n => round_binary64 false (Z.pos n) (Z.pos (Qden q))
  | Z.neg n => round_binary64 true (Z.pos n) (Z.pos (Qden q))
  end.

Definition opp (x : number) : number :=
  match x with
  | NaN => NaN
  | Infinity b => Infinity (negb b)
  | Finite q => Finite (- q)
  end.

(** [x + y]. *)
Definition add (x y : number) : number :=
  match x, y with
  | NaN, _ | _, NaN => NaN
  | Infinity a, Infinity b => if Bool.eqb a b then Infinity a else NaN
  | Infinity a, Finite _ => Infinity a
  | Finite _, Infinity b => Infinity b
  | Finite p, Finite q => round (p + q)
  end.

(** [x - y]. *)
Definition sub (x y : number) : number := add x (opp y).

Definition is_negative (q : Q) : bool := Qnum q <? 0.

(** [x * y]. *)
Definition mul (x y : number) : number :=
  match x, y with
  | NaN, _ | _, NaN => NaN
  | Infinity a, Infinity b => Infinity (xorb a b)
  | Infinity a, Finite q =>
      if Qeq_bool q 0 then NaN else Infinity (xorb a (is_negative q))
  | Finite p, Infinity b =>
      if Qeq_bool p 0 then NaN else Infinity (xorb (is_negative p) b)
  | Finite p, Finite q => round (p * q)
  end.

(** [x / y]; a zero divisor is taken as +0. *)
Definition div (x y : number) : number :=
  match x, y with
  | NaN, _ | _, NaN => NaN
  | Infinity _, Infinity _ => NaN
  | Infinity a, Finite q => Infinity (xorb a (is_negative q))
  | Finite _, Infinity _ => Finite 0
  | Finite p, Finite q =>
      if Qeq_bool q 0
      then if Qeq_bool p 0 then NaN else Infinity (is_negative p)
      else round (p / q)
  end.

(** [Math.ceil] and [Math.floor]: the integer above or below a binary64
    value is a binary64 value, so nothing is rounded. *)
Definition Math_ceil (x : number) : number :=
  match x with
  | Finite q => Finite (inject_Z (Qceiling q))
  | _ => x
  end.

Definition Math_floor (x : number) : number :=
  match x with
  | Finite q => Finite (inject_Z (Qfloor q))
  | _ => x
  end.

(** [x < y], [x > y], [x >= y] and [x === y]; false as soon as one side
    is NaN. *)
Definition ltb (x y : number) : bool :=
  if is_NaN x || is_NaN y then false else negb (leb y x).

Definition gtb (x y : number) : bool := ltb y x.

Definition geb (x y : number) : bool := leb y x.

Definition eqb (x y : number) : bool := leb x y && leb y x.

(** ToLength: NaN and what is below 1 give 0, a fraction is truncated,
    and the length is capped at 2^53 - 1. *)
Definition ToLength (x : number) : Z :=
  match x with
  | NaN => 0
  | Infinity true => 0
  | Infinity false => 2 ^ 53 - 1
  | Finite q => Z.min (Z.max (Z.quot (Qnum q) (Z.pos (Qden q))) 0) (2 ^ 53 - 1)
  end.

(** [Array.from ({ length: n }, (_, i) => f i)]: creating the array
    raises [RangeError] when the length exceeds 2^32 - 1; else the
    callback is applied to the indices [0 .. length - 1] in order. *)
Definition Array_from_length {A : Type} (n : number) (f : number -> A)
  : JS.outcome (list A) :=
  let len := ToLength n in
  if 2 ^ 32 <=? len
  then JS.RangeError
  else JS.Returns (map (fun i => f (of_Z (Z.of_nat i))) (seq 0 (Z.to_nat len))).

End JSNum.

(** ** The interfaces *)

Module PaginationParams.
Record t : Type := mk {
  page : option JSNum.number;
  limit : option JSNum.number;
  totalItems : JSNum.number
}.
End PaginationParams.

Module Items.
Record t : Type := mk {
  start : JSNum.number;
  end_ : JSNum.number
}.
End Items.

Module PaginationResult.
Record t : Type := mk {
  currentPage : JSNum.number;
  totalPages : JSNum.number;
  pageSize : JSNum.number;
  totalItems : JSNum.number;
  hasNextPage : bool;
  hasPreviousPage : bool;
  nextPage : option JSNum.number;
  previousPage : option JSNum.number;
  offset : JSNum.number;
  items : Items.t
}.
End PaginationResult.

(** The pair [{ page, limit }] that [parseSearchParams] returns. *)
Module PageLimit.
Record t : Type := mk {
  page : JSNum.number;
  limit : JSNum.number
}.
End PageLimit.

(** An element of the array [generateMetaTags] returns. *)
Module MetaTag.
Record t : Type := mk {
  property : string;
  content : string
}.
End MetaTag.

(** [URLSearchParams]: the name-value pairs of a query string, in order;
    [get] returns the value of the first pair with the name, or [null]. *)
Module URLSearchParams.
Definition t : Type := list (string * string).

Fixpoint get (searchParams : t) (name : string) : option string :=
  match searchParams with
  | [] => None
  | (k, v) :: rest => if String.eqb k name then Some v else get rest name
  end.
End URLSearchParams.


(** ** The class *)

Module Pagination.

Definition DEFAULT_PAGE : Z := 1.
Definition DEFAULT_LIMIT : Z := 10.
Definition MAX_LIMIT : Z := 100.

Definition calculate (params : PaginationParams.t) : PaginationResult.t :=
  let page :=
    JSNum.Math_max
      (JS.nullish (PaginationParams.page params) (JSNum.of_Z DEFAULT_PAGE))
      (JSNum.of_Z 1) in
  let limit :=
    JSNum.Math_min
      (JSNum.Math_max
         (JS.nullish (PaginationParams.limit params) (JSNum.of_Z DEFAULT_LIMIT))
         (JSNum.of_Z 1))
      (JSNum.of_Z MAX_LIMIT) in
  let totalItems :=
    JSNum.Math_max (PaginationParams.totalItems params) (JSNum.of_Z 0) in
  let totalPages := JSNum.Math_ceil (JSNum.div totalItems limit) in
  let currentPage :=
    JSNum.Math_min page (JSNum.Math_max totalPages (JSNum.of_Z 1)) in
  let offset := JSNum.mul (JSNum.sub currentPage (JSNum.of_Z 1)) limit in
  let hasNextPage := JSNum.ltb currentPage totalPages in
  let hasPreviousPage := JSNum.gtb currentPage (JSNum.of_Z 1) in
  {| PaginationResult.currentPage := currentPage;
     PaginationResult.totalPages := totalPages;
     PaginationResult.pageSize := limit;
     PaginationResult.totalItems := totalItems;
     PaginationResult.hasNextPage := hasNextPage;
     PaginationResult.hasPreviousPage := hasPreviousPage;
     PaginationResult.nextPage :=
       if hasNextPage
       then Some (JSNum.add currentPage (JSNum.of_Z 1))
       else None;
     PaginationResult.previousPage :=
       if hasPreviousPage
       then Some (JSNum.sub currentPage (JSNum.of_Z 1))
       else None;
     PaginationResult.offset := offset;
     PaginationResult.items :=
       {| Items.start :=
            if JSNum.eqb totalItems (JSNum.of_Z 0)
            then JSNum.of_Z 0
            else JSNum.add offset (JSNum.of_Z 1);
          Items.end_ := JSNum.Math_min (JSNum.add offset limit) totalItems |} |}.

(** An element of the array [getPageNumbers] returns, of type
    [number | string]. *)
Inductive entry : Type :=
| Num (n : JSNum.number)
| Str (s : string).

(** The loop [for (let i = start; i <= end; i++) pages.push (i)], from
    the counter value [i], with at most [fuel] tests of its condition:
    [OutOfFuel] when the condition still holds after them. *)
Fixpoint push_window
    (fuel : nat) (i end_ : JSNum.number) (pages : list entry)
  : JS.outcome (list entry) :=
  match fuel with
  | O => JS.OutOfFuel
  | S fuel' =>
      if JSNum.leb i end_
      then
        push_window fuel' (JSNum.add i (JSNum.of_Z 1)) end_
                    (JS.push pages (Num i))
      else JS.Returns pages
  end.

(** The values of [start] and [end] when the loop is reached: the
    initial window, the adjustment near the start, then the adjustment
    near the end, each assignment in the order of the source. *)
Definition window (currentPage totalPages maxVisible : JSNum.number)
  : JSNum.number * JSNum.number :=
  let halfVisible :=
    JSNum.Math_floor (JSNum.div maxVisible (JSNum.of_Z 2)) in
  let start :=
    JSNum.Math_max (JSNum.sub currentPage halfVisible) (JSNum.of_Z 2) in
  let end_ :=
    JSNum.Math_min (JSNum.add currentPage halfVisible)
                   (JSNum.sub totalPages (JSNum.of_Z 1)) in
  let '(start, end_) :=
    if JSNum.leb start (JSNum.of_Z 2)
    then
      let end_ :=
        JSNum.Math_min maxVisible (JSNum.sub totalPages (JSNum.of_Z 1)) in
      let start := JSNum.of_Z 2 in
      (start, end_)
    else (start, end_) in
  let '(start, end_) :=
    if JSNum.geb end_ (JSNum.sub totalPages (JSNum.of_Z 1))
    then
      let start :=
        JSNum.Math_max
          (JSNum.of_Z 2)
          (JSNum.add (JSNum.sub totalPages maxVisible) (JSNum.of_Z 1)) in
      let end_ := JSNum.sub totalPages (JSNum.of_Z 1) in
      (start, end_)
    else (start, end_) in
  (start, end_).

(** [getPageNumbers], its loop allowed [fuel] tests of its condition. *)
Definition getPageNumbers
    (fuel : nat) (currentPage totalPages : JSNum.number)
    (maxVisible : option JSNum.number)
  : JS.outcome (list entry) :=
  let maxVisible := JS.default_arg maxVisible (JSNum.of_Z 5) in
  if JSNum.leb totalPages maxVisible
  then
    JSNum.Array_from_length totalPages
      (fun i => Num (JSNum.add i (JSNum.of_Z 1)))
  else
    let pages := [] in
    let pages := JS.push pages (Num (JSNum.of_Z 1)) in
    let '(start, end_) := window currentPage totalPages maxVisible in
    let pages :=
      if JSNum.gtb start (JSNum.of_Z 2)
      then JS.push pages (Str "...")
      else pages in
    match push_window fuel start end_ pages with
    | JS.Returns pages =>
        let pages :=
          if JSNum.ltb end_ (JSNum.sub totalPages (JSNum.of_Z 1))
          then JS.push pages (Str "...")
          else pages in
        let pages :=
          if JSNum.gtb totalPages (JSNum.of_Z 1)
          then JS.push pages (Num totalPages)
          else pages in
        JS.Returns pages
    | JS.RangeError => JS.RangeError
    | JS.OutOfFuel => JS.OutOfFuel
    end.

Definition parseSearchParams (searchParams : URLSearchParams.t)
  : PageLimit.t :=
  let page :=
    JSNum.Math_max
      (JSNum.or (JSNum.Number (URLSearchParams.get searchParams "page"))
                (JSNum.of_Z DEFAULT_PAGE))
      (JSNum.of_Z 1) in
  let limit :=
    JSNum.Math_min
      (JSNum.Math_max
         (JSNum.or (JSNum.Number (URLSearchParams.get searchParams "limit"))
                   (JSNum.of_Z DEFAULT_LIMIT))
         (JSNum.of_Z 1))
      (JSNum.of_Z MAX_LIMIT) in
  {| PageLimit.page := page; PageLimit.limit := limit |}.

(** [generateMetaTags].  The template literals convert [previousPage]
    and [nextPage], of type [number | null], to strings; that
    conversion belongs to the language, and is a parameter here. *)
Section MetaTags.

Variable to_string : option JSNum.number -> string.

Definition generateMetaTags
    (baseUrl : string) (pagination : PaginationResult.t) : list MetaTag.t :=
  let tags := [] in
  let tags :=
    if PaginationResult.hasPreviousPage pagination
    then
      JS.push tags
        {| MetaTag.property := "prev";
           MetaTag.content :=
             baseUrl ++ "?page="
               ++ to_string (PaginationResult.previousPage pagination) |}
    else tags in
  let tags :=
    if PaginationResult.hasNextPage pagination
    then
      JS.push tags
        {| MetaTag.property := "next";
           MetaTag.content :=
             baseUrl ++ "?page="
               ++ to_string (PaginationResult.nextPage pagination) |}
    else tags in
  tags.

End MetaTags.

End Pagination.


(** ** The two integer methods over exact integers

    [calculate] and [getPageNumbers] read over unbounded integers: the
    same lines, with [+], [-], [*] exact, [Math.ceil (a / b)] the
    ceiling of the quotient and [Math.floor (m / 2)] its floor.  This is
    what the specification describes; the source computes it as long as
    no operation rounds.  The embedding of the source is module
    [Pagination] above; this module is what the proofs compare it
    with. *)

Module Exact.

Definition Math_max (a b : Z) : Z := Z.max a b.
Definition Math_min (a b : Z) : Z := Z.min a b.

(** The floor of [a / b], for [b > 0]. *)
Definition Math_floor_div (a b : Z) : Z := a / b.

(** The ceiling of [a / b], for [b > 0]. *)
Definition Math_ceil_div (a b : Z) : Z := - ((- a) / b).

(** The list [f 0, ..., f (n - 1)], empty for [n <= 0]. *)
Definition Array_from_length {A : Type} (n : Z) (f : Z -> A) : list A :=
  map (fun i => f (Z.of_nat i)) (seq 0 (Z.to_nat n)).

Module Params.
Record t : Type := mk {
  page : option Z;
  limit : option Z;
  totalItems : Z
}.
End Params.

Module Items.
Record t : Type := mk {
  start : Z;
  end_ : Z
}.
End Items.

Module Result.
Record t : Type := mk {
  currentPage : Z;
  totalPages : Z;
  pageSize : Z;
  totalItems : Z;
  hasNextPage : bool;
  hasPreviousPage : bool;
  nextPage : option Z;
  previousPage : option Z;
  offset : Z;
  items : Items.t
}.
End Result.

Definition calculate (params : Params.t) : Result.t :=
  let page :=
    Math_max (JS.nullish (Params.page params) Pagination.DEFAULT_PAGE) 1 in
  let limit :=
    Math_min
      (Math_max (JS.nullish (Params.limit params) Pagination.DEFAULT_LIMIT) 1)
      Pagination.MAX_LIMIT in
  let totalItems := Math_max (Params.totalItems params) 0 in
  let totalPages := Math_ceil_div totalItems limit in
  let currentPage := Math_min page (Math_max totalPages 1) in
  let offset := (currentPage - 1) * limit in
  let hasNextPage := currentPage <? totalPages in
  let hasPreviousPage := currentPage >? 1 in
  {| Result.currentPage := currentPage;
     Result.totalPages := totalPages;
     Result.pageSize := limit;
     Result.totalItems := totalItems;
     Result.hasNextPage := hasNextPage;
     Result.hasPreviousPage := hasPreviousPage;
     Result.nextPage :=
       if hasNextPage then Some (currentPage + 1) else None;
     Result.previousPage :=
       if hasPreviousPage then Some (currentPage - 1) else None;
     Result.offset := offset;
     Result.items :=
       {| Items.start := if totalItems =? 0 then 0 else offset + 1;
          Items.end_ := Math_min (offset + limit) totalItems |} |}.

(** An element of the array [getPageNumbers] returns, of type
    [number | string]. *)
Inductive entry : Type :=
| Num (n : Z)
| Str (s : string).

(** The loop [for (let i = start; i <= end; i++) pages.push (i)], run
    for at most [fuel] iterations from the counter value [i]. *)
Fixpoint push_window (fuel : nat) (i end_ : Z) (pages : list entry)
  : list entry :=
  match fuel with
  | O => pages
  | S fuel' =>
      if i <=? end_
      then push_window fuel' (i + 1) end_ (JS.push pages (Num i))
      else pages
  end.

(** The values of [start] and [end] when the loop is reached: the
    initial window, the adjustment near the start, then the adjustment
    near the end, each assignment in the order of the source. *)
Definition window (currentPage totalPages maxVisible : Z) : Z * Z :=
  let halfVisible := Math_floor_div maxVisible 2 in
  let start := Math_max (currentPage - halfVisible) 2 in
  let end_ := Math_min (currentPage + halfVisible) (totalPages - 1) in
  let '(start, end_) :=
    if start <=? 2
    then
      let end_ := Math_min maxVisible (totalPages - 1) in
      let start := 2 in
      (start, end_)
    else (start, end_) in
  let '(start, end_) :=
    if end_ >=? totalPages - 1
    then
      let start := Math_max 2 (totalPages - maxVisible + 1) in
      let end_ := totalPages - 1 in
      (start, end_)
    else (start, end_) in
  (start, end_).

Definition getPageNumbers
    (currentPage totalPages : Z) (maxVisible : option Z) : list entry :=
  let maxVisible := JS.default_arg maxVisible 5 in
  if totalPages <=? maxVisible
  then Array_from_length totalPages (fun i => Num (i + 1))
  else
    let pages := [] in
    let pages := JS.push pages (Num 1) in
    let '(start, end_) := window currentPage totalPages maxVisible in
    let pages := if start >? 2 then JS.push pages (Str "...") else pages in
    let pages :=
      push_window (Z.to_nat (end_ + 1 - start)) start end_ pages in
    let pages :=
      if end_ <? totalPages - 1 then JS.push pages (Str "...") else pages in
    let pages :=
      if totalPages >? 1 then JS.push pages (Num totalPages) else pages in
    pages.

End Exact.

(** ** Integers as numbers *)

(** The arguments of [calculate] when they are the integers [page],
    [limit] and [totalItems]. *)
Definition int_params (page limit : option Z) (totalItems : Z)
  : PaginationParams.t :=
  {| PaginationParams.page := option_map JSNum.of_Z page;
     PaginationParams.limit := option_map JSNum.of_Z limit;
     PaginationParams.totalItems := JSNum.of_Z totalItems |}.

(** The result whose fields are the integers of [r]. *)
Definition int_result (r : Exact.Result.t) : PaginationResult.t :=
  {| PaginationResult.currentPage := JSNum.of_Z (Exact.Result.currentPage r);
     PaginationResult.totalPages := JSNum.of_Z (Exact.Result.totalPages r);
     PaginationResult.pageSize := JSNum.of_Z (Exact.Result.pageSize r);
     PaginationResult.totalItems := JSNum.of_Z (Exact.Result.totalItems r);
     PaginationResult.hasNextPage := Exact.Result.hasNextPage r;
     PaginationResult.hasPreviousPage := Exact.Result.hasPreviousPage r;
     PaginationResult.nextPage :=
       option_map JSNum.of_Z (Exact.Result.nextPage r);
     PaginationResult.previousPage :=
       option_map JSNum.of_Z (Exact.Result.previousPage r);
     PaginationResult.offset := JSNum.of_Z (Exact.Result.offset r);
     PaginationResult.items :=
       {| Items.start := JSNum.of_Z (Exact.Items.start (Exact.Result.items r));
          Items.end_ := JSNum.of_Z (Exact.Items.end_ (Exact.Result.items r)) |} |}.

(** The page entry whose number is the integer of [e]. *)
Definition int_entry (e : Exact.entry) : Pagination.entry :=
  match e with
  | Exact.Num n => Pagination.Num (JSNum.of_Z n)
  | Exact.Str s => Pagination.Str s
  end.

(** The arguments of [getPageNumbers] that are safe integers (below
    2^53 in absolute value) and ask for no array of 2^32 elements or
    more. *)
Definition page_args (currentPage totalPages maxVisible : Z) : Prop :=
  - 2 ^ 53 < currentPage < 2 ^ 53
  /\ - 2 ^ 53 < totalPages < 2 ^ 53
  /\ - 2 ^ 53 < maxVisible < 2 ^ 53
  /\ (totalPages <= maxVisible -> totalPages < 2 ^ 32).

(** Enough tests of the loop condition for a window of [maxVisible + 1]
    pages. *)
Definition enough_fuel (fuel : nat) (maxVisible : Z) : Prop :=
  (Z.to_nat (Z.max maxVisible 0) + 2 <= fuel)%nat.

(** The numeric entries of a list of page entries, in order. *)
Fixpoint entry_numbers (l : list Pagination.entry) : list JSNum.number :=
  match l with
  | [] => []
  | Pagination.Num n :: l' => n :: entry_numbers l'
  | Pagination.Str _ :: l' => entry_numbers l'
  end.


(** ** The algorithm of the specification for the page selector

    Written from the words of section 4.2 of the specification, to be
    compared with [Pagination.getPageNumbers]. *)

Module Spec.


(** The integers of the interval [[a, b]], in increasing order. *)
Definition interval (a b : Z) : list Z :=
  map (fun k => a + Z.of_nat k) (seq 0 (Z.to_nat (b + 1 - a))).

Definition ellipsis : Exact.entry := Exact.Str "...".

(** The window after the edge correction near the start. *)
Definition near_start (currentPage totalPages maxVisible : Z) : Z * Z :=
  let half := maxVisible / 2 in
  let start := Z.max (currentPage - half) 2 in
  let end_ := Z.min (currentPage + half) (totalPages - 1) in
  if start <=? 2
  then (2, Z.min maxVisible (totalPages - 1))
  else (start, end_).

(** The window after the edge correction near the end, applied to the
    outcome of the correction near the start. *)
Definition near_end (currentPage totalPages maxVisible : Z) : Z * Z :=
  let '(start, end_) := near_start currentPage totalPages maxVisible in
  if totalPages - 1 <=? end_
  then (Z.max 2 (totalPages - maxVisible + 1), totalPages - 1)
  else (start, end_).

Definition pageNumbers (currentPage totalPages maxVisible : Z)
  : list Exact.entry :=
  if totalPages <=? maxVisible
  then map Exact.Num (interval 1 totalPages)
  else
    let '(start, end_) := near_end currentPage totalPages maxVisible in
    [Exact.Num 1]
      ++ (if 2 <? start then [ellipsis] else [])
      ++ map Exact.Num (interval start end_)
      ++ (if end_ <? totalPages - 1 then [ellipsis] else [])
      ++ (if 1 <? totalPages then [Exact.Num totalPages] else []).

End Spec.

(** The numeric entries of a sequence of page entries, in order. *)
Fixpoint numbers (l : list Exact.entry) : list Z :=
  match l with
  | [] => []
  | Exact.Num n :: l' => n :: numbers l'
  | Exact.Str _ :: l' => numbers l'
  end.


(** * The methods over exact integers

    Lemmas about module [Exact].  The theorems about the source follow
    from them where no operation rounds, through [calculate_exact] and
    [getPageNumbers_exact]. *)

Import Pagination.

(** ** [Exact.calculate] *)

Section Calculate.

Variable params : Exact.Params.t.

Let r := Exact.calculate params.
Let requested_page := JS.nullish (Exact.Params.page params) Pagination.DEFAULT_PAGE.
Let requested_limit :=
  JS.nullish (Exact.Params.limit params) Pagination.DEFAULT_LIMIT.

Lemma pageSize_clamped :
  Exact.Result.pageSize r = Z.min (Z.max requested_limit 1) 100.
Proof. reflexivity. Qed.

Lemma pageSize_range : 1 <= Exact.Result.pageSize r <= 100.
Proof. rewrite pageSize_clamped. lia. Qed.

Lemma totalItems_clamped :
  Exact.Result.totalItems r
  = Z.max (Exact.Params.totalItems params) 0.
Proof. reflexivity. Qed.

Lemma totalPages_eq :
  Exact.Result.totalPages r
  = Exact.Math_ceil_div (Exact.Result.totalItems r)
                     (Exact.Result.pageSize r).
Proof. reflexivity. Qed.

Lemma currentPage_eq :
  Exact.Result.currentPage r
  = Z.min (Z.max requested_page 1) (Z.max (Exact.Result.totalPages r) 1).
Proof. reflexivity. Qed.

End Calculate.

(** [Math_ceil_div a b] is the least integer [c] with [a <= c * b]. *)
Lemma Math_ceil_div_bounds (a b : Z) :
  0 < b ->
  (Exact.Math_ceil_div a b - 1) * b < a <= Exact.Math_ceil_div a b * b.
Proof.
  intros Hb. unfold Exact.Math_ceil_div.
  pose proof (Z.div_mod (- a) b ltac:(lia)) as Hdm.
  pose proof (Z.mod_pos_bound (- a) b Hb) as Hr.
  nia.
Qed.

Lemma Math_ceil_div_least (a b c : Z) :
  0 < b -> a <= c * b -> Exact.Math_ceil_div a b <= c.
Proof.
  intros Hb Hc. pose proof (Math_ceil_div_bounds a b Hb) as H. nia.
Qed.

(** [Math_ceil_div a b] is the ceiling of the rational [a / b]. *)
Lemma Math_ceil_div_Qceiling (a b : Z) :
  0 < b ->
  Exact.Math_ceil_div a b = Qceiling (inject_Z a / inject_Z b).
Proof.
  intros Hb.
  assert (Heq : (inject_Z a / inject_Z b == a # Z.to_pos b)%Q).
  { rewrite (Qmake_Qdiv a (Z.to_pos b)). rewrite Z2Pos.id by exact Hb.
    reflexivity. }
  rewrite (Qceiling_comp _ _ Heq).
  unfold Exact.Math_ceil_div, Qceiling, Qfloor, Qopp. simpl.
  rewrite Z2Pos.id by exact Hb. reflexivity.
Qed.

Lemma Math_ceil_div_0 (b : Z) : Exact.Math_ceil_div 0 b = 0.
Proof. unfold Exact.Math_ceil_div. destruct b; reflexivity. Qed.

Lemma totalPages_nonneg (params : Exact.Params.t) :
  0 <= Exact.Result.totalPages (Exact.calculate params).
Proof.
  rewrite totalPages_eq.
  pose proof (pageSize_range params) as Hl.
  pose proof (totalItems_clamped params) as Ht.
  pose proof (Math_ceil_div_bounds
                (Exact.Result.totalItems (Exact.calculate params))
                (Exact.Result.pageSize (Exact.calculate params))
                ltac:(lia)) as Hc.
  nia.
Qed.

Lemma currentPage_range (params : Exact.Params.t) :
  1 <= Exact.Result.currentPage (Exact.calculate params)
    <= Z.max (Exact.Result.totalPages (Exact.calculate params)) 1.
Proof. rewrite currentPage_eq. lia. Qed.

Ltac calc_facts params :=
  pose proof (pageSize_range params);
  pose proof (totalItems_clamped params);
  pose proof (totalPages_nonneg params);
  pose proof (currentPage_range params).

(** Over exact integers: for an input with [totalItems >= 0], the page size is the
    requested limit clamped into [[1, 100]] and [totalPages] is the
    ceiling of [totalItems / pageSize]: the least integer whose product
    with the page size reaches [totalItems]; it is 0 when [totalItems]
    is 0. *)
Lemma exact_calculate_totalPages_ceiling (params : Exact.Params.t) :
  0 <= Exact.Params.totalItems params ->
  let r := Exact.calculate params in
  let totalItems := Exact.Params.totalItems params in
  let limit := Exact.Result.pageSize r in
  let totalPages := Exact.Result.totalPages r in
  limit
  = Z.min (Z.max (JS.nullish (Exact.Params.limit params) 10) 1) 100
  /\ 1 <= limit <= 100
  /\ totalPages = Qceiling (inject_Z totalItems / inject_Z limit)
  /\ (totalPages - 1) * limit < totalItems <= totalPages * limit
  /\ (totalItems = 0 -> totalPages = 0).
Proof.
  intros Hti r totalItems limit totalPages.
  pose proof (pageSize_range params) as Hl. fold r limit in Hl.
  assert (Htp : totalPages = Exact.Math_ceil_div totalItems limit).
  { subst totalPages limit r. rewrite totalPages_eq, totalItems_clamped.
    f_equal. subst totalItems. lia. }
  split; [reflexivity |]. split; [exact Hl |].
  split; [rewrite Htp; apply Math_ceil_div_Qceiling; lia |].
  split; [rewrite Htp; apply Math_ceil_div_bounds; lia |].
  intros H0. rewrite Htp, H0. apply Math_ceil_div_0.
Qed.


(** Over exact integers: for every input the current page lies in
    [[1, max (totalPages, 1)]]; it is the requested page (default 1,
    raised to 1) when that does not exceed [max (totalPages, 1)], and
    [max (totalPages, 1)] otherwise.  [Exact.calculate] is a total function:
    there is no input on which it fails. *)
Lemma exact_calculate_currentPage_range (params : Exact.Params.t) :
  let r := Exact.calculate params in
  let page := Z.max (JS.nullish (Exact.Params.page params) 1) 1 in
  let last := Z.max (Exact.Result.totalPages r) 1 in
  1 <= Exact.Result.currentPage r <= last
  /\ Exact.Result.currentPage r = (if last <? page then last else page).
Proof.
  intros r page last. split.
  - apply currentPage_range.
  - subst r page last. rewrite currentPage_eq.
    destruct (Z.ltb_spec
                (Z.max (Exact.Result.totalPages (Exact.calculate params)) 1)
                (Z.max (JS.nullish (Exact.Params.page params) 1) 1));
      unfold Pagination.DEFAULT_PAGE; lia.
Qed.

(** Over exact integers: the offset is [(currentPage - 1) * pageSize], where [pageSize]
    is the requested limit clamped into [[1, 100]]. *)
Lemma exact_calculate_offset (params : Exact.Params.t) :
  let r := Exact.calculate params in
  Exact.Result.offset r
  = (Exact.Result.currentPage r - 1) * Exact.Result.pageSize r
  /\ Exact.Result.pageSize r
     = Z.min (Z.max (JS.nullish (Exact.Params.limit params) 10) 1) 100.
Proof. intros r. split; reflexivity. Qed.

Lemma offset_eq (params : Exact.Params.t) :
  Exact.Result.offset (Exact.calculate params)
  = (Exact.Result.currentPage (Exact.calculate params) - 1)
    * Exact.Result.pageSize (Exact.calculate params).
Proof. reflexivity. Qed.

Lemma offset_nonneg (params : Exact.Params.t) :
  0 <= Exact.Result.offset (Exact.calculate params).
Proof. rewrite offset_eq. calc_facts params. nia. Qed.

Lemma items_eq (params : Exact.Params.t) :
  Exact.Result.items (Exact.calculate params)
  = {| Exact.Items.start :=
         if Exact.Result.totalItems (Exact.calculate params) =? 0
         then 0
         else Exact.Result.offset (Exact.calculate params) + 1;
       Exact.Items.end_ :=
         Z.min (Exact.Result.offset (Exact.calculate params)
                + Exact.Result.pageSize (Exact.calculate params))
               (Exact.Result.totalItems (Exact.calculate params)) |}.
Proof. reflexivity. Qed.

(** With no items there are no pages, the current page is 1 and the
    offset is 0. *)
Lemma no_items_offset (params : Exact.Params.t) :
  Exact.Result.totalItems (Exact.calculate params) = 0 ->
  Exact.Result.offset (Exact.calculate params) = 0.
Proof.
  intros H0. rewrite offset_eq, currentPage_eq, totalPages_eq, H0.
  rewrite Math_ceil_div_0. unfold Pagination.DEFAULT_PAGE. lia.
Qed.

(** Over exact integers: in every result, [items.end] is
    [min (offset + pageSize, totalItems)]; [items.start] is 0 exactly
    when [totalItems] (the input raised to 0) is 0, and [offset + 1]
    otherwise; the range is [{0, 0}] when [totalItems] is 0. *)
Lemma exact_calculate_items_range (params : Exact.Params.t) :
  let r := Exact.calculate params in
  let items := Exact.Result.items r in
  Exact.Result.totalItems r = Z.max (Exact.Params.totalItems params) 0
  /\ Exact.Items.end_ items
     = Z.min (Exact.Result.offset r + Exact.Result.pageSize r)
             (Exact.Result.totalItems r)
  /\ (Exact.Items.start items = 0 <-> Exact.Result.totalItems r = 0)
  /\ (Exact.Result.totalItems r <> 0 ->
      Exact.Items.start items = Exact.Result.offset r + 1)
  /\ (Exact.Result.totalItems r = 0 ->
      items = {| Exact.Items.start := 0; Exact.Items.end_ := 0 |}).
Proof.
  intros r items. subst items r. rewrite items_eq.
  cbn [Exact.Items.start Exact.Items.end_].
  pose proof (offset_nonneg params) as Ho.
  pose proof (pageSize_range params) as Hl.
  split; [reflexivity |]. split; [reflexivity |].
  destruct (Z.eqb_spec (Exact.Result.totalItems (Exact.calculate params)) 0)
    as [H0 | Hne].
  - split; [split; intros; [exact H0 | reflexivity] |].
    split; [intros Hc; contradiction |].
    intros _. rewrite (no_items_offset params H0), H0. f_equal. lia.
  - split; [split; intros; [lia | contradiction] |].
    split; [reflexivity | intros Hc; contradiction].
Qed.

(** Over exact integers: in every result, [hasNextPage] is [currentPage < totalPages],
    [hasPreviousPage] is [currentPage > 1], and [nextPage]
    ([previousPage]) is [null] exactly when the flag is false. *)
Lemma exact_calculate_has_flags (params : Exact.Params.t) :
  let r := Exact.calculate params in
  Exact.Result.hasNextPage r
  = (Exact.Result.currentPage r <? Exact.Result.totalPages r)
  /\ Exact.Result.hasPreviousPage r
     = (Exact.Result.currentPage r >? 1)
  /\ (Exact.Result.hasNextPage r = true
      <-> Exact.Result.currentPage r < Exact.Result.totalPages r)
  /\ (Exact.Result.hasPreviousPage r = true
      <-> Exact.Result.currentPage r > 1)
  /\ (Exact.Result.nextPage r = None
      <-> Exact.Result.hasNextPage r = false)
  /\ (Exact.Result.previousPage r = None
      <-> Exact.Result.hasPreviousPage r = false).
Proof.
  intros r.
  assert (Hn : Exact.Result.nextPage r
               = if Exact.Result.hasNextPage r
                 then Some (Exact.Result.currentPage r + 1) else None)
    by reflexivity.
  assert (Hp : Exact.Result.previousPage r
               = if Exact.Result.hasPreviousPage r
                 then Some (Exact.Result.currentPage r - 1) else None)
    by reflexivity.
  assert (Hnf : Exact.Result.hasNextPage r
                = (Exact.Result.currentPage r
                   <? Exact.Result.totalPages r)) by reflexivity.
  assert (Hpf : Exact.Result.hasPreviousPage r
                = (Exact.Result.currentPage r >? 1)) by reflexivity.
  split; [exact Hnf |]. split; [exact Hpf |].
  split; [rewrite Hnf; apply Z.ltb_lt |].
  split; [rewrite Hpf, Z.gtb_ltb, Z.ltb_lt; lia |].
  rewrite Hn, Hp.
  destruct (Exact.Result.hasNextPage r),
    (Exact.Result.hasPreviousPage r);
    repeat split; intros; congruence.
Qed.

(** Over exact integers: in every result, [nextPage] is [currentPage + 1] when
    [hasNextPage] is true and [previousPage] is [currentPage - 1] when
    [hasPreviousPage] is true (and each is [null] otherwise). *)
Lemma exact_calculate_adjacent_pages (params : Exact.Params.t) :
  let r := Exact.calculate params in
  Exact.Result.nextPage r
  = (if Exact.Result.hasNextPage r
     then Some (Exact.Result.currentPage r + 1)
     else None)
  /\ Exact.Result.previousPage r
     = (if Exact.Result.hasPreviousPage r
        then Some (Exact.Result.currentPage r - 1)
        else None).
Proof. intros r. split; reflexivity. Qed.


(** ** [Exact.getPageNumbers] *)

Section Interval.

Import Spec.

Lemma interval_nil (a b : Z) : b < a -> interval a b = [].
Proof.
  intros H. unfold interval.
  replace (Z.to_nat (b + 1 - a)) with 0%nat by lia. reflexivity.
Qed.

Lemma interval_cons (a b : Z) :
  a <= b -> interval a b = a :: interval (a + 1) b.
Proof.
  intros H. unfold interval.
  replace (Z.to_nat (b + 1 - a)) with (S (Z.to_nat (b + 1 - (a + 1))))
    by lia.
  cbn [seq map]. f_equal; [lia |].
  rewrite <- seq_shift, map_map. apply map_ext. intros k. lia.
Qed.

Lemma In_interval (a b n : Z) : In n (interval a b) <-> a <= n <= b.
Proof.
  unfold interval. rewrite in_map_iff. split.
  - intros (k & <- & Hk). apply in_seq in Hk. lia.
  - intros Hn. exists (Z.to_nat (n - a)). split; [lia |].
    apply in_seq. lia.
Qed.

(** The interval has [len] elements; induction on that length. *)
Lemma interval_sorted_len (len : nat) (a b : Z) :
  Z.to_nat (b + 1 - a) = len -> StronglySorted Z.lt (interval a b).
Proof.
  revert a. induction len as [| len IH]; intros a Hlen.
  - rewrite interval_nil by lia. constructor.
  - rewrite interval_cons by lia. constructor.
    + apply IH. lia.
    + apply Forall_forall. intros n Hn. apply In_interval in Hn. lia.
Qed.

Lemma interval_sorted (a b : Z) : StronglySorted Z.lt (interval a b).
Proof. exact (interval_sorted_len _ a b eq_refl). Qed.

Lemma numbers_app (l1 l2 : list Exact.entry) :
  numbers (l1 ++ l2) = numbers l1 ++ numbers l2.
Proof.
  induction l1 as [| [n | s] l1 IH]; simpl; [reflexivity | |];
    rewrite IH; reflexivity.
Qed.

Lemma numbers_map_Num (l : list Z) : numbers (map Exact.Num l) = l.
Proof. induction l as [| n l IH]; simpl; [| rewrite IH]; reflexivity. Qed.

(** The loop pushes the interval [[i, end_]] and leaves through its
    condition as soon as the fuel covers the interval. *)
Lemma push_window_interval (fuel : nat) :
  forall (i end_ : Z) (pages : list Exact.entry),
    (Z.to_nat (end_ + 1 - i) <= fuel)%nat ->
    Exact.push_window fuel i end_ pages = pages ++ map Exact.Num (interval i end_).
Proof.
  induction fuel as [| fuel IH]; intros i end_ pages Hfuel.
  - rewrite interval_nil by lia. simpl. symmetry. apply app_nil_r.
  - simpl. destruct (Z.leb_spec i end_) as [Hle | Hgt].
    + rewrite IH by lia. rewrite (interval_cons i end_ Hle).
      unfold JS.push. rewrite <- app_assoc. reflexivity.
    + rewrite interval_nil by lia. simpl. symmetry. apply app_nil_r.
Qed.

Lemma Array_from_length_interval (n : Z) :
  Exact.Array_from_length n (fun i => Exact.Num (i + 1)) = map Exact.Num (interval 1 n).
Proof.
  unfold Exact.Array_from_length, interval. rewrite map_map.
  replace (n + 1 - 1) with n by lia.
  apply map_ext. intros k. f_equal. lia.
Qed.

Lemma window_near_end (currentPage totalPages maxVisible : Z) :
  Exact.window currentPage totalPages maxVisible
  = near_end currentPage totalPages maxVisible.
Proof.
  unfold Exact.window, near_end, near_start, Exact.Math_floor_div, Exact.Math_max,
    Exact.Math_min.
  destruct (Z.max (currentPage - maxVisible / 2) 2 <=? 2);
    rewrite Z.geb_leb;
    match goal with
    | |- context [?a <=? ?b] => destruct (a <=? b)
    end; reflexivity.
Qed.

(** The source and the algorithm of the specification agree on every
    input. *)
Lemma getPageNumbers_pageNumbers (currentPage totalPages maxVisible : Z) :
  Exact.getPageNumbers currentPage totalPages (Some maxVisible)
  = pageNumbers currentPage totalPages maxVisible.
Proof.
  unfold Exact.getPageNumbers, pageNumbers, JS.default_arg.
  destruct (totalPages <=? maxVisible).
  - apply Array_from_length_interval.
  - rewrite window_near_end.
    destruct (near_end currentPage totalPages maxVisible) as [start end_].
    rewrite push_window_interval by lia.
    rewrite !Z.gtb_ltb. unfold JS.push, ellipsis.
    destruct (2 <? start), (end_ <? totalPages - 1), (1 <? totalPages);
      cbn [app]; rewrite <- ?app_assoc, ?app_nil_r; reflexivity.
Qed.

(** Both corrections keep the window inside [[2, totalPages - 1]]. *)
Lemma near_end_bounds (currentPage totalPages maxVisible : Z) :
  2 <= fst (near_end currentPage totalPages maxVisible)
  /\ snd (near_end currentPage totalPages maxVisible) <= totalPages - 1.
Proof.
  unfold near_end, near_start.
  destruct (Z.leb_spec (Z.max (currentPage - maxVisible / 2) 2) 2);
    match goal with
    | |- context [?a <=? ?b] => destruct (Z.leb_spec a b)
    end; simpl; lia.
Qed.

End Interval.

(** Over exact integers: [Exact.getPageNumbers] returns exactly the sequence of the algorithm
    of section 4.2, for every current page, number of pages and
    [maxVisible] (5 when it is left out): the full list
    [1 .. totalPages] when [totalPages <= maxVisible], else page 1, the
    ellipsis when the corrected start exceeds 2, the window, the
    ellipsis when the corrected end is below [totalPages - 1], and
    [totalPages] when it exceeds 1, the correction near the start being
    applied before the one near the end.  At (50, 100, 5) the result is
    [1, "...", 48, 49, 50, 51, 52, "...", 100]. *)
Lemma exact_getPageNumbers_refines_spec (currentPage totalPages maxVisible : Z) :
  Exact.getPageNumbers currentPage totalPages (Some maxVisible)
  = Spec.pageNumbers currentPage totalPages maxVisible
  /\ Exact.getPageNumbers currentPage totalPages None
     = Spec.pageNumbers currentPage totalPages 5
  /\ (totalPages <= maxVisible ->
      Exact.getPageNumbers currentPage totalPages (Some maxVisible)
      = map Exact.Num (Spec.interval 1 totalPages))
  /\ Exact.getPageNumbers 50 100 (Some 5)
     = [Exact.Num 1; Exact.Str "..."; Exact.Num 48; Exact.Num 49; Exact.Num 50; Exact.Num 51; Exact.Num 52;
        Exact.Str "..."; Exact.Num 100]
  /\ Exact.getPageNumbers 1 3 (Some 5) = [Exact.Num 1; Exact.Num 2; Exact.Num 3].
Proof.
  split; [apply getPageNumbers_pageNumbers |].
  split; [apply (getPageNumbers_pageNumbers currentPage totalPages 5) |].
  split; [| split; reflexivity].
  intros Hle. rewrite getPageNumbers_pageNumbers. unfold Spec.pageNumbers.
  destruct (Z.leb_spec totalPages maxVisible); [reflexivity | lia].
Qed.

Section Increasing.

Import Spec.

Lemma sorted_snoc (l : list Z) (x : Z) :
  StronglySorted Z.lt l -> Forall (fun n => n < x) l ->
  StronglySorted Z.lt (l ++ [x]).
Proof.
  induction 1 as [| a l Hs IH Ha]; intros Hx; simpl.
  - constructor; constructor.
  - inversion Hx as [| ? ? Hax Hlx]; subst. constructor.
    + apply IH. exact Hlx.
    + apply Forall_app. split; [exact Ha |]. constructor; [exact Hax |].
      constructor.
Qed.

Lemma sorted_NoDup (l : list Z) : StronglySorted Z.lt l -> NoDup l.
Proof.
  induction 1 as [| a l Hs IH Ha]; constructor; [| exact IH].
  intros Hin. rewrite Forall_forall in Ha. specialize (Ha a Hin). lia.
Qed.

(** The numeric entries of the sequence of the specification: the
    ellipses drop out. *)
Lemma numbers_pageNumbers_compressed
    (currentPage totalPages maxVisible : Z) :
  maxVisible < totalPages ->
  numbers (pageNumbers currentPage totalPages maxVisible)
  = 1 :: interval (fst (near_end currentPage totalPages maxVisible))
                  (snd (near_end currentPage totalPages maxVisible))
      ++ (if 1 <? totalPages then [totalPages] else []).
Proof.
  intros Hlt. unfold pageNumbers.
  destruct (Z.leb_spec totalPages maxVisible); [lia |].
  destruct (near_end currentPage totalPages maxVisible) as [start end_].
  cbn [fst snd]. rewrite !numbers_app, numbers_map_Num. unfold ellipsis.
  destruct (2 <? start), (end_ <? totalPages - 1), (1 <? totalPages);
    reflexivity.
Qed.

(** The numeric entries increase strictly, whatever the arguments. *)
Lemma numbers_sorted (currentPage totalPages maxVisible : Z) :
  StronglySorted Z.lt
    (numbers (Exact.getPageNumbers currentPage totalPages (Some maxVisible))).
Proof.
  rewrite getPageNumbers_pageNumbers.
  destruct (Z.le_gt_cases totalPages maxVisible) as [Hle | Hgt].
  - unfold pageNumbers.
    destruct (Z.leb_spec totalPages maxVisible); [| lia].
    rewrite numbers_map_Num. apply interval_sorted.
  - rewrite numbers_pageNumbers_compressed by exact Hgt.
    pose proof (near_end_bounds currentPage totalPages maxVisible)
      as [Hs He].
    set (start := fst (near_end currentPage totalPages maxVisible)) in *.
    set (end_ := snd (near_end currentPage totalPages maxVisible)) in *.
    assert (Hwin : forall n, In n (interval start end_) ->
                             2 <= n <= totalPages - 1).
    { intros n Hn. apply In_interval in Hn. lia. }
    constructor.
    + destruct (Z.ltb_spec 1 totalPages).
      * apply sorted_snoc; [apply interval_sorted |].
        apply Forall_forall. intros n Hn. apply Hwin in Hn. lia.
      * rewrite app_nil_r. apply interval_sorted.
    + apply Forall_app. split.
      * apply Forall_forall. intros n Hn. apply Hwin in Hn. lia.
      * destruct (Z.ltb_spec 1 totalPages); constructor; [lia |].
        constructor.
Qed.

End Increasing.

(** Over exact integers: for [totalPages >= 0] and [maxVisible >= 1], the numeric
    entries of the sequence increase strictly and none occurs twice; in
    the compressed case ([totalPages > maxVisible]) the window lies in
    [[2, totalPages - 1]], so the numeric entries are page 1, the
    window and page [totalPages], and no page of the window is 1 or
    [totalPages]. *)
Lemma exact_getPageNumbers_strictly_increasing
    (currentPage totalPages maxVisible : Z) :
  0 <= totalPages ->
  1 <= maxVisible ->
  let pages := Exact.getPageNumbers currentPage totalPages (Some maxVisible) in
  let start := fst (Exact.window currentPage totalPages maxVisible) in
  let end_ := snd (Exact.window currentPage totalPages maxVisible) in
  StronglySorted Z.lt (numbers pages)
  /\ NoDup (numbers pages)
  /\ (maxVisible < totalPages ->
      2 <= start
      /\ end_ <= totalPages - 1
      /\ numbers pages
         = [1] ++ Spec.interval start end_ ++ [totalPages]
      /\ (forall n, In n (Spec.interval start end_) -> 1 < n < totalPages)
      /\ pages
         = [Exact.Num 1]
             ++ (if 2 <? start then [Exact.Str "..."] else [])
             ++ map Exact.Num (Spec.interval start end_)
             ++ (if end_ <? totalPages - 1 then [Exact.Str "..."] else [])
             ++ [Exact.Num totalPages]).
Proof.
  intros Htp Hmv pages start end_.
  pose proof (numbers_sorted currentPage totalPages maxVisible) as Hsorted.
  fold pages in Hsorted.
  split; [exact Hsorted |]. split; [apply sorted_NoDup; exact Hsorted |].
  intros Hlt.
  pose proof (near_end_bounds currentPage totalPages maxVisible) as [Hs He].
  rewrite <- window_near_end in Hs, He. fold start in Hs. fold end_ in He.
  split; [exact Hs |]. split; [exact He |].
  assert (H1 : (1 <? totalPages) = true) by (apply Z.ltb_lt; lia).
  split.
  { subst pages start end_. rewrite getPageNumbers_pageNumbers.
    rewrite numbers_pageNumbers_compressed by exact Hlt.
    rewrite H1, window_near_end. reflexivity. }
  split.
  { intros n Hn. apply In_interval in Hn. lia. }
  subst pages start end_. rewrite getPageNumbers_pageNumbers.
  unfold Spec.pageNumbers.
  destruct (Z.leb_spec totalPages maxVisible); [lia |].
  rewrite window_near_end.
  destruct (Spec.near_end currentPage totalPages maxVisible) as [s e].
  cbn [fst snd]. rewrite H1. reflexivity.
Qed.


(** ** Beyond the statements of the specification

    The bounds every result keeps, how the pages tile the items, and
    what the page selector shows and leaves out, over exact integers. *)

(** ** [Exact.calculate]: bounds and the shape of a page *)

(** The fields of a result are functions of the current page, the page
    size and the number of items. *)
Lemma calculate_ext (p1 p2 : Exact.Params.t) :
  Exact.Result.pageSize (Exact.calculate p1)
  = Exact.Result.pageSize (Exact.calculate p2) ->
  Exact.Result.totalItems (Exact.calculate p1)
  = Exact.Result.totalItems (Exact.calculate p2) ->
  Exact.Result.currentPage (Exact.calculate p1)
  = Exact.Result.currentPage (Exact.calculate p2) ->
  Exact.calculate p1 = Exact.calculate p2.
Proof.
  unfold Exact.calculate.
  cbn [Exact.Result.pageSize Exact.Result.totalItems
       Exact.Result.currentPage].
  intros HL HT Hcp. rewrite HL, HT in *. rewrite Hcp. reflexivity.
Qed.

Lemma totalPages_bounds (params : Exact.Params.t) :
  (Exact.Result.totalPages (Exact.calculate params) - 1)
  * Exact.Result.pageSize (Exact.calculate params)
  < Exact.Result.totalItems (Exact.calculate params)
  <= Exact.Result.totalPages (Exact.calculate params)
     * Exact.Result.pageSize (Exact.calculate params).
Proof.
  rewrite totalPages_eq. apply Math_ceil_div_bounds.
  pose proof (pageSize_range params). lia.
Qed.

Lemma totalPages_le_totalItems (params : Exact.Params.t) :
  Exact.Result.totalPages (Exact.calculate params)
  <= Exact.Result.totalItems (Exact.calculate params).
Proof.
  rewrite totalPages_eq. apply Math_ceil_div_least.
  - pose proof (pageSize_range params). lia.
  - pose proof (pageSize_range params).
    pose proof (totalItems_clamped params). nia.
Qed.

Ltac calc_all params :=
  calc_facts params;
  pose proof (totalPages_bounds params);
  pose proof (totalPages_le_totalItems params);
  pose proof (offset_eq params);
  pose proof (offset_nonneg params).

(** Over exact integers: whatever the input (a limit of 0, a negative count, a page far
    past the end), the page size is in [[1, 100]], the counts are not
    negative, there are no more pages than items, and the offset is a
    position inside the items: between 0 and [totalItems]. *)
Lemma exact_calculate_result_bounds (params : Exact.Params.t) :
  let r := Exact.calculate params in
  1 <= Exact.Result.pageSize r <= 100
  /\ 0 <= Exact.Result.totalItems r
  /\ 0 <= Exact.Result.totalPages r <= Exact.Result.totalItems r
  /\ 0 <= Exact.Result.offset r <= Exact.Result.totalItems r.
Proof.
  intros r. subst r. calc_all params.
  repeat split; try lia. nia.
Qed.

(** Over exact integers: when there is at least one item, the current page is an existing
    page and shows at least one item and at most [pageSize] items:
    [1 <= items.start <= items.end <= totalItems] and
    [items.end - items.start + 1 <= pageSize]. *)
Lemma exact_calculate_page_nonempty (params : Exact.Params.t) :
  0 < Exact.Params.totalItems params ->
  let r := Exact.calculate params in
  let items := Exact.Result.items r in
  1 <= Exact.Result.currentPage r <= Exact.Result.totalPages r
  /\ Exact.Result.offset r < Exact.Result.totalItems r
  /\ 1 <= Exact.Items.start items <= Exact.Items.end_ items
  /\ Exact.Items.end_ items <= Exact.Result.totalItems r
  /\ Exact.Items.end_ items - Exact.Items.start items + 1 <= Exact.Result.pageSize r.
Proof.
  intros Hpos r items. subst items r. rewrite items_eq.
  cbn [Exact.Items.start Exact.Items.end_]. calc_all params.
  assert (Htp : 1 <= Exact.Result.totalPages (Exact.calculate params)) by nia.
  assert (Hoff : Exact.Result.offset (Exact.calculate params)
                 < Exact.Result.totalItems (Exact.calculate params)) by nia.
  destruct (Z.eqb_spec (Exact.Result.totalItems (Exact.calculate params)) 0);
    [lia |].
  repeat split; lia.
Qed.


(** Over exact integers: a page that has a next page is full: it shows exactly
    [pageSize] items, ending at [offset + pageSize]. *)
Lemma exact_calculate_inner_page_full (params : Exact.Params.t) :
  Exact.Result.hasNextPage (Exact.calculate params) = true ->
  let r := Exact.calculate params in
  let items := Exact.Result.items r in
  Exact.Items.start items = Exact.Result.offset r + 1
  /\ Exact.Items.end_ items
     = Exact.Result.offset r + Exact.Result.pageSize r
  /\ Exact.Items.end_ items - Exact.Items.start items + 1 = Exact.Result.pageSize r
  /\ Exact.Items.end_ items < Exact.Result.totalItems r.
Proof.
  intros Hnext r items. subst items r. rewrite items_eq.
  cbn [Exact.Items.start Exact.Items.end_]. calc_all params.
  assert (Hlt : Exact.Result.currentPage (Exact.calculate params)
                < Exact.Result.totalPages (Exact.calculate params))
    by (apply Z.ltb_lt; exact Hnext).
  assert (Hfull : Exact.Result.offset (Exact.calculate params)
                  + Exact.Result.pageSize (Exact.calculate params)
                  < Exact.Result.totalItems (Exact.calculate params)) by nia.
  destruct (Z.eqb_spec (Exact.Result.totalItems (Exact.calculate params)) 0);
    [lia |].
  repeat split; lia.
Qed.


(** Over exact integers: a page without a next page ends at the last item:
    [items.end = totalItems] (0 when there is no item), and it is the
    last page, or page 1 when there is no page. *)
Lemma exact_calculate_last_page_end (params : Exact.Params.t) :
  Exact.Result.hasNextPage (Exact.calculate params) = false ->
  let r := Exact.calculate params in
  Exact.Items.end_ (Exact.Result.items r) = Exact.Result.totalItems r
  /\ Exact.Result.currentPage r
     = Z.max (Exact.Result.totalPages r) 1.
Proof.
  intros Hnext r. subst r. rewrite items_eq.
  cbn [Exact.Items.end_]. calc_all params.
  assert (Hge : Exact.Result.totalPages (Exact.calculate params)
                <= Exact.Result.currentPage (Exact.calculate params))
    by (apply Z.ltb_ge; exact Hnext).
  split; [| lia].
  assert (Exact.Result.totalItems (Exact.calculate params)
          <= Exact.Result.offset (Exact.calculate params)
             + Exact.Result.pageSize (Exact.calculate params)) by nia.
  lia.
Qed.


(** Over exact integers: a result is a fixed point: asking again for its own current
    page, page size and item count returns the same result. *)
Lemma exact_calculate_idempotent (params : Exact.Params.t) :
  let r := Exact.calculate params in
  Exact.calculate
    (Exact.Params.mk
       (Some (Exact.Result.currentPage r))
       (Some (Exact.Result.pageSize r))
       (Exact.Result.totalItems r))
  = r.
Proof.
  intros r. subst r. calc_all params.
  assert (HL : Exact.Result.pageSize
                 (Exact.calculate
                    (Exact.Params.mk
                       (Some (Exact.Result.currentPage (Exact.calculate params)))
                       (Some (Exact.Result.pageSize (Exact.calculate params)))
                       (Exact.Result.totalItems (Exact.calculate params))))
               = Exact.Result.pageSize (Exact.calculate params)).
  { rewrite pageSize_clamped. cbn [Exact.Params.limit JS.nullish]. lia. }
  assert (HT : Exact.Result.totalItems
                 (Exact.calculate
                    (Exact.Params.mk
                       (Some (Exact.Result.currentPage (Exact.calculate params)))
                       (Some (Exact.Result.pageSize (Exact.calculate params)))
                       (Exact.Result.totalItems (Exact.calculate params))))
               = Exact.Result.totalItems (Exact.calculate params)).
  { rewrite totalItems_clamped. cbn [Exact.Params.totalItems]. lia. }
  apply calculate_ext; [exact HL | exact HT |].
  rewrite currentPage_eq, totalPages_eq, HL, HT, <- totalPages_eq.
  cbn [Exact.Params.page JS.nullish]. lia.
Qed.

(** Over exact integers: [Exact.calculate] only sees its clamped arguments: the result is the
    one for the page raised to 1 (1 when absent), the limit clamped into
    [[1, 100]] (10 when absent; a limit of 0 is raised to 1, not
    replaced by the default) and the item count raised to 0. *)
Lemma exact_calculate_clamped_inputs (params : Exact.Params.t) :
  Exact.calculate params
  = Exact.calculate
      (Exact.Params.mk
         (Some (Z.max (JS.nullish (Exact.Params.page params) 1) 1))
         (Some (Z.min
                  (Z.max (JS.nullish (Exact.Params.limit params) 10) 1)
                  100))
         (Z.max (Exact.Params.totalItems params) 0)).
Proof.
  assert (HL : forall l, Z.min (Z.max (Z.min (Z.max l 1) 100) 1) 100
                         = Z.min (Z.max l 1) 100) by (intros; lia).
  unfold Exact.calculate.
  cbn [Exact.Params.page Exact.Params.limit
       Exact.Params.totalItems JS.nullish].
  unfold Exact.Math_max, Exact.Math_min, Pagination.DEFAULT_PAGE, Pagination.DEFAULT_LIMIT, Pagination.MAX_LIMIT.
  assert (HM : forall a b, Z.max (Z.max a b) b = Z.max a b)
    by (intros; lia).
  rewrite HL, !HM. reflexivity.
Qed.

(** ** [Exact.calculate]: moving between pages *)

(** The flags and the neighbours of a result, by evaluation. *)
Lemma hasNextPage_iff (params : Exact.Params.t) :
  Exact.Result.hasNextPage (Exact.calculate params) = true
  <-> Exact.Result.currentPage (Exact.calculate params)
      < Exact.Result.totalPages (Exact.calculate params).
Proof. apply Z.ltb_lt. Qed.

Lemma hasPreviousPage_iff (params : Exact.Params.t) :
  Exact.Result.hasPreviousPage (Exact.calculate params) = true
  <-> 1 < Exact.Result.currentPage (Exact.calculate params).
Proof.
  change (Exact.Result.hasPreviousPage (Exact.calculate params))
    with (Exact.Result.currentPage (Exact.calculate params) >? 1).
  rewrite Z.gtb_ltb. apply Z.ltb_lt.
Qed.

Lemma nextPage_eq (params : Exact.Params.t) :
  Exact.Result.nextPage (Exact.calculate params)
  = if Exact.Result.hasNextPage (Exact.calculate params)
    then Some (Exact.Result.currentPage (Exact.calculate params) + 1)
    else None.
Proof. reflexivity. Qed.

Lemma previousPage_eq (params : Exact.Params.t) :
  Exact.Result.previousPage (Exact.calculate params)
  = if Exact.Result.hasPreviousPage (Exact.calculate params)
    then Some (Exact.Result.currentPage (Exact.calculate params) - 1)
    else None.
Proof. reflexivity. Qed.

Lemma nextPage_Some (params : Exact.Params.t) (n : Z) :
  Exact.Result.nextPage (Exact.calculate params) = Some n ->
  n = Exact.Result.currentPage (Exact.calculate params) + 1
  /\ Exact.Result.currentPage (Exact.calculate params)
     < Exact.Result.totalPages (Exact.calculate params).
Proof.
  rewrite nextPage_eq.
  destruct (Exact.Result.hasNextPage (Exact.calculate params)) eqn:H;
    [| discriminate].
  intros [= <-]. split; [reflexivity | apply hasNextPage_iff; exact H].
Qed.

Lemma previousPage_Some (params : Exact.Params.t) (n : Z) :
  Exact.Result.previousPage (Exact.calculate params) = Some n ->
  n = Exact.Result.currentPage (Exact.calculate params) - 1
  /\ 1 < Exact.Result.currentPage (Exact.calculate params).
Proof.
  rewrite previousPage_eq.
  destruct (Exact.Result.hasPreviousPage (Exact.calculate params)) eqn:H;
    [| discriminate].
  intros [= <-]. split; [reflexivity | apply hasPreviousPage_iff; exact H].
Qed.

(** The first and last item of a page when there are items. *)
Lemma items_start_eq (params : Exact.Params.t) :
  0 < Exact.Result.totalItems (Exact.calculate params) ->
  Exact.Items.start (Exact.Result.items (Exact.calculate params))
  = Exact.Result.offset (Exact.calculate params) + 1.
Proof.
  intros H. rewrite items_eq. cbn [Exact.Items.start].
  destruct (Z.eqb_spec (Exact.Result.totalItems (Exact.calculate params)) 0);
    [lia | reflexivity].
Qed.

Lemma items_end_eq (params : Exact.Params.t) :
  Exact.Items.end_ (Exact.Result.items (Exact.calculate params))
  = Z.min (Exact.Result.offset (Exact.calculate params)
           + Exact.Result.pageSize (Exact.calculate params))
          (Exact.Result.totalItems (Exact.calculate params)).
Proof. reflexivity. Qed.

(** The request for page [n] with the page size and the item count of
    the result for [params]. *)
Section SamePagination.

Variable params : Exact.Params.t.
Variable n : Z.

Let again : Exact.Params.t :=
  Exact.Params.mk
    (Some n)
    (Some (Exact.Result.pageSize (Exact.calculate params)))
    (Exact.Result.totalItems (Exact.calculate params)).

Lemma moved_pageSize :
  Exact.Result.pageSize (Exact.calculate again)
  = Exact.Result.pageSize (Exact.calculate params).
Proof.
  rewrite pageSize_clamped. unfold again.
  cbn [Exact.Params.limit JS.nullish].
  pose proof (pageSize_range params). lia.
Qed.

Lemma moved_totalItems :
  Exact.Result.totalItems (Exact.calculate again)
  = Exact.Result.totalItems (Exact.calculate params).
Proof.
  rewrite totalItems_clamped. unfold again.
  cbn [Exact.Params.totalItems].
  pose proof (totalItems_clamped params). lia.
Qed.

Lemma moved_totalPages :
  Exact.Result.totalPages (Exact.calculate again)
  = Exact.Result.totalPages (Exact.calculate params).
Proof.
  rewrite totalPages_eq, moved_pageSize, moved_totalItems.
  symmetry. apply totalPages_eq.
Qed.

Lemma moved_currentPage :
  1 <= n <= Z.max (Exact.Result.totalPages (Exact.calculate params)) 1 ->
  Exact.Result.currentPage (Exact.calculate again) = n.
Proof.
  intros Hn. rewrite currentPage_eq, moved_totalPages. unfold again.
  cbn [Exact.Params.page JS.nullish]. lia.
Qed.

Lemma moved_offset :
  1 <= n <= Z.max (Exact.Result.totalPages (Exact.calculate params)) 1 ->
  Exact.Result.offset (Exact.calculate again)
  = (n - 1) * Exact.Result.pageSize (Exact.calculate params).
Proof.
  intros Hn. rewrite offset_eq, moved_currentPage, moved_pageSize by exact Hn.
  reflexivity.
Qed.

End SamePagination.

(** Over exact integers: following [nextPage] moves one page forward without a gap or an
    overlap: the page reached is [currentPage + 1], not capped; its
    offset is one page size further, its first item is the one after the
    last item of the page left, and it has the page left as its previous
    page. *)
Lemma exact_calculate_next_page (params : Exact.Params.t) (n : Z) :
  Exact.Result.nextPage (Exact.calculate params) = Some n ->
  let r := Exact.calculate params in
  let r' :=
    Exact.calculate
      (Exact.Params.mk
         (Some n) (Some (Exact.Result.pageSize r))
         (Exact.Result.totalItems r)) in
  Exact.Result.currentPage r' = Exact.Result.currentPage r + 1
  /\ Exact.Result.totalPages r' = Exact.Result.totalPages r
  /\ Exact.Result.offset r'
     = Exact.Result.offset r + Exact.Result.pageSize r
  /\ Exact.Items.start (Exact.Result.items r')
     = Exact.Items.end_ (Exact.Result.items r) + 1
  /\ Exact.Result.previousPage r'
     = Some (Exact.Result.currentPage r).
Proof.
  intros Hn r r'. subst r r'.
  apply nextPage_Some in Hn. destruct Hn as [-> Hlt].
  calc_all params.
  set (q := Exact.Params.mk _ _ _).
  assert (Hrange :
            1 <= Exact.Result.currentPage (Exact.calculate params) + 1
              <= Z.max (Exact.Result.totalPages (Exact.calculate params)) 1)
    by lia.
  pose proof (moved_currentPage params _ Hrange) as HC.
  pose proof (moved_offset params _ Hrange) as HO.
  pose proof (moved_totalItems
                params (Exact.Result.currentPage (Exact.calculate params) + 1))
    as HT.
  pose proof (moved_totalPages
                params (Exact.Result.currentPage (Exact.calculate params) + 1))
    as HP.
  fold q in HC, HO, HT, HP.
  assert (Hoff : Exact.Result.offset (Exact.calculate q)
                 = Exact.Result.offset (Exact.calculate params)
                   + Exact.Result.pageSize (Exact.calculate params))
    by (rewrite HO; lia).
  split; [exact HC |]. split; [exact HP |]. split; [exact Hoff |].
  split.
  - rewrite items_start_eq by (rewrite HT; nia).
    rewrite Hoff, items_end_eq.
    assert (Exact.Result.offset (Exact.calculate params)
            + Exact.Result.pageSize (Exact.calculate params)
            < Exact.Result.totalItems (Exact.calculate params)) by nia.
    lia.
  - rewrite previousPage_eq.
    assert (Hp : Exact.Result.hasPreviousPage (Exact.calculate q) = true)
      by (apply hasPreviousPage_iff; lia).
    rewrite Hp, HC. f_equal. lia.
Qed.


(** Over exact integers: following [previousPage] moves one page back: the page reached
    is [currentPage - 1], it is full, its last item is the one before
    the first item of the page left, and it has the page left as its
    next page. *)
Lemma exact_calculate_previous_page (params : Exact.Params.t) (n : Z) :
  Exact.Result.previousPage (Exact.calculate params) = Some n ->
  let r := Exact.calculate params in
  let r' :=
    Exact.calculate
      (Exact.Params.mk
         (Some n) (Some (Exact.Result.pageSize r))
         (Exact.Result.totalItems r)) in
  Exact.Result.currentPage r' = Exact.Result.currentPage r - 1
  /\ Exact.Result.offset r'
     = Exact.Result.offset r - Exact.Result.pageSize r
  /\ Exact.Items.end_ (Exact.Result.items r')
     = Exact.Items.start (Exact.Result.items r) - 1
  /\ Exact.Result.nextPage r'
     = Some (Exact.Result.currentPage r).
Proof.
  intros Hn r r'. subst r r'.
  apply previousPage_Some in Hn. destruct Hn as [-> Hgt].
  calc_all params.
  set (q := Exact.Params.mk _ _ _).
  assert (Hrange :
            1 <= Exact.Result.currentPage (Exact.calculate params) - 1
              <= Z.max (Exact.Result.totalPages (Exact.calculate params)) 1)
    by lia.
  pose proof (moved_currentPage params _ Hrange) as HC.
  pose proof (moved_offset params _ Hrange) as HO.
  pose proof (moved_pageSize
                params (Exact.Result.currentPage (Exact.calculate params) - 1))
    as HL.
  pose proof (moved_totalItems
                params (Exact.Result.currentPage (Exact.calculate params) - 1))
    as HT.
  pose proof (moved_totalPages
                params (Exact.Result.currentPage (Exact.calculate params) - 1))
    as HP.
  fold q in HC, HO, HL, HT, HP.
  assert (Hoff : Exact.Result.offset (Exact.calculate q)
                 = Exact.Result.offset (Exact.calculate params)
                   - Exact.Result.pageSize (Exact.calculate params))
    by (rewrite HO; lia).
  assert (Hin : Exact.Result.offset (Exact.calculate params)
                < Exact.Result.totalItems (Exact.calculate params)) by nia.
  split; [exact HC |]. split; [exact Hoff |]. split.
  - rewrite items_end_eq, Hoff, HL, HT.
    rewrite (items_start_eq params) by lia. lia.
  - rewrite nextPage_eq.
    assert (Hnx : Exact.Result.hasNextPage (Exact.calculate q) = true)
      by (apply hasNextPage_iff; lia).
    rewrite Hnx, HC. f_equal. lia.
Qed.


(** Over exact integers: when all the items fit on one page ([totalItems <= pageSize]),
    every requested page, however large, lands on page 1 with no
    neighbour and offset 0. *)
Lemma exact_calculate_single_page (params : Exact.Params.t) :
  Exact.Params.totalItems params
  <= Exact.Result.pageSize (Exact.calculate params) ->
  let r := Exact.calculate params in
  Exact.Result.totalPages r <= 1
  /\ Exact.Result.currentPage r = 1
  /\ Exact.Result.offset r = 0
  /\ Exact.Result.hasNextPage r = false
  /\ Exact.Result.hasPreviousPage r = false
  /\ Exact.Result.nextPage r = None
  /\ Exact.Result.previousPage r = None.
Proof.
  intros Hfit r. subst r. calc_all params.
  assert (Htp : Exact.Result.totalPages (Exact.calculate params) <= 1) by nia.
  assert (Hcp : Exact.Result.currentPage (Exact.calculate params) = 1) by lia.
  assert (Hn : Exact.Result.hasNextPage (Exact.calculate params) = false).
  { destruct (Exact.Result.hasNextPage (Exact.calculate params)) eqn:E;
      [| reflexivity].
    apply hasNextPage_iff in E. lia. }
  assert (Hp : Exact.Result.hasPreviousPage (Exact.calculate params) = false).
  { destruct (Exact.Result.hasPreviousPage (Exact.calculate params)) eqn:E;
      [| reflexivity].
    apply hasPreviousPage_iff in E. lia. }
  split; [exact Htp |]. split; [exact Hcp |].
  split; [rewrite offset_eq, Hcp; lia |].
  split; [exact Hn |]. split; [exact Hp |].
  rewrite nextPage_eq, previousPage_eq, Hn, Hp. split; reflexivity.
Qed.


(** ** [Exact.getPageNumbers]: what the selector shows *)

Section Selector.

Import Spec.

Lemma getPageNumbers_default
    (currentPage totalPages : Z) (maxVisible : option Z) :
  Exact.getPageNumbers currentPage totalPages maxVisible
  = pageNumbers currentPage totalPages (JS.default_arg maxVisible 5).
Proof.
  destruct maxVisible as [m |]; apply getPageNumbers_pageNumbers.
Qed.

Lemma pageNumbers_full (currentPage totalPages maxVisible : Z) :
  totalPages <= maxVisible ->
  pageNumbers currentPage totalPages maxVisible
  = map Exact.Num (interval 1 totalPages).
Proof.
  intros H. unfold pageNumbers.
  destruct (Z.leb_spec totalPages maxVisible); [reflexivity | lia].
Qed.

Lemma pageNumbers_compressed (currentPage totalPages maxVisible : Z) :
  maxVisible < totalPages ->
  pageNumbers currentPage totalPages maxVisible
  = [Exact.Num 1]
      ++ (if 2 <? fst (near_end currentPage totalPages maxVisible)
          then [ellipsis] else [])
      ++ map Exact.Num
           (interval (fst (near_end currentPage totalPages maxVisible))
                     (snd (near_end currentPage totalPages maxVisible)))
      ++ (if snd (near_end currentPage totalPages maxVisible)
             <? totalPages - 1
          then [ellipsis] else [])
      ++ (if 1 <? totalPages then [Exact.Num totalPages] else []).
Proof.
  intros H. unfold pageNumbers.
  destruct (Z.leb_spec totalPages maxVisible); [lia |].
  destruct (near_end currentPage totalPages maxVisible) as [s e].
  reflexivity.
Qed.

Lemma In_Num_map (n : Z) (l : list Z) : In (Exact.Num n) (map Exact.Num l) <-> In n l.
Proof.
  rewrite in_map_iff. split.
  - intros (k & [= ->] & Hk). exact Hk.
  - intros H. exists n. split; [reflexivity | exact H].
Qed.

Lemma In_Num_ellipsis (n : Z) (b : bool) :
  In (Exact.Num n) (if b then [ellipsis] else []) <-> False.
Proof.
  destruct b; simpl; [| tauto].
  split; [intros [H | []]; discriminate H | tauto].
Qed.

Lemma In_Num_last (n totalPages : Z) :
  In (Exact.Num n) (if 1 <? totalPages then [Exact.Num totalPages] else [])
  <-> 1 < totalPages /\ n = totalPages.
Proof.
  destruct (Z.ltb_spec 1 totalPages); simpl.
  - split.
    + intros [[= ->] | []]. split; [assumption | reflexivity].
    + intros [_ ->]. left. reflexivity.
  - split; [tauto | lia].
Qed.

(** The numeric entries in the compressed case: page 1, the window and
    the last page. *)
Lemma In_Num_compressed (currentPage totalPages maxVisible n : Z) :
  maxVisible < totalPages ->
  In (Exact.Num n) (pageNumbers currentPage totalPages maxVisible)
  <-> n = 1
      \/ (fst (near_end currentPage totalPages maxVisible) <= n
          <= snd (near_end currentPage totalPages maxVisible))
      \/ (1 < totalPages /\ n = totalPages).
Proof.
  intros H. rewrite pageNumbers_compressed by exact H.
  rewrite !in_app_iff, !In_Num_ellipsis, In_Num_map, In_interval,
    In_Num_last.
  simpl. split.
  - intros [[[= <-] | []] | [[] | [Hw | [[] | Hl]]]]; auto.
  - intros [-> | [Hw | Hl]]; auto 6.
Qed.

End Selector.

(** Case analysis on the two edge corrections. *)
Ltac window_cases :=
  unfold Spec.near_end, Spec.near_start in *;
  repeat match goal with
         | |- context [?a <=? ?b] => destruct (Z.leb_spec a b)
         | H : context [?a <=? ?b] |- _ => destruct (Z.leb_spec a b)
         end;
  cbn [fst snd] in *.

(** Over exact integers: for [maxVisible >= 0] every page number listed is a page that
    exists, [1 <= n <= totalPages]; in particular the list is empty
    when there is no page. *)
Lemma exact_getPageNumbers_valid_pages
    (currentPage totalPages maxVisible : Z) :
  0 <= maxVisible ->
  (forall n,
      In (Exact.Num n) (Exact.getPageNumbers currentPage totalPages (Some maxVisible)) ->
      1 <= n <= totalPages)
  /\ (totalPages <= 0 ->
      Exact.getPageNumbers currentPage totalPages (Some maxVisible) = []).
Proof.
  intros Hmv. rewrite getPageNumbers_pageNumbers. split.
  - intros n Hn.
    destruct (Z.le_gt_cases totalPages maxVisible) as [Hle | Hgt].
    + rewrite pageNumbers_full in Hn by exact Hle.
      apply In_Num_map, In_interval in Hn. exact Hn.
    + apply In_Num_compressed in Hn; [| lia].
      pose proof (near_end_bounds currentPage totalPages maxVisible)
        as [Hs He].
      lia.
  - intros H0. rewrite pageNumbers_full by lia.
    rewrite interval_nil by lia. reflexivity.
Qed.


(** Over exact integers: a negative [maxVisible] takes the compressed branch even when
    there is no page: for [maxVisible < totalPages <= 1] the only page
    number listed is 1, although with [totalPages <= 0] page 1 does not
    exist. *)
Lemma exact_getPageNumbers_no_page_lists_one
    (currentPage totalPages maxVisible : Z) :
  maxVisible < totalPages ->
  totalPages <= 1 ->
  numbers (Exact.getPageNumbers currentPage totalPages (Some maxVisible)) = [1]
  /\ hd_error (Exact.getPageNumbers currentPage totalPages (Some maxVisible))
     = Some (Exact.Num 1).
Proof.
  intros Hlt Hle. rewrite getPageNumbers_pageNumbers. split.
  - rewrite numbers_pageNumbers_compressed by exact Hlt.
    pose proof (near_end_bounds currentPage totalPages maxVisible)
      as [Hs He].
    rewrite interval_nil by lia.
    destruct (Z.ltb_spec 1 totalPages); [lia | reflexivity].
  - rewrite pageNumbers_compressed by exact Hlt. reflexivity.
Qed.


(** Over exact integers: with [maxVisible >= 3] (the default 5 included) the current
    page, when it is an existing page, is always listed. *)
Lemma exact_getPageNumbers_shows_current
    (currentPage totalPages : Z) (maxVisible : option Z) :
  3 <= JS.default_arg maxVisible 5 ->
  1 <= currentPage <= totalPages ->
  In (Exact.Num currentPage) (Exact.getPageNumbers currentPage totalPages maxVisible).
Proof.
  intros Hmv Hcp. rewrite getPageNumbers_default.
  set (m := JS.default_arg maxVisible 5) in *.
  destruct (Z.le_gt_cases totalPages m) as [Hle | Hgt].
  - rewrite pageNumbers_full by exact Hle.
    apply In_Num_map, In_interval. exact Hcp.
  - apply In_Num_compressed; [lia |].
    assert (Hhalf : 2 * (m / 2) <= m < 2 * (m / 2) + 2).
    { pose proof (Z.div_mod m 2 ltac:(lia)).
      pose proof (Z.mod_pos_bound m 2 ltac:(lia)). lia. }
    window_cases; lia.
Qed.


(** With [maxVisible < 3] the current page can be left out: page 2 of 5
    with one visible page. *)
Example exact_getPageNumbers_hides_current :
  Exact.getPageNumbers 2 5 (Some 1) = [Exact.Num 1; Exact.Str "..."; Exact.Num 5].
Proof. reflexivity. Qed.

Lemma interval_snoc (a b : Z) :
  a <= b -> Spec.interval a b = Spec.interval a (b - 1) ++ [b].
Proof.
  intros H. unfold Spec.interval.
  replace (Z.to_nat (b + 1 - a)) with (Z.to_nat (b - 1 + 1 - a) + 1)%nat
    by lia.
  rewrite seq_app, map_app. cbn [seq map]. f_equal. f_equal. lia.
Qed.

Lemma interval_length (a b : Z) :
  Z.of_nat (List.length (Spec.interval a b)) = Z.max 0 (b + 1 - a).
Proof. unfold Spec.interval. rewrite length_map, length_seq. lia. Qed.

(** Over exact integers: when there is at least one page and [maxVisible >= 0], the
    list starts with page 1 and ends with the last page, wherever the
    current page is. *)
Lemma exact_getPageNumbers_first_last
    (currentPage totalPages maxVisible : Z) :
  1 <= totalPages ->
  0 <= maxVisible ->
  hd_error (Exact.getPageNumbers currentPage totalPages (Some maxVisible))
  = Some (Exact.Num 1)
  /\ last (Exact.getPageNumbers currentPage totalPages (Some maxVisible)) (Exact.Str "")
     = Exact.Num totalPages.
Proof.
  intros Htp Hmv. rewrite getPageNumbers_pageNumbers.
  destruct (Z.le_gt_cases totalPages maxVisible) as [Hle | Hgt].
  - rewrite pageNumbers_full by exact Hle. split.
    + rewrite interval_cons by lia. reflexivity.
    + rewrite interval_snoc by lia. rewrite map_app. cbn [map].
      apply last_last.
  - rewrite pageNumbers_compressed by lia. split; [reflexivity |].
    destruct (Z.ltb_spec 1 totalPages) as [H1 | H1].
    + rewrite !app_assoc. apply last_last.
    + assert (totalPages = 1) by lia. assert (maxVisible = 0) by lia.
      subst totalPages maxVisible.
      assert (Hw : Spec.near_end currentPage 1 0 = (2, 0)).
      { unfold Spec.near_end, Spec.near_start. change (0 / 2) with 0.
        window_cases; f_equal; lia. }
      rewrite Hw. reflexivity.
Qed.


(** Over exact integers: [maxVisible] does not bound the length of the list: for
    [maxVisible >= 0] the list has at most [2 * floor (maxVisible / 2) + 5]
    entries (page 1, two ellipses, the last page and a window of at most
    [2 * floor (maxVisible / 2) + 1] pages), and the bound is reached:
    9 entries for [maxVisible = 5]. *)
Lemma exact_getPageNumbers_length
    (currentPage totalPages maxVisible : Z) :
  0 <= maxVisible ->
  Z.of_nat
    (List.length (Exact.getPageNumbers currentPage totalPages (Some maxVisible)))
  <= 2 * (maxVisible / 2) + 5
  /\ List.length (Exact.getPageNumbers 50 100 (Some 5)) = 9%nat.
Proof.
  intros Hmv. split; [| reflexivity].
  rewrite getPageNumbers_pageNumbers.
  assert (Hhalf : 2 * (maxVisible / 2) <= maxVisible
                  < 2 * (maxVisible / 2) + 2).
  { pose proof (Z.div_mod maxVisible 2 ltac:(lia)).
    pose proof (Z.mod_pos_bound maxVisible 2 ltac:(lia)). lia. }
  destruct (Z.le_gt_cases totalPages maxVisible) as [Hle | Hgt].
  - rewrite pageNumbers_full by exact Hle.
    rewrite length_map, interval_length. lia.
  - rewrite pageNumbers_compressed by lia.
    rewrite !length_app, length_map. cbn [List.length].
    rewrite !Nat2Z.inj_add, interval_length.
    assert (Ha : forall b : bool,
               Z.of_nat (List.length (if b then [Spec.ellipsis] else []))
               <= 1) by (intros []; simpl; lia).
    assert (Hc : Z.of_nat
                   (List.length
                      (if 1 <? totalPages then [Exact.Num totalPages] else []))
                 <= 1) by (destruct (1 <? totalPages); simpl; lia).
    pose proof (Ha (2 <? fst (Spec.near_end
                                currentPage totalPages maxVisible))).
    pose proof (Ha (snd (Spec.near_end currentPage totalPages maxVisible)
                    <? totalPages - 1)).
    assert (Hw : snd (Spec.near_end currentPage totalPages maxVisible) + 1
                 - fst (Spec.near_end currentPage totalPages maxVisible)
                 <= 2 * (maxVisible / 2) + 1).
    { clear - Hhalf Hgt Hmv. window_cases; lia. }
    cbn [Z.of_nat]. lia.
Qed.


Lemma In_Str_map (s : string) (l : list Z) : ~ In (Exact.Str s) (map Exact.Num l).
Proof. rewrite in_map_iff. intros (k & Hk & _). discriminate Hk. Qed.

(** An ellipsis is listed exactly when the corrected window leaves a
    gap after page 1 or before the last page. *)
Lemma In_ellipsis_compressed (currentPage totalPages maxVisible : Z) :
  maxVisible < totalPages ->
  In (Exact.Str "...") (Spec.pageNumbers currentPage totalPages maxVisible)
  <-> 2 < fst (Spec.near_end currentPage totalPages maxVisible)
      \/ snd (Spec.near_end currentPage totalPages maxVisible)
         < totalPages - 1.
Proof.
  intros H. rewrite pageNumbers_compressed by exact H.
  rewrite !in_app_iff. unfold Spec.ellipsis.
  pose proof (In_Str_map "..."
                (Spec.interval
                   (fst (Spec.near_end currentPage totalPages maxVisible))
                   (snd (Spec.near_end currentPage totalPages maxVisible))))
    as Hmap.
  destruct (Z.ltb_spec 2 (fst (Spec.near_end
                                 currentPage totalPages maxVisible))),
    (Z.ltb_spec (snd (Spec.near_end currentPage totalPages maxVisible))
                (totalPages - 1)),
    (1 <? totalPages); simpl; split; intros Hx; try lia; auto 7;
    exfalso;
    repeat match goal with
           | Hd : _ \/ _ |- _ => destruct Hd
           | Hd : False |- _ => destruct Hd
           | Hd : Exact.Num _ = Exact.Str _ |- _ => discriminate Hd
           | Hd : In _ (map Exact.Num _) |- _ => exact (Hmap Hd)
           end.
Qed.

Lemma div2_bounds (m : Z) : 2 * (m / 2) <= m < 2 * (m / 2) + 2.
Proof.
  pose proof (Z.div_mod m 2 ltac:(lia)).
  pose proof (Z.mod_pos_bound m 2 ltac:(lia)). lia.
Qed.

(** Up to [maxVisible + 1] pages nothing is hidden. *)
Lemma pageNumbers_complete (currentPage totalPages maxVisible : Z) :
  0 <= maxVisible ->
  totalPages <= maxVisible + 1 ->
  Spec.pageNumbers currentPage totalPages maxVisible
  = map Exact.Num (Spec.interval 1 totalPages).
Proof.
  intros Hmv Hle.
  pose proof (div2_bounds maxVisible) as Hhalf.
  destruct (Z.le_gt_cases totalPages maxVisible) as [Hfull | Hgt].
  - apply pageNumbers_full. exact Hfull.
  - assert (Hw : Spec.near_end currentPage totalPages maxVisible
                 = (2, totalPages - 1)).
    { clear - Hhalf Hgt Hmv Hle. window_cases; f_equal; lia. }
    rewrite pageNumbers_compressed by lia. rewrite Hw. cbn [fst snd].
    rewrite !Z.ltb_irrefl. cbn [app].
    destruct (Z.ltb_spec 1 totalPages) as [H1 | H1].
    + rewrite (interval_cons 1 totalPages) by lia.
      rewrite (interval_snoc (1 + 1) totalPages) by lia.
      rewrite map_cons, map_app. reflexivity.
    + assert (totalPages = 1) by lia. subst totalPages. reflexivity.
Qed.

(** Over exact integers: for [maxVisible >= 0] the list shows an ellipsis exactly when
    [totalPages >= maxVisible + 2]; up to [maxVisible + 1] pages it is
    the complete list [1 .. totalPages], so the compressed branch taken
    at [totalPages = maxVisible + 1] hides nothing. *)
Lemma exact_getPageNumbers_ellipsis_threshold
    (currentPage totalPages maxVisible : Z) :
  0 <= maxVisible ->
  (In (Exact.Str "...") (Exact.getPageNumbers currentPage totalPages (Some maxVisible))
   <-> maxVisible + 2 <= totalPages)
  /\ (totalPages <= maxVisible + 1 ->
      Exact.getPageNumbers currentPage totalPages (Some maxVisible)
      = map Exact.Num (Spec.interval 1 totalPages)).
Proof.
  intros Hmv. rewrite getPageNumbers_pageNumbers.
  pose proof (div2_bounds maxVisible) as Hhalf.
  split; [| apply pageNumbers_complete; exact Hmv].
  destruct (Z.le_gt_cases totalPages maxVisible) as [Hle | Hgt].
  - rewrite pageNumbers_full by exact Hle.
    split; [intros Hin; destruct (In_Str_map _ _ Hin) | lia].
  - rewrite In_ellipsis_compressed by lia.
    clear - Hhalf Hgt Hmv. window_cases; lia.
Qed.


(** Over exact integers: the selector built from a calculated result, with the default
    [maxVisible]: every number it lists is an existing page, and when
    there is at least one item it starts with page 1, ends with the last
    page and lists the current page; with no item it is empty. *)
Lemma exact_getPageNumbers_of_calculate (params : Exact.Params.t) :
  let r := Exact.calculate params in
  let pages :=
    Exact.getPageNumbers
      (Exact.Result.currentPage r) (Exact.Result.totalPages r) None in
  (forall n, In (Exact.Num n) pages -> 1 <= n <= Exact.Result.totalPages r)
  /\ (Exact.Result.totalItems r = 0 -> pages = [])
  /\ (0 < Exact.Result.totalItems r ->
      hd_error pages = Some (Exact.Num 1)
      /\ In (Exact.Num (Exact.Result.currentPage r)) pages
      /\ In (Exact.Num (Exact.Result.totalPages r)) pages).
Proof.
  intros r pages. subst pages r. rewrite getPageNumbers_default.
  cbn [JS.default_arg]. calc_all params.
  set (cp := Exact.Result.currentPage (Exact.calculate params)) in *.
  set (tp := Exact.Result.totalPages (Exact.calculate params)) in *.
  pose proof (near_end_bounds cp tp 5) as [Hs He].
  split; [| split].
  - intros n Hn. destruct (Z.le_gt_cases tp 5) as [Hle | Hgt].
    + rewrite pageNumbers_full in Hn by exact Hle.
      apply In_Num_map, In_interval in Hn. exact Hn.
    + apply In_Num_compressed in Hn; lia.
  - intros Hzero. assert (tp = 0) by nia.
    rewrite pageNumbers_full by lia. rewrite interval_nil by lia.
    reflexivity.
  - intros Hpos. assert (Htp : 1 <= tp) by nia.
    destruct (Z.le_gt_cases tp 5) as [Hle | Hgt].
    + rewrite pageNumbers_full by exact Hle.
      rewrite !In_Num_map, !In_interval.
      rewrite (interval_cons 1 tp) by lia. repeat split; try lia.
    + rewrite !In_Num_compressed by lia.
      split; [rewrite pageNumbers_compressed by lia; reflexivity |].
      split; [| lia].
      assert (Hcp : 1 <= cp <= tp) by lia.
      clear - Hgt Hcp. unfold Spec.near_end, Spec.near_start.
      change (5 / 2) with 2. window_cases; lia.
Qed.

(** ** [Exact.getPageNumbers]: the three shapes of a compressed list *)

Lemma Spec_interval_cons_1 (b : Z) :
  1 <= b -> Spec.interval 1 b = 1 :: Spec.interval 2 b.
Proof. intros H. apply (interval_cons 1 b H). Qed.

(** Over exact integers: for [maxVisible >= 1] the two edge corrections resolve into
    four cases.  Up to [maxVisible + 1] pages the list is complete.
    Beyond that, with [half = floor (maxVisible / 2)]: near the start
    ([currentPage <= half + 2]) it is [1 .. maxVisible], an ellipsis and
    the last page; otherwise near the end
    ([currentPage + half >= totalPages - 1]) it is page 1, an ellipsis
    and the last [maxVisible] pages; otherwise it is page 1, an
    ellipsis, the pages [currentPage - half .. currentPage + half], an
    ellipsis and the last page.  Both corrections apply together only
    when [totalPages = maxVisible + 1]. *)
Lemma exact_getPageNumbers_closed_form
    (currentPage totalPages maxVisible : Z) :
  1 <= maxVisible ->
  let half := maxVisible / 2 in
  Exact.getPageNumbers currentPage totalPages (Some maxVisible)
  = if totalPages <=? maxVisible + 1
    then map Exact.Num (Spec.interval 1 totalPages)
    else if currentPage <=? half + 2
    then map Exact.Num (Spec.interval 1 maxVisible) ++ [Exact.Str "..."; Exact.Num totalPages]
    else if totalPages - 1 <=? currentPage + half
    then [Exact.Num 1; Exact.Str "..."]
           ++ map Exact.Num (Spec.interval (totalPages - maxVisible + 1) totalPages)
    else [Exact.Num 1; Exact.Str "..."]
           ++ map Exact.Num (Spec.interval (currentPage - half) (currentPage + half))
           ++ [Exact.Str "..."; Exact.Num totalPages].
Proof.
  intros Hmv half. rewrite getPageNumbers_pageNumbers.
  pose proof (div2_bounds maxVisible) as Hhalf. fold half in Hhalf.
  destruct (Z.leb_spec totalPages (maxVisible + 1)) as [Hsmall | Hbig].
  { apply pageNumbers_complete; lia. }
  rewrite pageNumbers_compressed by lia.
  assert (H1 : (1 <? totalPages) = true) by (apply Z.ltb_lt; lia).
  rewrite H1. unfold Spec.ellipsis.
  destruct (Z.leb_spec currentPage (half + 2)) as [Hstart | Hstart].
  - assert (Hw : Spec.near_end currentPage totalPages maxVisible
                 = (2, maxVisible)).
    { clear - Hhalf Hbig Hmv Hstart. subst half.
      window_cases; f_equal; lia. }
    rewrite Hw. cbn [fst snd]. rewrite Z.ltb_irrefl.
    assert (Ht : (maxVisible <? totalPages - 1) = true)
      by (apply Z.ltb_lt; lia).
    rewrite Ht. rewrite (Spec_interval_cons_1 maxVisible) by lia.
    cbn [app map]. reflexivity.
  - destruct (Z.leb_spec (totalPages - 1) (currentPage + half))
      as [Hend | Hend].
    + assert (Hw : Spec.near_end currentPage totalPages maxVisible
                   = (totalPages - maxVisible + 1, totalPages - 1)).
      { clear - Hhalf Hbig Hmv Hstart Hend. subst half.
        window_cases; f_equal; lia. }
      rewrite Hw. cbn [fst snd]. rewrite Z.ltb_irrefl.
      assert (Ht : (2 <? totalPages - maxVisible + 1) = true)
        by (apply Z.ltb_lt; lia).
      rewrite Ht.
      rewrite (interval_snoc (totalPages - maxVisible + 1) totalPages)
        by lia.
      rewrite map_app. cbn [app map]. reflexivity.
    + assert (Hw : Spec.near_end currentPage totalPages maxVisible
                   = (currentPage - half, currentPage + half)).
      { clear - Hhalf Hbig Hmv Hstart Hend. subst half.
        window_cases; f_equal; lia. }
      rewrite Hw. cbn [fst snd].
      assert (Ht : (2 <? currentPage - half) = true)
        by (apply Z.ltb_lt; lia).
      assert (Hu : (currentPage + half <? totalPages - 1) = true)
        by (apply Z.ltb_lt; lia).
      rewrite Ht, Hu. cbn [app]. reflexivity.
Qed.


(** * [parseSearchParams] *)

(** [Number] on some query values: non-numeric text is NaN, blanks are
    trimmed, an empty value is zero, and a literal is rounded to the
    nearest binary64 value. *)
Example Number_values :
  JSNum.Number (Some "abc"%string) = JSNum.NaN
  /\ JSNum.Number (Some "-5"%string) = JSNum.Finite (-5)
  /\ JSNum.Number (Some " 12 "%string) = JSNum.Finite 12
  /\ JSNum.Number (Some ""%string) = JSNum.Finite 0
  /\ JSNum.Number (Some "2.5"%string) = JSNum.Finite (5 # 2)
  /\ JSNum.Number (Some "0x1F"%string) = JSNum.Finite 31
  /\ JSNum.Number (Some "12px"%string) = JSNum.NaN
  /\ JSNum.Number (Some "1e-400"%string) = JSNum.Finite 0
  /\ JSNum.Number (Some "1e400"%string) = JSNum.Infinity false
  /\ JSNum.Number (Some "9007199254740993"%string)
     = JSNum.Finite 9007199254740992
  /\ JSNum.Number None = JSNum.Finite 0.
Proof. repeat split; vm_compute; reflexivity. Qed.

Section NumberOrder.

Import JSNum.

Lemma leb_refl_finite (q : Q) : leb (Finite q) (Finite q) = true.
Proof. simpl. apply Qle_bool_iff. apply Qle_refl. Qed.

Lemma leb_total (x y : number) :
  is_NaN x = false -> is_NaN y = false ->
  leb x y = false -> leb y x = true.
Proof.
  destruct x as [| [|] | p], y as [| [|] | q]; simpl; try congruence.
  intros _ _ H. apply Qle_bool_iff.
  destruct (Qlt_le_dec q p) as [Hlt | Hle].
  - apply Qlt_le_weak. exact Hlt.
  - apply Qle_bool_iff in Hle. congruence.
Qed.

Lemma leb_trans (x y z : number) :
  leb x y = true -> leb y z = true -> leb x z = true.
Proof.
  destruct x as [| [|] | p], y as [| [|] | q], z as [| [|] | u];
    simpl; try congruence.
  rewrite !Qle_bool_iff. apply Qle_trans.
Qed.

Lemma truthy_not_NaN (x : number) : truthy x = true -> is_NaN x = false.
Proof. destruct x; simpl; congruence. Qed.

(** The falsy numbers are NaN and zero. *)
Lemma falsy_iff (x : number) :
  truthy x = false <-> x = NaN \/ exists q, x = Finite q /\ (q == 0)%Q.
Proof.
  destruct x as [| b | q]; simpl.
  - split; [left; reflexivity | reflexivity].
  - split; [discriminate |].
    intros [H | (q & H & _)]; discriminate H.
  - rewrite negb_false_iff, Qeq_bool_iff. split.
    + intros H. right. exists q. split; [reflexivity | exact H].
    + intros [H | (q' & H & Hz)]; [discriminate H |].
      injection H as ->. exact Hz.
Qed.

(** [Math.max (x, lo)] is at least [lo], and [Math.min] of that with
    [hi] stays within [[lo, hi]]. *)
Lemma Math_max_lower (x : number) (lo : Q) :
  is_NaN x = false -> leb (Finite lo) (Math_max x (Finite lo)) = true.
Proof.
  intros Hx. unfold Math_max. rewrite Hx. simpl orb.
  destruct (leb x (Finite lo)) eqn:Hle.
  - apply leb_refl_finite.
  - apply leb_total; [exact Hx | reflexivity | exact Hle].
Qed.

Lemma Math_max_not_NaN (x y : number) :
  is_NaN x = false -> is_NaN y = false -> is_NaN (Math_max x y) = false.
Proof.
  intros Hx Hy. unfold Math_max. rewrite Hx, Hy. simpl.
  destruct (leb x y); assumption.
Qed.

Lemma clamp_range (x : number) (lo hi : Q) :
  is_NaN x = false -> (lo <= hi)%Q ->
  let c := Math_min (Math_max x (Finite lo)) (Finite hi) in
  leb (Finite lo) c = true /\ leb c (Finite hi) = true.
Proof.
  intros Hx Hlh c.
  pose proof (Math_max_lower x lo Hx) as Hlo.
  pose proof (Math_max_not_NaN x (Finite lo) Hx eq_refl) as Hn.
  subst c. unfold Math_min. rewrite Hn. simpl orb.
  destruct (leb (Math_max x (Finite lo)) (Finite hi)) eqn:Hle.
  - split; [exact Hlo | exact Hle].
  - split; [simpl; apply Qle_bool_iff; exact Hlh | apply leb_refl_finite].
Qed.

End NumberOrder.

Section ParseSearchParams.

Import JSNum.

Variable searchParams : URLSearchParams.t.

Let p := Number (URLSearchParams.get searchParams "page").
Let l := Number (URLSearchParams.get searchParams "limit").
Let r := parseSearchParams searchParams.

Lemma page_eq :
  PageLimit.page r = Math_max (or p (Finite 1)) (Finite 1).
Proof. reflexivity. Qed.

Lemma limit_eq :
  PageLimit.limit r
  = Math_min (Math_max (or l (Finite 10)) (Finite 1)) (Finite 100).
Proof. reflexivity. Qed.

Lemma page_falsy : truthy p = false -> PageLimit.page r = Finite 1.
Proof. intros H. rewrite page_eq. unfold or. rewrite H. reflexivity. Qed.

Lemma limit_falsy : truthy l = false -> PageLimit.limit r = Finite 10.
Proof. intros H. rewrite limit_eq. unfold or. rewrite H. reflexivity. Qed.

Lemma page_truthy :
  truthy p = true -> PageLimit.page r = Math_max p (Finite 1).
Proof. intros H. rewrite page_eq. unfold or. rewrite H. reflexivity. Qed.

Lemma limit_truthy :
  truthy l = true ->
  PageLimit.limit r = Math_min (Math_max l (Finite 1)) (Finite 100).
Proof. intros H. rewrite limit_eq. unfold or. rewrite H. reflexivity. Qed.

Lemma or_not_NaN (x : number) (d : Q) : is_NaN (or x (Finite d)) = false.
Proof.
  unfold or. destruct (truthy x) eqn:H; [| reflexivity].
  apply truthy_not_NaN. exact H.
Qed.

Lemma page_lower : leb (Finite 1) (PageLimit.page r) = true.
Proof. rewrite page_eq. apply Math_max_lower. apply or_not_NaN. Qed.

Lemma limit_range :
  leb (Finite 1) (PageLimit.limit r) = true
  /\ leb (PageLimit.limit r) (Finite 100) = true.
Proof.
  rewrite limit_eq.
  apply (clamp_range (or l (Finite 10)) 1 100);
    [apply or_not_NaN | discriminate].
Qed.

End ParseSearchParams.

(** An absent entry, a non-numeric one (one [Number] turns into NaN)
    and a zero are all falsy. *)
Lemma absent_NaN_zero_falsy (searchParams : URLSearchParams.t) (name : string) :
  URLSearchParams.get searchParams name = None
  \/ JSNum.Number (URLSearchParams.get searchParams name) = JSNum.NaN
  \/ JSNum.Number (URLSearchParams.get searchParams name) = JSNum.Finite 0 ->
  JSNum.truthy (JSNum.Number (URLSearchParams.get searchParams name)) = false.
Proof.
  intros [H | [H | H]]; rewrite H; reflexivity.
Qed.

(** C4: for every query, the page is the default 1 and the limit the
    default 10 whenever the entry is absent, non-numeric (its conversion
    is NaN) or zero; otherwise the page is the converted entry raised to
    at least 1 and the limit the converted entry clamped into
    [[1, 100]]; the page is always at least 1 and the limit always in
    [[1, 100]].  [parseSearchParams] is a total function.  The query
    [page=abc&limit=-5] gives page 1 and limit 1; a literal zero and an
    empty query give the defaults. *)
Theorem parseSearchParams_defaults_and_clamps
    (searchParams : URLSearchParams.t) :
  let r := parseSearchParams searchParams in
  let get := URLSearchParams.get searchParams in
  let p := JSNum.Number (get "page"%string) in
  let l := JSNum.Number (get "limit"%string) in
  (get "page"%string = None \/ p = JSNum.NaN \/ p = JSNum.Finite 0 ->
   PageLimit.page r = JSNum.Finite 1)
  /\ (get "limit"%string = None \/ l = JSNum.NaN \/ l = JSNum.Finite 0 ->
      PageLimit.limit r = JSNum.Finite 10)
  /\ (JSNum.truthy p = false -> PageLimit.page r = JSNum.Finite 1)
  /\ (JSNum.truthy l = false -> PageLimit.limit r = JSNum.Finite 10)
  /\ (JSNum.truthy p = true ->
      PageLimit.page r = JSNum.Math_max p (JSNum.Finite 1))
  /\ (JSNum.truthy l = true ->
      PageLimit.limit r
      = JSNum.Math_min (JSNum.Math_max l (JSNum.Finite 1)) (JSNum.Finite 100))
  /\ JSNum.leb (JSNum.Finite 1) (PageLimit.page r) = true
  /\ JSNum.leb (JSNum.Finite 1) (PageLimit.limit r) = true
  /\ JSNum.leb (PageLimit.limit r) (JSNum.Finite 100) = true
  /\ parseSearchParams [("page", "abc"); ("limit", "-5")]%string
     = {| PageLimit.page := JSNum.Finite 1; PageLimit.limit := JSNum.Finite 1 |}
  /\ parseSearchParams [("page", "0"); ("limit", "0")]%string
     = {| PageLimit.page := JSNum.Finite 1;
          PageLimit.limit := JSNum.Finite 10 |}
  /\ parseSearchParams []
     = {| PageLimit.page := JSNum.Finite 1;
          PageLimit.limit := JSNum.Finite 10 |}.
Proof.
  intros r get p l.
  split.
  { intros H. apply page_falsy. apply absent_NaN_zero_falsy. exact H. }
  split.
  { intros H. apply limit_falsy. apply absent_NaN_zero_falsy. exact H. }
  split; [apply page_falsy |].
  split; [apply limit_falsy |].
  split; [apply page_truthy |].
  split; [apply limit_truthy |].
  split; [apply page_lower |].
  split; [apply (limit_range searchParams) |].
  split; [apply (limit_range searchParams) |].
  repeat split; vm_compute; reflexivity.
Qed.

(** ** The page number of a tag, read back *)

Section ReadBack.

Import JSNum.

Lemma Qred_integer (a : Z) : Qred (a # 1) = a # 1.
Proof.
  unfold Qred.
  pose proof (Z.ggcd_gcd a 1) as Hg.
  pose proof (Z.ggcd_correct_divisors a 1) as Hd.
  destruct (Z.ggcd a 1) as [g [aa bb]]. cbn [fst snd] in *.
  rewrite Z.gcd_1_r in Hg. subst g. destruct Hd as [Ha Hb].
  replace aa with a by lia. replace bb with 1 by lia. reflexivity.
Qed.

Lemma Qred_scaled (a j : Z) :
  0 <= j -> Qred (a * 2 ^ j # Z.to_pos (2 ^ j)) = a # 1.
Proof.
  intros Hj. rewrite <- Qred_integer. apply Qred_complete.
  unfold Qeq. cbn [Qnum Qden].
  rewrite Z2Pos.id by (apply Z.pow_pos_nonneg; lia). lia.
Qed.

Lemma round_half_even_integer (z : Z) : round_half_even z 1 = z.
Proof.
  unfold round_half_even. rewrite Z.mod_1_r, Z.div_1_r. reflexivity.
Qed.

(** An integer below 2^53 is a binary64 value: rounding keeps it. *)
Lemma round_binary64_integer (negative : bool) (z : Z) :
  0 < z < 2 ^ 53 ->
  round_binary64 negative z 1
  = Finite (inject_Z (if negative then - z else z)).
Proof.
  intros Hz. unfold round_binary64.
  destruct (Z.eqb_spec z 0) as [H0 | _]; [lia |].
  assert (Hlog : log2_frac z 1 = Z.log2 z).
  { unfold log2_frac, pow2_le. change (Z.log2 1) with 0.
    rewrite Z.sub_0_r.
    pose proof (Z.log2_nonneg z) as Hnn.
    destruct (Z.leb_spec 0 (Z.log2 z)); [| lia].
    pose proof (Z.log2_spec z ltac:(lia)) as [Hlo _].
    destruct (Z.leb_spec (1 * 2 ^ Z.log2 z) z); [reflexivity | lia]. }
  rewrite Hlog.
  assert (He : 0 <= Z.log2 z < 53).
  { split; [apply Z.log2_nonneg |].
    apply Z.log2_lt_pow2; lia. }
  rewrite Z.max_l by lia. cbv zeta.
  destruct (Z.leb_spec 0 (Z.log2 z - 52)) as [Hk | Hk].
  - assert (Hk0 : Z.log2 z - 52 = 0) by lia. rewrite Hk0.
    change (2 ^ 0) with 1. rewrite !Z.mul_1_r, round_half_even_integer.
    assert (Habs : Z.abs (if negative then - z else z) = z)
      by (destruct negative; lia).
    rewrite Habs.
    destruct (Z.leb_spec (2 ^ 1024) z) as [Hbig | _].
    + assert (2 ^ 53 < 2 ^ 1024) by (apply Z.pow_lt_mono_r; lia). lia.
    + rewrite Qred_integer. reflexivity.
  - rewrite round_half_even_integer.
    replace (if negative then - (z * 2 ^ (- (Z.log2 z - 52)))
             else z * 2 ^ (- (Z.log2 z - 52)))
      with ((if negative then - z else z) * 2 ^ (- (Z.log2 z - 52)))
      by (destruct negative; lia).
    rewrite Qred_scaled by lia. reflexivity.
Qed.


(** A decimal digit is no blank, sign, radix letter or ["I"]. *)
Lemma decimal_digit_char (c : ascii) (v : Z) :
  digit_in 10 c = Some v ->
  is_white_space c = false
  /\ is_char c "+" = false /\ is_char c "-" = false
  /\ is_char c "." = false
  /\ is_char c "x" = false /\ is_char c "X" = false
  /\ is_char c "o" = false /\ is_char c "O" = false
  /\ is_char c "b" = false /\ is_char c "B" = false
  /\ Ascii.eqb c "I" = false.
Proof.
  destruct c as [[|] [|] [|] [|] [|] [|] [|] [|]]; vm_compute;
    intros H; try discriminate H; repeat split; reflexivity.
Qed.

Lemma span_digits_cons (base : Z) (c : ascii) (v : Z) (t : list ascii) :
  digit_in base c = Some v ->
  span_digits base (c :: t)
  = (v :: fst (span_digits base t), snd (span_digits base t)).
Proof.
  intros H. cbn [span_digits]. rewrite H.
  destruct (span_digits base t). reflexivity.
Qed.

(** The digits of a decimal numeral, as [span_digits] reads them from
    the string of the numeral: all of the string is read, and the digits
    have the value of the numeral. *)
Lemma span_digits_uint (d : Decimal.uint) :
  let chars := list_ascii_of_string (NilEmpty.string_of_uint d) in
  snd (span_digits 10 chars) = []
  /\ (forall acc : positive,
        fold_left (fun a x => a * 10 + x) (fst (span_digits 10 chars))
                  (Z.pos acc)
        = Z.pos (Pos.of_uint_acc d acc))
  /\ fold_left (fun a x => a * 10 + x) (fst (span_digits 10 chars)) 0
     = Z.of_N (Pos.of_uint d)
  /\ Forall (fun c => exists v, digit_in 10 c = Some v) chars.
Proof.
  cbv zeta.
  induction d as [| d IH | d IH | d IH | d IH | d IH | d IH | d IH | d IH
                  | d IH | d IH];
    cbn [NilEmpty.string_of_uint list_ascii_of_string].
  { split; [reflexivity |]. split; [intros; reflexivity |].
    split; [reflexivity | constructor]. }
  all: destruct IH as (Hsnd & Hacc & Hval & Hall).
  all: match goal with
       | |- context [span_digits 10 (?c :: ?t)] =>
           let v := eval vm_compute in (digit_in 10 c) in
           match v with
           | Some ?k =>
               rewrite (span_digits_cons 10 c k t
                          ltac:(vm_compute; reflexivity))
           end
       end.
  all: cbn [fst snd fold_left].
  all: split; [exact Hsnd |].
  all: split;
    [ intros acc; cbn [Pos.of_uint_acc]; rewrite <- Hacc; f_equal; lia |].
  all: split;
    [ first [ exact Hval
            | cbn [Pos.of_uint Z.of_N]; rewrite <- Hacc; reflexivity ] |].
  all: constructor; [eexists; vm_compute; reflexivity | exact Hall].
Qed.

(** A string without blanks is its own trim. *)
Lemma trim_no_white_space (l : list ascii) :
  Forall (fun c => is_white_space c = false) l -> trim l = l.
Proof.
  assert (Hdrop : forall l',
             Forall (fun c => is_white_space c = false) l' ->
             drop_white_space l' = l').
  { intros l' Hl'. destruct Hl' as [| c t Hc Ht]; [reflexivity |].
    cbn [drop_white_space]. rewrite Hc. reflexivity. }
  intros Hl. unfold trim. rewrite (Hdrop l Hl).
  rewrite Hdrop by (apply Forall_rev; exact Hl). apply rev_involutive.
Qed.

(** [Number] on a non-empty string of decimal digits, after its sign. *)
Lemma unsigned_decimal_digits (negative : bool) (chars : list ascii) :
  chars <> [] ->
  Forall (fun c => exists v, digit_in 10 c = Some v) chars ->
  snd (span_digits 10 chars) = [] ->
  unsigned_decimal negative chars
  = round_binary64 negative
      (digits_value 10 (fst (span_digits 10 chars))) 1.
Proof.
  intros Hne Hall Hsnd. unfold unsigned_decimal.
  destruct chars as [| c t]; [contradiction |].
  inversion Hall as [| ? ? [v Hv] Ht]; subst.
  pose proof (decimal_digit_char c v Hv)
    as (_ & _ & _ & _ & _ & _ & _ & _ & _ & _ & HI).
  assert (Hinf : String.eqb (string_of_list_ascii (c :: t)) "Infinity"
                 = false).
  { cbn [string_of_list_ascii String.eqb]. rewrite HI. reflexivity. }
  rewrite Hinf.
  rewrite (span_digits_cons 10 c v t Hv) in *. cbn [fst snd] in *.
  rewrite Hsnd. cbn [nonempty orb]. cbn [exponent_part].
  rewrite app_nil_r. unfold of_decimal. cbn [List.length Z.of_nat].
  change (0 - 0) with 0. change (0 <=? 0) with true. cbv iota.
  change (10 ^ 0) with 1. rewrite Z.mul_1_r. reflexivity.
Qed.

Lemma non_decimal_digits (chars : list ascii) :
  Forall (fun c => exists v, digit_in 10 c = Some v) chars ->
  non_decimal chars = None.
Proof.
  intros Hall. destruct chars as [| z [| x ds]]; try reflexivity.
  inversion Hall as [| ? ? _ Ht]; subst.
  inversion Ht as [| ? ? [v Hv] _]; subst.
  pose proof (decimal_digit_char x v Hv)
    as (_ & _ & _ & _ & Hx & HX & Ho & HO & Hb & HB & _).
  cbn [non_decimal]. rewrite Hx, HX, Ho, HO, Hb, HB. reflexivity.
Qed.

(** [Number] on the decimal numeral of a positive number below 2^53,
    with or without a minus sign before it. *)
Lemma StringToNumber_numeral (negative : bool) (p : positive) :
  Z.pos p < 2 ^ 53 ->
  let digits := NilEmpty.string_of_uint (Pos.to_uint p) in
  StringToNumber (if negative then String "-" digits else digits)
  = Finite (inject_Z (if negative then Z.neg p else Z.pos p)).
Proof.
  intros Hp digits.
  pose proof (span_digits_uint (Pos.to_uint p)) as (Hsnd & _ & Hval & Hall).
  fold digits in Hsnd, Hval, Hall.
  rewrite Unsigned.of_to in Hval. cbn [Z.of_N] in Hval.
  set (chars := list_ascii_of_string digits) in *.
  assert (Hne : chars <> []).
  { subst chars digits. pose proof (Unsigned.to_uint_nonnil p) as Hnil.
    destruct (Pos.to_uint p); [contradiction | ..]; discriminate. }
  assert (Hws : Forall (fun c => is_white_space c = false) chars).
  { eapply Forall_impl; [| exact Hall].
    intros c [v Hv]. apply (decimal_digit_char c v Hv). }
  assert (Hnum : unsigned_decimal negative chars
                 = Finite (inject_Z (if negative then Z.neg p else Z.pos p))).
  { rewrite unsigned_decimal_digits by assumption.
    unfold digits_value. rewrite Hval.
    rewrite round_binary64_integer by lia.
    destruct negative; reflexivity. }
  unfold StringToNumber. destruct negative.
  - cbn [list_ascii_of_string]. fold chars.
    rewrite trim_no_white_space by (constructor; [reflexivity | exact Hws]).
    change (is_char "-" "+") with false. change (is_char "-" "-") with true.
    cbv iota. exact Hnum.
  - fold chars. rewrite trim_no_white_space by exact Hws.
    destruct chars as [| c t] eqn:Hchars; [contradiction |].
    inversion Hall as [| ? ? [v Hv] _]; subst.
    pose proof (decimal_digit_char c v Hv) as (_ & Hplus & Hminus & _).
    rewrite Hplus, Hminus, non_decimal_digits by exact Hall.
    exact Hnum.
Qed.

(** Reading back what a template literal prints for an integer of
    magnitude below 2^53. *)
Lemma Number_to_string (n : Z) :
  - 2 ^ 53 < n < 2 ^ 53 ->
  Number (Some (JS.to_string (Some n))) = of_Z n.
Proof.
  intros Hn. unfold Number, JS.to_string, of_Z.
  destruct n as [| p | p].
  - vm_compute. reflexivity.
  - cbn [Z.to_int NilZero.string_of_int].
    pose proof (Unsigned.to_uint_nonnil p) as Hnil.
    assert (Hs : NilZero.string_of_uint (Pos.to_uint p)
                 = NilEmpty.string_of_uint (Pos.to_uint p))
      by (destruct (Pos.to_uint p); [contradiction | ..]; reflexivity).
    rewrite Hs. apply (StringToNumber_numeral false p). lia.
  - cbn [Z.to_int NilZero.string_of_int].
    pose proof (Unsigned.to_uint_nonnil p) as Hnil.
    assert (Hs : NilZero.string_of_uint (Pos.to_uint p)
                 = NilEmpty.string_of_uint (Pos.to_uint p))
      by (destruct (Pos.to_uint p); [contradiction | ..]; reflexivity).
    rewrite Hs. apply (StringToNumber_numeral true p). lia.
Qed.

End ReadBack.

Lemma of_Z_truthy (n : Z) : n <> 0 -> JSNum.truthy (JSNum.of_Z n) = true.
Proof.
  intros Hn. unfold JSNum.of_Z, JSNum.truthy, inject_Z, Qeq_bool.
  cbn [Qnum Qden]. rewrite !Z.mul_1_r.
  destruct (Z.eqb_spec n 0); [contradiction | reflexivity].
Qed.

Lemma of_Z_leb (a b : Z) :
  JSNum.leb (JSNum.of_Z a) (JSNum.of_Z b) = (a <=? b).
Proof.
  unfold JSNum.of_Z, JSNum.leb, inject_Z, Qle_bool. cbn [Qnum Qden].
  rewrite !Z.mul_1_r. reflexivity.
Qed.

Lemma of_Z_max (a b : Z) :
  JSNum.Math_max (JSNum.of_Z a) (JSNum.of_Z b) = JSNum.of_Z (Z.max a b).
Proof.
  unfold JSNum.Math_max. rewrite of_Z_leb. cbn [JSNum.is_NaN JSNum.of_Z orb].
  destruct (Z.leb_spec a b); f_equal; f_equal; lia.
Qed.

Lemma of_Z_min (a b : Z) :
  JSNum.Math_min (JSNum.of_Z a) (JSNum.of_Z b) = JSNum.of_Z (Z.min a b).
Proof.
  unfold JSNum.Math_min. rewrite of_Z_leb. cbn [JSNum.is_NaN JSNum.of_Z orb].
  destruct (Z.leb_spec a b); f_equal; f_equal; lia.
Qed.

(** X18: a page number written by a template literal, as
    [generateMetaTags] writes it after ["?page="], is read back by
    [parseSearchParams] as the same number, for every page from 1 up to
    2^53 - 1; a limit written the same way is read back capped at
    100. *)
Theorem parseSearchParams_reads_back
    (searchParams : URLSearchParams.t) (p l : Z) :
  1 <= p < 2 ^ 53 ->
  1 <= l < 2 ^ 53 ->
  URLSearchParams.get searchParams "page" = Some (JS.to_string (Some p)) ->
  URLSearchParams.get searchParams "limit" = Some (JS.to_string (Some l)) ->
  parseSearchParams searchParams
  = {| PageLimit.page := JSNum.of_Z p;
       PageLimit.limit := JSNum.of_Z (Z.min l 100) |}.
Proof.
  intros Hp Hl Hgp Hgl. unfold parseSearchParams.
  rewrite Hgp, Hgl, !Number_to_string by lia.
  unfold JSNum.or. rewrite !of_Z_truthy by lia.
  rewrite !of_Z_max, of_Z_min. unfold MAX_LIMIT.
  f_equal; f_equal; lia.
Qed.

Lemma parseSearchParams_reads_back_witness :
  1 <= 3 < 2 ^ 53 /\ 1 <= 250 < 2 ^ 53
  /\ parseSearchParams [("page", "3"); ("limit", "250")]%string
     = {| PageLimit.page := JSNum.of_Z 3;
          PageLimit.limit := JSNum.of_Z (Z.min 250 100) |}.
Proof.
  split; [lia |]. split; [lia |].
  apply (parseSearchParams_reads_back
           [("page", "3"); ("limit", "250")]%string 3 250);
    [lia | lia | reflexivity | reflexivity].
Defined.

(** What [parseSearchParams] returns need not be integral or finite. *)
Example parseSearchParams_fraction :
  parseSearchParams [("page", "2.5"); ("limit", "0.5")]%string
  = {| PageLimit.page := JSNum.Finite (5 # 2);
       PageLimit.limit := JSNum.Finite 1 |}
  /\ PageLimit.page (parseSearchParams [("page", "Infinity")]%string)
     = JSNum.Infinity false.
Proof. split; vm_compute; reflexivity. Qed.


(** * The embedding and the exact integers

    Where the values stay below 2^53 no operation of [calculate] and
    [getPageNumbers] rounds, and the source computes what module [Exact]
    describes. *)

(** ** Integers under the operations on numbers *)

Section IntegerArithmetic.

Import JSNum.

Lemma round_not_NaN (q : Q) : is_NaN (round q) = false.
Proof.
  unfold round, round_binary64.
  destruct (Qnum q); [reflexivity | |];
    repeat match goal with
           | |- context [if ?c then _ else _] => destruct c
           end; reflexivity.
Qed.

(** An integer of magnitude below 2^53 is a binary64 value. *)
Lemma round_integer (z : Z) :
  - 2 ^ 53 < z < 2 ^ 53 -> round (z # 1) = of_Z z.
Proof.
  intros Hz. unfold round. cbn [Qnum Qden].
  destruct z as [| p | p]; [reflexivity | |].
  - apply (round_binary64_integer false (Z.pos p)). lia.
  - apply (round_binary64_integer true (Z.pos p)). lia.
Qed.

Lemma add_of_Z (a b : Z) :
  - 2 ^ 53 < a + b < 2 ^ 53 -> add (of_Z a) (of_Z b) = of_Z (a + b).
Proof.
  intros H. unfold add, of_Z, inject_Z, Qplus. cbn [Qnum Qden Pos.mul].
  rewrite !Z.mul_1_r. apply round_integer. exact H.
Qed.

Lemma opp_of_Z (a : Z) : opp (of_Z a) = of_Z (- a).
Proof. reflexivity. Qed.

Lemma sub_of_Z (a b : Z) :
  - 2 ^ 53 < a - b < 2 ^ 53 -> sub (of_Z a) (of_Z b) = of_Z (a - b).
Proof.
  intros H. unfold sub. rewrite opp_of_Z, add_of_Z by lia.
  f_equal.
Qed.

Lemma mul_of_Z (a b : Z) :
  - 2 ^ 53 < a * b < 2 ^ 53 -> mul (of_Z a) (of_Z b) = of_Z (a * b).
Proof.
  intros H. unfold mul, of_Z, inject_Z, Qmult. cbn [Qnum Qden Pos.mul].
  apply round_integer. exact H.
Qed.

Lemma ltb_of_Z (a b : Z) : ltb (of_Z a) (of_Z b) = (a <? b).
Proof.
  unfold ltb. rewrite of_Z_leb. cbn [is_NaN of_Z orb].
  rewrite Z.ltb_antisym. reflexivity.
Qed.

Lemma gtb_of_Z (a b : Z) : gtb (of_Z a) (of_Z b) = (b <? a).
Proof. apply ltb_of_Z. Qed.

Lemma geb_of_Z (a b : Z) : geb (of_Z a) (of_Z b) = (b <=? a).
Proof. apply of_Z_leb. Qed.

Lemma eqb_of_Z (a b : Z) : eqb (of_Z a) (of_Z b) = (a =? b).
Proof.
  unfold eqb. rewrite !of_Z_leb.
  destruct (Z.leb_spec a b), (Z.leb_spec b a), (Z.eqb_spec a b);
    try reflexivity; lia.
Qed.

Lemma of_Z_inj (a b : Z) : of_Z a = of_Z b -> a = b.
Proof. unfold of_Z, inject_Z. intros [= H]. exact H. Qed.

Lemma nullish_of_Z (o : option Z) (d : Z) :
  JS.nullish (option_map of_Z o) (of_Z d) = of_Z (JS.nullish o d).
Proof. destruct o; reflexivity. Qed.

End IntegerArithmetic.

(** ** The ceiling of a rounded quotient *)

Section CeilingOfQuotient.

Import JSNum.

Lemma round_half_even_spec (n d : Z) :
  0 <= n -> 0 < d ->
  n / d <= round_half_even n d <= n / d + 1
  /\ (n mod d = 0 -> round_half_even n d = n / d)
  /\ (d < 2 * (n mod d) -> round_half_even n d = n / d + 1).
Proof.
  intros Hn Hd. unfold round_half_even.
  destruct (Z.compare_spec (2 * (n mod d)) d) as [He | Hl | Hg];
    try destruct (Z.even (n / d)); repeat split; intros; lia.
Qed.

Lemma log2_frac_le (a b : Z) :
  0 < a -> 0 < b -> log2_frac a b <= Z.log2 a.
Proof.
  intros Ha Hb. unfold log2_frac.
  pose proof (Z.log2_nonneg b).
  destruct (pow2_le (Z.log2 a - Z.log2 b) a b); lia.
Qed.

(** When the exponent found is not negative, [2 ^ e <= a / b]. *)
Lemma log2_frac_lower (a b : Z) :
  0 < a -> 0 < b -> 0 <= log2_frac a b -> b * 2 ^ log2_frac a b <= a.
Proof.
  intros Ha Hb. unfold log2_frac, pow2_le.
  pose proof (Z.log2_spec a Ha) as [Hal _].
  pose proof (Z.log2_spec b Hb) as [_ Hbu].
  pose proof (Z.log2_nonneg a). pose proof (Z.log2_nonneg b).
  set (e := Z.log2 a - Z.log2 b) in *.
  destruct (Z.leb_spec 0 e) as [He | He].
  - destruct (Z.leb_spec (b * 2 ^ e) a) as [Hle | Hgt]; intros He'.
    + exact Hle.
    + assert (Hsplit : 2 ^ Z.log2 a = 2 ^ (e - 1) * 2 ^ Z.succ (Z.log2 b)).
      { rewrite <- Z.pow_add_r by lia. f_equal. lia. }
      assert (0 < 2 ^ (e - 1)) by (apply Z.pow_pos_nonneg; lia).
      nia.
  - destruct (b <=? a * 2 ^ (- e)); intros He'; lia.
Qed.

(** Rounding a quotient to a grid finer than the divisor keeps its
    ceiling. *)
Lemma ceil_round_grid (a b j : Z) :
  0 <= a -> 0 < b -> 0 < j -> b < 2 * j ->
  Exact.Math_ceil_div (round_half_even (a * j) b) j
  = Exact.Math_ceil_div a b.
Proof.
  intros Ha Hb Hj Hbj.
  pose proof (Math_ceil_div_bounds a b Hb) as Hc.
  set (c := Exact.Math_ceil_div a b) in *.
  pose proof (round_half_even_spec (a * j) b ltac:(nia) Hb)
    as (Hm & Hexact & Hup).
  set (m := round_half_even (a * j) b) in *.
  pose proof (Z.div_mod (a * j) b ltac:(lia)) as Hdm.
  pose proof (Z.mod_pos_bound (a * j) b Hb) as Hr.
  assert (Hhi : m <= c * j).
  { destruct (Z.eq_dec ((a * j) mod b) 0) as [H0 | Hne].
    - rewrite (Hexact H0). nia.
    - assert ((a * j) / b < c * j) by nia. lia. }
  assert (Hlo : (c - 1) * j < m).
  { destruct (Z_lt_le_dec ((c - 1) * j) ((a * j) / b)) as [Hgt | Hle].
    - lia.
    - assert (Hq : (a * j) / b = (c - 1) * j) by nia.
      assert (Hrem : j <= (a * j) mod b) by nia.
      rewrite Hup by lia. lia. }
  pose proof (Math_ceil_div_bounds m j Hj) as Hcm.
  nia.
Qed.

Lemma Qceiling_Qred (q : Q) : Qceiling (Qred q) = Qceiling q.
Proof. apply Qceiling_comp. apply Qred_correct. Qed.

Lemma Qfloor_Qred (q : Q) : Qfloor (Qred q) = Qfloor q.
Proof. apply Qfloor_comp. apply Qred_correct. Qed.

Lemma Qceiling_frac (m : Z) (p : positive) :
  Qceiling (m # p) = Exact.Math_ceil_div m (Z.pos p).
Proof. reflexivity. Qed.

(** [Math.ceil (a / b)] on integers below 2^53 is the ceiling of the
    exact quotient: the rounding of the division does not reach the
    next integer. *)
Lemma Math_ceil_div_exact (a b : Z) :
  0 <= a < 2 ^ 53 -> 0 < b < 2 ^ 53 ->
  Math_ceil (div (of_Z a) (of_Z b)) = of_Z (Exact.Math_ceil_div a b).
Proof.
  intros Ha Hb. destruct b as [| pb | pb]; try lia.
  assert (Hnz : Qeq_bool (inject_Z (Z.pos pb)) 0 = false) by reflexivity.
  unfold div, of_Z. rewrite Hnz. clear Hnz.
  unfold inject_Z, Qdiv, Qinv, Qmult. cbn [Qnum Qden Pos.mul].
  rewrite Z.mul_1_r.
  unfold round. cbn [Qnum Qden].
  destruct a as [| pa | pa]; try lia.
  { cbn [Math_ceil]. rewrite Math_ceil_div_0. reflexivity. }
  unfold round_binary64.
  change (Z.pos pa =? 0) with false. cbv iota zeta.
  pose proof (log2_frac_le (Z.pos pa) (Z.pos pb) ltac:(lia) ltac:(lia))
    as Hle.
  assert (Hlog : Z.log2 (Z.pos pa) < 53) by (apply Z.log2_lt_pow2; lia).
  pose proof (log2_frac_lower (Z.pos pa) (Z.pos pb) ltac:(lia) ltac:(lia))
    as Hlow.
  set (lf := log2_frac (Z.pos pa) (Z.pos pb)) in *.
  set (e := Z.max lf (-1022)).
  assert (He : -1022 <= e <= 52) by lia.
  assert (Hgrid : Z.pos pb < 2 * 2 ^ (52 - e)).
  { destruct (Z_lt_le_dec e 0) as [Hneg | Hpos].
    - assert (2 ^ 53 <= 2 * 2 ^ (52 - e)).
      { change (2 * 2 ^ (52 - e)) with (2 ^ 1 * 2 ^ (52 - e)).
        rewrite <- Z.pow_add_r by lia. apply Z.pow_le_mono_r; lia. }
      lia.
    - assert (Hlf : e = lf) by lia. specialize (Hlow ltac:(lia)).
      rewrite <- Hlf in Hlow.
      assert (Hsplit : 2 ^ 53 = 2 ^ e * (2 * 2 ^ (52 - e))).
      { change (2 * 2 ^ (52 - e)) with (2 ^ 1 * 2 ^ (52 - e)).
        rewrite <- !Z.pow_add_r by lia. f_equal. lia. }
      assert (0 < 2 ^ e) by (apply Z.pow_pos_nonneg; lia).
      nia. }
  destruct (Z.leb_spec 0 (e - 52)) as [Hk | Hk].
  - assert (He52 : e = 52) by lia. rewrite He52 in *.
    change (2 ^ (52 - 52)) with 1 in Hgrid.
    assert (Hpb : Z.pos pb = 1) by lia. rewrite Hpb.
    change (52 - 52) with 0. change (2 ^ 0) with 1.
    rewrite !Z.mul_1_r, round_half_even_integer.
    destruct (Z.leb_spec (2 ^ 1024) (Z.abs (Z.pos pa))) as [Hbig | _].
    + assert (2 ^ 53 < 2 ^ 1024) by (apply Z.pow_lt_mono_r; lia). lia.
    + rewrite Qred_integer. cbn [Math_ceil]. unfold of_Z. do 2 f_equal.
  - cbn [Math_ceil]. rewrite Qceiling_Qred.
    assert (Hpow : 0 < 2 ^ (- (e - 52))) by (apply Z.pow_pos_nonneg; lia).
    unfold Qceiling, Qfloor, Qopp. cbn [Qnum Qden].
    rewrite Z2Pos.id by exact Hpow.
    replace (- (e - 52)) with (52 - e) in * by lia.
    unfold of_Z, inject_Z. do 2 f_equal.
    apply (ceil_round_grid (Z.pos pa) (Z.pos pb) (2 ^ (52 - e))); lia.
Qed.

End CeilingOfQuotient.

(** ** Halves, and the first integers that round *)

Section HalvesAndBeyond.

Import JSNum.

(** From 2^53 to 2^54 an integer rounds to an even integer at distance
    at most 1. *)
Lemma round_binary64_beyond (negative : bool) (p : positive) :
  2 ^ 53 <= Z.pos p < 2 ^ 54 ->
  exists k,
    round_binary64 negative (Z.pos p) 1
    = of_Z (if negative then - (2 * k) else 2 * k)
    /\ Z.pos p - 1 <= 2 * k <= Z.pos p + 1.
Proof.
  intros Hz.
  unfold round_binary64. change (Z.pos p =? 0) with false. cbv iota zeta.
  assert (Hlog : Z.log2 (Z.pos p) = 53).
  { apply Z.log2_unique; [lia |]. change (Z.succ 53) with 54. lia. }
  assert (Hlf : log2_frac (Z.pos p) 1 = 53).
  { unfold log2_frac, pow2_le. rewrite Hlog. change (Z.log2 1) with 0.
    change (53 - 0) with 53. change (0 <=? 53) with true. cbv iota.
    destruct (Z.leb_spec (1 * 2 ^ 53) (Z.pos p)); [reflexivity | lia]. }
  rewrite Hlf. change (Z.max 53 (-1022) - 52) with 1.
  change (0 <=? 1) with true. cbv iota. change (2 ^ 1) with 2.
  change (1 * 2) with 2.
  pose proof (round_half_even_spec (Z.pos p) 2 ltac:(lia) ltac:(lia))
    as (Hm & Hexact & _).
  set (m := round_half_even (Z.pos p) 2) in *.
  pose proof (Z.div_mod (Z.pos p) 2 ltac:(lia)) as Hdm.
  pose proof (Z.mod_pos_bound (Z.pos p) 2 ltac:(lia)) as Hr.
  assert (Hmr : 2 ^ 52 <= m <= 2 ^ 53) by lia.
  assert (Hnear : Z.pos p - 1 <= 2 * m <= Z.pos p + 1).
  { destruct (Z.eq_dec (Z.pos p mod 2) 0) as [H0 | H1].
    - specialize (Hexact H0). lia.
    - lia. }
  assert (Habs : Z.abs (if negative then - m else m) = m)
    by (destruct negative; lia).
  rewrite Habs.
  destruct (Z.leb_spec (2 ^ 1024) (m * 2)) as [Hbig | _].
  - assert (2 ^ 54 < 2 ^ 1024) by (apply Z.pow_lt_mono_r; lia). lia.
  - exists m. rewrite Qred_integer. split; [| exact Hnear].
    destruct negative; unfold of_Z, inject_Z; apply f_equal;
      apply (f_equal (fun n => n # 1)); lia.
Qed.

(** An integer below 2^54 in absolute value rounds to itself when it is
    below 2^53 in absolute value, and to an even integer at distance at
    most 1 otherwise. *)
Lemma round_near (z : Z) :
  - 2 ^ 54 < z < 2 ^ 54 ->
  exists v k,
    round (z # 1) = of_Z v
    /\ (- 2 ^ 53 < z < 2 ^ 53 -> v = z)
    /\ (2 ^ 53 <= z \/ z <= - 2 ^ 53 -> v = 2 * k /\ z - 1 <= v <= z + 1).
Proof.
  intros Hz.
  destruct (Z_lt_le_dec z (2 ^ 53)) as [Hlt | Hge].
  - destruct (Z_lt_le_dec (- 2 ^ 53) z) as [Hgt | Hle].
    + exists z, 0. split; [apply round_integer; lia |]. split; [easy | lia].
    + destruct z as [| p | p]; try lia.
      destruct (round_binary64_beyond true p ltac:(lia)) as (k & Hk & Hn).
      exists (- (2 * k)), (- k). split; [exact Hk |]. lia.
  - destruct z as [| p | p]; try lia.
    destruct (round_binary64_beyond false p ltac:(lia)) as (k & Hk & Hn).
    exists (2 * k), k. split; [exact Hk |]. lia.
Qed.

Lemma round_integer_beyond (z : Z) :
  2 ^ 53 <= z < 2 ^ 54 ->
  exists v, round (z # 1) = of_Z v /\ 2 ^ 53 <= v.
Proof.
  intros Hz.
  assert (H53 : 2 ^ 53 = 2 * 2 ^ 52) by reflexivity.
  destruct (round_near z ltac:(lia)) as (v & k & Hv & _ & Hb).
  exists v. split; [exact Hv | lia].
Qed.

Lemma add_near (a b : Z) :
  - 2 ^ 54 < a + b < 2 ^ 54 ->
  exists v k,
    add (of_Z a) (of_Z b) = of_Z v
    /\ (- 2 ^ 53 < a + b < 2 ^ 53 -> v = a + b)
    /\ (2 ^ 53 <= a + b \/ a + b <= - 2 ^ 53 ->
        v = 2 * k /\ a + b - 1 <= v <= a + b + 1).
Proof.
  intros H.
  assert (Heq : add (of_Z a) (of_Z b) = round ((a + b) # 1)).
  { unfold add, of_Z, inject_Z, Qplus. cbn [Qnum Qden Pos.mul].
    rewrite !Z.mul_1_r. reflexivity. }
  rewrite Heq. apply round_near. exact H.
Qed.

Lemma sub_near (a b : Z) :
  - 2 ^ 54 < a - b < 2 ^ 54 ->
  exists v k,
    sub (of_Z a) (of_Z b) = of_Z v
    /\ (- 2 ^ 53 < a - b < 2 ^ 53 -> v = a - b)
    /\ (2 ^ 53 <= a - b \/ a - b <= - 2 ^ 53 ->
        v = 2 * k /\ a - b - 1 <= v <= a - b + 1).
Proof.
  intros H. unfold sub. rewrite opp_of_Z.
  replace (a - b) with (a + - b) by lia. apply add_near. lia.
Qed.

(** Half of an integer below 2^53 is a binary64 value, so
    [Math.floor (m / 2)] is the floor of the exact half. *)
Lemma Math_floor_half_exact (m : Z) :
  - 2 ^ 53 < m < 2 ^ 53 ->
  Math_floor (div (of_Z m) (of_Z 2)) = of_Z (m / 2).
Proof.
  intros Hm. unfold div, of_Z.
  change (Qeq_bool (inject_Z 2) 0) with false. cbv iota.
  unfold inject_Z, Qdiv, Qinv, Qmult. cbn [Qnum Qden Pos.mul].
  rewrite Z.mul_1_r. unfold round. cbn [Qnum Qden].
  assert (Hgen : forall (negative : bool) (p : positive),
             Z.pos p < 2 ^ 53 ->
             Math_floor (round_binary64 negative (Z.pos p) 2)
             = Finite
                 (inject_Z ((if negative then Z.neg p else Z.pos p) / 2))).
  { intros negative p Hp. unfold round_binary64.
    change (Z.pos p =? 0) with false. cbv iota zeta.
    pose proof (log2_frac_le (Z.pos p) 2 ltac:(lia) ltac:(lia)) as Hle.
    assert (Hlog : Z.log2 (Z.pos p) < 53) by (apply Z.log2_lt_pow2; lia).
    assert (Hlf : log2_frac (Z.pos p) 2 <= Z.log2 (Z.pos p) - 1).
    { unfold log2_frac. change (Z.log2 2) with 1.
      destruct (pow2_le (Z.log2 (Z.pos p) - 1) (Z.pos p) 2); lia. }
    set (e := Z.max (log2_frac (Z.pos p) 2) (-1022)).
    assert (He : -1022 <= e <= 51) by lia.
    destruct (Z.leb_spec 0 (e - 52)) as [Hk | Hk]; [lia |].
    replace (- (e - 52)) with (Z.succ (51 - e)) by lia.
    rewrite Z.pow_succ_r by lia.
    set (j := 2 ^ (51 - e)).
    assert (Hj : 0 < j) by (apply Z.pow_pos_nonneg; lia).
    assert (Hrne : round_half_even (Z.pos p * (2 * j)) 2 = Z.pos p * j).
    { pose proof (round_half_even_spec (Z.pos p * (2 * j)) 2
                    ltac:(nia) ltac:(lia)) as (_ & Hexact & _).
      replace (Z.pos p * (2 * j)) with (Z.pos p * j * 2) in * by lia.
      rewrite Hexact by (apply Z.mod_mul; lia).
      apply Z.div_mul. lia. }
    rewrite Hrne. cbn [Math_floor]. rewrite Qfloor_Qred.
    unfold Qfloor. cbn [Qnum Qden].
    rewrite Z2Pos.id by lia. do 2 f_equal.
    replace (if negative then - (Z.pos p * j) else Z.pos p * j)
      with ((if negative then Z.neg p else Z.pos p) * j)
      by (destruct negative; lia).
    rewrite Z.div_mul_cancel_r by lia. reflexivity. }
  destruct m as [| p | p].
  - reflexivity.
  - apply (Hgen false p). lia.
  - apply (Hgen true p). lia.
Qed.

End HalvesAndBeyond.

(** ** [calculate] computes the exact result *)

Lemma add_of_Z_beyond (a b : Z) :
  2 ^ 53 <= a + b < 2 ^ 54 ->
  exists v, JSNum.add (JSNum.of_Z a) (JSNum.of_Z b) = JSNum.of_Z v
            /\ 2 ^ 53 <= v.
Proof.
  intros H.
  assert (Heq : JSNum.add (JSNum.of_Z a) (JSNum.of_Z b)
                = JSNum.round (a + b # 1)).
  { unfold JSNum.add, JSNum.of_Z, inject_Z, Qplus.
    cbn [Qnum Qden Pos.mul]. rewrite !Z.mul_1_r. reflexivity. }
  rewrite Heq. apply round_integer_beyond. exact H.
Qed.

Lemma calculate_exact (page limit : option Z) (totalItems : Z) :
  totalItems < 2 ^ 53 ->
  calculate (int_params page limit totalItems)
  = int_result (Exact.calculate (Exact.Params.mk page limit totalItems)).
Proof.
  intros Hti.
  unfold calculate, int_params, int_result, Exact.calculate.
  cbn [PaginationParams.page PaginationParams.limit
       PaginationParams.totalItems
       Exact.Params.page Exact.Params.limit Exact.Params.totalItems
       Exact.Result.currentPage Exact.Result.totalPages
       Exact.Result.pageSize Exact.Result.totalItems
       Exact.Result.hasNextPage Exact.Result.hasPreviousPage
       Exact.Result.nextPage Exact.Result.previousPage
       Exact.Result.offset Exact.Result.items
       Exact.Items.start Exact.Items.end_].
  unfold Exact.Math_max, Exact.Math_min, DEFAULT_PAGE, DEFAULT_LIMIT,
    MAX_LIMIT.
  rewrite !nullish_of_Z, !of_Z_max, !of_Z_min.
  set (P := Z.max (JS.nullish page 1) 1).
  set (L := Z.min (Z.max (JS.nullish limit 10) 1) 100).
  set (T := Z.max totalItems 0).
  assert (HL : 1 <= L <= 100) by (subst L; lia).
  assert (HT : 0 <= T < 2 ^ 53) by (subst T; lia).
  rewrite (Math_ceil_div_exact T L) by lia.
  pose proof (Math_ceil_div_bounds T L ltac:(lia)) as HTP.
  set (TP := Exact.Math_ceil_div T L) in *.
  rewrite !of_Z_max, !of_Z_min.
  set (CP := Z.min P (Z.max TP 1)).
  assert (HTP0 : 0 <= TP <= T) by nia.
  assert (HCP : 1 <= CP <= Z.max TP 1) by (subst CP P; lia).
  assert (HO : 0 <= (CP - 1) * L < 2 ^ 53) by nia.
  assert (HOT : 0 < T -> (CP - 1) * L < T) by nia.
  rewrite (sub_of_Z CP 1) by lia.
  rewrite (mul_of_Z (CP - 1) L) by lia.
  rewrite ltb_of_Z, gtb_of_Z, eqb_of_Z, Z.gtb_ltb.
  assert (Hnext : (if CP <? TP
                   then Some (JSNum.add (JSNum.of_Z CP) (JSNum.of_Z 1))
                   else None)
                  = option_map JSNum.of_Z
                      (if CP <? TP then Some (CP + 1) else None)).
  { destruct (Z.ltb_spec CP TP); [| reflexivity].
    rewrite add_of_Z by lia. reflexivity. }
  assert (Hprev : (if 1 <? CP then Some (JSNum.of_Z (CP - 1)) else None)
                  = option_map JSNum.of_Z
                      (if 1 <? CP then Some (CP - 1) else None))
    by (destruct (1 <? CP); reflexivity).
  assert (Hstart : (if T =? 0
                    then JSNum.of_Z 0
                    else JSNum.add (JSNum.of_Z ((CP - 1) * L)) (JSNum.of_Z 1))
                   = JSNum.of_Z (if T =? 0 then 0 else (CP - 1) * L + 1)).
  { destruct (Z.eqb_spec T 0); [reflexivity |].
    rewrite add_of_Z by lia. reflexivity. }
  assert (Hend : JSNum.Math_min
                   (JSNum.add (JSNum.of_Z ((CP - 1) * L)) (JSNum.of_Z L))
                   (JSNum.of_Z T)
                 = JSNum.of_Z (Z.min ((CP - 1) * L + L) T)).
  { destruct (Z_lt_le_dec ((CP - 1) * L + L) (2 ^ 53)) as [Hsafe | Hbig].
    - rewrite add_of_Z by lia. apply of_Z_min.
    - destruct (add_of_Z_beyond ((CP - 1) * L) L) as (v & Hv & Hvb).
      { assert (2 ^ 54 = 2 * 2 ^ 53) by reflexivity.
        assert (100 < 2 ^ 53) by reflexivity. lia. }
      rewrite Hv, of_Z_min. apply f_equal. lia. }
  rewrite Hnext, Hprev, Hstart, Hend. reflexivity.
Qed.

(** ** [getPageNumbers] computes the exact list *)

Section SelectorExact.

Import JSNum.

(** On safe integers the window computed is the exact one, except that a
    start or an end beyond the safe integers may be rounded: it stays
    beyond them, on the same side. *)
Lemma window_safe (currentPage totalPages maxVisible : Z) :
  - 2 ^ 53 < currentPage < 2 ^ 53 ->
  - 2 ^ 53 < totalPages < 2 ^ 53 ->
  - 2 ^ 53 < maxVisible < 2 ^ 53 ->
  maxVisible < totalPages ->
  exists s e : Z,
    window (of_Z currentPage) (of_Z totalPages) (of_Z maxVisible)
    = (of_Z s, of_Z e)
    /\ 2 <= s
    /\ e <= totalPages - 1
    /\ (s = fst (Exact.window currentPage totalPages maxVisible)
        \/ 2 ^ 53 <= s
           /\ 2 ^ 53 <= fst (Exact.window currentPage totalPages maxVisible))
    /\ (e = snd (Exact.window currentPage totalPages maxVisible)
        \/ e <= - 2 ^ 53
           /\ snd (Exact.window currentPage totalPages maxVisible)
              <= - 2 ^ 53).
Proof.
  intros Hc Ht Hm Hcomp.
  assert (H53 : 2 ^ 53 = 9007199254740992) by reflexivity.
  assert (H54 : 2 ^ 54 = 18014398509481984) by reflexivity.
  pose proof (div2_bounds maxVisible) as Hhalf.
  rewrite window_near_end. unfold window.
  rewrite Math_floor_half_exact by lia.
  set (half := maxVisible / 2) in *.
  destruct (sub_near currentPage half ltac:(lia)) as (a & ka & -> & Ha1 & Ha2).
  assert (Ha : a = currentPage - half
               \/ 2 ^ 53 <= a /\ 2 ^ 53 <= currentPage - half
               \/ a <= - 2 ^ 53 /\ currentPage - half <= - 2 ^ 53) by lia.
  clear Ha1 Ha2 ka.
  destruct (add_near currentPage half ltac:(lia)) as (b & kb & -> & Hb1 & Hb2).
  assert (Hb : b = currentPage + half
               \/ 2 ^ 53 <= b /\ 2 ^ 53 <= currentPage + half
               \/ b <= - 2 ^ 53 /\ currentPage + half <= - 2 ^ 53) by lia.
  clear Hb1 Hb2 kb.
  rewrite (sub_of_Z totalPages 1) by lia.
  destruct (sub_near totalPages maxVisible ltac:(lia))
    as (d & kd & -> & Hd1 & Hd2).
  destruct (add_near d 1 ltac:(lia)) as (d' & kd' & -> & Hd'1 & Hd'2).
  assert (Hd : d' = totalPages - maxVisible + 1
               \/ 2 ^ 53 <= d' /\ 2 ^ 53 <= totalPages - maxVisible + 1)
    by lia.
  clear Hd1 Hd2 Hd'1 Hd'2 kd kd' d.
  rewrite !of_Z_max, !of_Z_min, of_Z_leb.
  destruct (Z.leb_spec (Z.max a 2) 2) as [Hs | Hs];
    rewrite geb_of_Z;
    match goal with
    | |- context [?x <=? ?y] => destruct (Z.leb_spec x y)
    end;
    fold half; window_cases;
    (eexists; eexists; split; [reflexivity | lia]).
Qed.

(** The loop pushes the integers of [[i, end_]], one test of the
    condition for each and one to leave. *)
Lemma push_window_exact (fuel : nat) :
  forall (i end_ : Z) (pages : list Exact.entry),
    - 2 ^ 53 < i -> end_ < 2 ^ 53 - 1 ->
    (Z.to_nat (end_ + 1 - i) + 1 <= fuel)%nat ->
    push_window fuel (of_Z i) (of_Z end_) (map int_entry pages)
    = JS.Returns
        (map int_entry (pages ++ map Exact.Num (Spec.interval i end_))).
Proof.
  induction fuel as [| fuel IH]; intros i end_ pages Hi He Hfuel; [lia |].
  cbn [push_window]. rewrite of_Z_leb.
  destruct (Z.leb_spec i end_) as [Hle | Hgt].
  - rewrite add_of_Z by lia.
    change (JS.push (map int_entry pages) (Num (of_Z i)))
      with (map int_entry pages ++ map int_entry [Exact.Num i]).
    rewrite <- map_app, IH by lia.
    rewrite (interval_cons i end_ Hle). cbn [map].
    rewrite <- app_assoc. reflexivity.
  - rewrite interval_nil by lia. cbn [map]. rewrite app_nil_r.
    reflexivity.
Qed.

Lemma ToLength_of_Z (z : Z) :
  z < 2 ^ 53 -> ToLength (of_Z z) = Z.max z 0.
Proof.
  intros Hz. unfold ToLength, of_Z, inject_Z. cbn [Qnum Qden].
  rewrite Z.quot_1_r. lia.
Qed.

Lemma Array_from_length_exact (n : Z) :
  n < 2 ^ 32 ->
  Array_from_length (of_Z n) (fun i => Num (add i (of_Z 1)))
  = JS.Returns
      (map int_entry
           (Exact.Array_from_length n (fun i => Exact.Num (i + 1)))).
Proof.
  intros Hn.
  assert (H32 : 2 ^ 32 < 2 ^ 53) by reflexivity.
  unfold Array_from_length, Exact.Array_from_length.
  rewrite ToLength_of_Z by lia.
  destruct (Z.leb_spec (2 ^ 32) (Z.max n 0)); [lia |].
  f_equal. rewrite map_map. replace (Z.to_nat (Z.max n 0)) with (Z.to_nat n)
    by lia.
  apply map_ext_in. intros k Hk. apply in_seq in Hk.
  cbn [int_entry]. rewrite add_of_Z by lia. reflexivity.
Qed.

(** The window of a compressed list has at most [maxVisible + 1]
    pages, and none for a negative [maxVisible]. *)
Lemma window_length (currentPage totalPages maxVisible : Z) :
  maxVisible < totalPages ->
  snd (Exact.window currentPage totalPages maxVisible) + 1
  - fst (Exact.window currentPage totalPages maxVisible)
  <= Z.max maxVisible 0 + 1.
Proof.
  intros Hgt. rewrite window_near_end.
  pose proof (div2_bounds maxVisible) as Hhalf.
  window_cases; lia.
Qed.

Lemma getPageNumbers_exact
    (fuel : nat) (currentPage totalPages : Z) (maxVisible : option Z) :
  page_args currentPage totalPages (JS.default_arg maxVisible 5) ->
  enough_fuel fuel (JS.default_arg maxVisible 5) ->
  getPageNumbers fuel (of_Z currentPage) (of_Z totalPages)
                 (option_map of_Z maxVisible)
  = JS.Returns
      (map int_entry
           (Exact.getPageNumbers currentPage totalPages maxVisible)).
Proof.
  intros (Hc & Ht & Hm & Hlen) Hfuel.
  assert (H53 : 2 ^ 53 = 9007199254740992) by reflexivity.
  unfold getPageNumbers, Exact.getPageNumbers.
  assert (Hdef : JS.default_arg (option_map of_Z maxVisible) (of_Z 5)
                 = of_Z (JS.default_arg maxVisible 5))
    by (destruct maxVisible; reflexivity).
  rewrite Hdef. set (m := JS.default_arg maxVisible 5) in *.
  rewrite of_Z_leb.
  destruct (Z.leb_spec totalPages m) as [Hfull | Hcomp].
  - apply Array_from_length_exact. apply Hlen. exact Hfull.
  - destruct (window_safe currentPage totalPages m Hc Ht Hm Hcomp)
      as (s & e & -> & Hs2 & Het & Hsz & Hez).
    pose proof (window_length currentPage totalPages m Hcomp) as Hwl.
    destruct (Exact.window currentPage totalPages m) as [sz ez].
    cbn [fst snd] in *.
    rewrite sub_of_Z by lia. rewrite !gtb_of_Z, !ltb_of_Z, !Z.gtb_ltb.
    assert (Hgs : (2 <? s) = (2 <? sz))
      by (destruct (Z.ltb_spec 2 s), (Z.ltb_spec 2 sz); try reflexivity; lia).
    assert (Hge : (e <? totalPages - 1) = (ez <? totalPages - 1))
      by (destruct (Z.ltb_spec e (totalPages - 1)),
            (Z.ltb_spec ez (totalPages - 1)); try reflexivity; lia).
    rewrite Hgs, Hge.
    assert (Hpages :
              (if 2 <? sz
               then JS.push (JS.push [] (Num (of_Z 1))) (Str "...")
               else JS.push [] (Num (of_Z 1)))
              = map int_entry
                  (if 2 <? sz
                   then JS.push (JS.push [] (Exact.Num 1)) (Exact.Str "...")
                   else JS.push [] (Exact.Num 1)))
      by (destruct (2 <? sz); reflexivity).
    rewrite Hpages.
    assert (Hloop :
              forall pages,
                push_window fuel (of_Z s) (of_Z e) (map int_entry pages)
                = JS.Returns
                    (map int_entry
                         (pages ++ map Exact.Num (Spec.interval sz ez)))).
    { intros pages.
      destruct (Z_le_gt_dec s e) as [Hle | Hgt].
      - assert (s = sz) by lia. assert (e = ez) by lia. subst sz ez.
        apply push_window_exact; unfold enough_fuel in Hfuel; lia.
      - destruct fuel as [| fuel']; [unfold enough_fuel in Hfuel; lia |].
        cbn [push_window]. rewrite of_Z_leb.
        destruct (Z.leb_spec s e); [lia |].
        rewrite interval_nil by lia. cbn [map]. rewrite app_nil_r.
        reflexivity. }
    rewrite Hloop.
    f_equal. rewrite push_window_interval by lia.
    unfold JS.push.
    destruct (ez <? totalPages - 1), (1 <? totalPages);
      rewrite ?map_app; reflexivity.
Qed.

End SelectorExact.

(** * [calculate] *)

Section NumberFacts.

Import JSNum.

Lemma leb_refl (x : number) : is_NaN x = false -> leb x x = true.
Proof.
  destruct x as [| [|] | q]; cbn; try congruence.
  intros _. apply Qle_bool_iff. apply Qle_refl.
Qed.

Lemma Math_min_upper (x y : number) :
  is_NaN x = false -> is_NaN y = false -> leb (Math_min x y) y = true.
Proof.
  intros Hx Hy. unfold Math_min. rewrite Hx, Hy. cbn [orb].
  destruct (leb x y) eqn:Hle; [exact Hle | apply leb_refl; exact Hy].
Qed.

Lemma Math_min_not_NaN (x y : number) :
  is_NaN x = false -> is_NaN y = false -> is_NaN (Math_min x y) = false.
Proof.
  intros Hx Hy. unfold Math_min. rewrite Hx, Hy. cbn [orb].
  destruct (leb x y); assumption.
Qed.

Lemma Math_max_upper_l (x y : number) :
  is_NaN x = false -> is_NaN y = false -> leb x (Math_max x y) = true.
Proof.
  intros Hx Hy. unfold Math_max. rewrite Hx, Hy. cbn [orb].
  destruct (leb x y) eqn:Hle; [exact Hle | apply leb_refl; exact Hx].
Qed.

Lemma Math_max_upper_r (x y : number) :
  is_NaN x = false -> is_NaN y = false -> leb y (Math_max x y) = true.
Proof.
  intros Hx Hy. unfold Math_max. rewrite Hx, Hy. cbn [orb].
  destruct (leb x y) eqn:Hle.
  - apply leb_refl; exact Hy.
  - apply leb_total; assumption.
Qed.

Lemma Math_ceil_not_NaN (x : number) :
  is_NaN x = false -> is_NaN (Math_ceil x) = false.
Proof. destruct x; cbn; congruence. Qed.

Lemma Math_floor_not_NaN (x : number) :
  is_NaN x = false -> is_NaN (Math_floor x) = false.
Proof. destruct x; cbn; congruence. Qed.

Lemma div_of_Z_not_NaN (a b : Z) :
  b <> 0 -> is_NaN (div (of_Z a) (of_Z b)) = false.
Proof.
  intros Hb. unfold div, of_Z.
  assert (Hnz : Qeq_bool (inject_Z b) 0 = false).
  { unfold Qeq_bool, inject_Z. cbn [Qnum Qden]. rewrite !Z.mul_1_r.
    destruct (Z.eqb_spec b 0); [contradiction | reflexivity]. }
  rewrite Hnz. apply round_not_NaN.
Qed.

Lemma of_Z_not_NaN (z : Z) : is_NaN (of_Z z) = false.
Proof. reflexivity. Qed.

(** Adding a finite number to a number that is not NaN does not give
    NaN. *)
Lemma add_finite_not_NaN (x : number) (q : Q) :
  is_NaN x = false ->
  is_NaN (add x (Finite q)) = false /\ is_NaN (add (Finite q) x) = false.
Proof.
  destruct x as [| b | p]; cbn [is_NaN add]; try congruence; intros _;
    split; try reflexivity; apply round_not_NaN.
Qed.

Lemma sub_finite_not_NaN (x : number) (q : Q) :
  is_NaN x = false ->
  is_NaN (sub x (Finite q)) = false /\ is_NaN (sub (Finite q) x) = false.
Proof.
  intros Hx. unfold sub. split.
  - apply (add_finite_not_NaN x (- q) Hx).
  - apply (add_finite_not_NaN (opp x) q). destruct x; cbn in *; congruence.
Qed.

End NumberFacts.

(** The fields of a result for integer arguments: the clamped page
    size and item count, a number of pages that is not NaN, and the
    current page. *)
Lemma calculate_fields (page limit : option Z) (totalItems : Z) :
  let r := calculate (int_params page limit totalItems) in
  let requested := JSNum.of_Z (Z.max (JS.nullish page 1) 1) in
  PaginationResult.pageSize r
  = JSNum.of_Z (Z.min (Z.max (JS.nullish limit 10) 1) 100)
  /\ PaginationResult.totalItems r = JSNum.of_Z (Z.max totalItems 0)
  /\ PaginationResult.totalPages r
     = JSNum.Math_ceil
         (JSNum.div (PaginationResult.totalItems r)
                    (PaginationResult.pageSize r))
  /\ JSNum.is_NaN (PaginationResult.totalPages r) = false
  /\ PaginationResult.currentPage r
     = JSNum.Math_min
         requested
         (JSNum.Math_max (PaginationResult.totalPages r) (JSNum.of_Z 1)).
Proof.
  intros r requested.
  assert (HL : PaginationResult.pageSize r
               = JSNum.of_Z (Z.min (Z.max (JS.nullish limit 10) 1) 100)).
  { subst r. unfold calculate, int_params.
    cbn [PaginationResult.pageSize PaginationParams.limit].
    unfold DEFAULT_LIMIT, MAX_LIMIT.
    rewrite nullish_of_Z, of_Z_max, of_Z_min. reflexivity. }
  assert (HT : PaginationResult.totalItems r
               = JSNum.of_Z (Z.max totalItems 0)).
  { subst r. unfold calculate, int_params.
    cbn [PaginationResult.totalItems PaginationParams.totalItems].
    apply of_Z_max. }
  assert (HTP : PaginationResult.totalPages r
                = JSNum.Math_ceil
                    (JSNum.div (PaginationResult.totalItems r)
                               (PaginationResult.pageSize r)))
    by reflexivity.
  split; [exact HL |]. split; [exact HT |]. split; [exact HTP |].
  split.
  - rewrite HTP, HL, HT. apply Math_ceil_not_NaN, div_of_Z_not_NaN. lia.
  - subst r requested. unfold calculate at 1, int_params.
    cbn [PaginationResult.currentPage PaginationParams.page].
    unfold DEFAULT_PAGE. rewrite nullish_of_Z, of_Z_max. reflexivity.
Qed.

(** C2: for every integer input the current page lies in
    [[1, max (totalPages, 1)]]; it is the requested page (default 1,
    raised to 1) when that does not exceed [max (totalPages, 1)], and
    [max (totalPages, 1)] otherwise.  [calculate] is a total function:
    there is no input on which it fails. *)
Theorem calculate_currentPage_range
    (page limit : option Z) (totalItems : Z) :
  let r := calculate (int_params page limit totalItems) in
  let requested := JSNum.of_Z (Z.max (JS.nullish page 1) 1) in
  let last :=
    JSNum.Math_max (PaginationResult.totalPages r) (JSNum.of_Z 1) in
  JSNum.leb (JSNum.of_Z 1) (PaginationResult.currentPage r) = true
  /\ JSNum.leb (PaginationResult.currentPage r) last = true
  /\ PaginationResult.currentPage r
     = (if JSNum.ltb last requested then last else requested).
Proof.
  intros r requested last.
  pose proof (calculate_fields page limit totalItems)
    as (_ & _ & _ & Hnan & Hcp).
  fold r in Hnan, Hcp. fold requested last in Hcp.
  assert (Hlast : JSNum.is_NaN last = false)
    by (apply Math_max_not_NaN; [exact Hnan | reflexivity]).
  assert (Hlast1 : JSNum.leb (JSNum.of_Z 1) last = true)
    by (apply Math_max_upper_r; [exact Hnan | reflexivity]).
  assert (Hreq1 : JSNum.leb (JSNum.of_Z 1) requested = true).
  { subst requested. rewrite of_Z_leb. apply Z.leb_le. lia. }
  rewrite Hcp. unfold JSNum.Math_min, JSNum.ltb.
  rewrite Hlast. cbn [JSNum.is_NaN requested JSNum.of_Z orb].
  fold (JSNum.of_Z (Z.max (JS.nullish page 1) 1)). fold requested.
  destruct (JSNum.leb requested last) eqn:Hle; cbn [negb].
  - split; [exact Hreq1 |]. split; [exact Hle | reflexivity].
  - split; [exact Hlast1 |].
    split; [apply leb_refl; exact Hlast | reflexivity].
Qed.

(** C6: in every result, [hasNextPage] is [currentPage < totalPages],
    [hasPreviousPage] is [currentPage > 1], and [nextPage]
    ([previousPage]) is [null] exactly when the flag is false. *)
Theorem calculate_has_flags (params : PaginationParams.t) :
  let r := calculate params in
  PaginationResult.hasNextPage r
  = JSNum.ltb (PaginationResult.currentPage r)
              (PaginationResult.totalPages r)
  /\ PaginationResult.hasPreviousPage r
     = JSNum.gtb (PaginationResult.currentPage r) (JSNum.of_Z 1)
  /\ (forall cp tp : Z,
        PaginationResult.currentPage r = JSNum.of_Z cp ->
        PaginationResult.totalPages r = JSNum.of_Z tp ->
        (PaginationResult.hasNextPage r = true <-> cp < tp))
  /\ (forall cp : Z,
        PaginationResult.currentPage r = JSNum.of_Z cp ->
        (PaginationResult.hasPreviousPage r = true <-> cp > 1))
  /\ (PaginationResult.nextPage r = None
      <-> PaginationResult.hasNextPage r = false)
  /\ (PaginationResult.previousPage r = None
      <-> PaginationResult.hasPreviousPage r = false).
Proof.
  intros r.
  assert (Hn : PaginationResult.nextPage r
               = if PaginationResult.hasNextPage r
                 then Some (JSNum.add (PaginationResult.currentPage r)
                                      (JSNum.of_Z 1))
                 else None) by reflexivity.
  assert (Hp : PaginationResult.previousPage r
               = if PaginationResult.hasPreviousPage r
                 then Some (JSNum.sub (PaginationResult.currentPage r)
                                      (JSNum.of_Z 1))
                 else None) by reflexivity.
  assert (Hnf : PaginationResult.hasNextPage r
                = JSNum.ltb (PaginationResult.currentPage r)
                            (PaginationResult.totalPages r))
    by reflexivity.
  assert (Hpf : PaginationResult.hasPreviousPage r
                = JSNum.gtb (PaginationResult.currentPage r) (JSNum.of_Z 1))
    by reflexivity.
  split; [exact Hnf |]. split; [exact Hpf |].
  split.
  { intros cp tp Hcp Htp. rewrite Hnf, Hcp, Htp, ltb_of_Z.
    apply Z.ltb_lt. }
  split.
  { intros cp Hcp. rewrite Hpf, Hcp, gtb_of_Z, Z.ltb_lt. lia. }
  rewrite Hn, Hp.
  destruct (PaginationResult.hasNextPage r),
    (PaginationResult.hasPreviousPage r);
    repeat split; intros; congruence.
Qed.

(** C1: for integer arguments with [0 <= totalItems < 2^53], the page
    size is the requested limit clamped into [[1, 100]] and [totalPages]
    is the ceiling of [totalItems / pageSize]: the least integer whose
    product with the page size reaches [totalItems]; it is 0 when
    [totalItems] is 0. *)
Theorem calculate_totalPages_ceiling
    (page limit : option Z) (totalItems : Z) :
  0 <= totalItems < 2 ^ 53 ->
  let r := calculate (int_params page limit totalItems) in
  exists pageSize totalPages : Z,
    PaginationResult.pageSize r = JSNum.of_Z pageSize
    /\ PaginationResult.totalPages r = JSNum.of_Z totalPages
    /\ pageSize = Z.min (Z.max (JS.nullish limit 10) 1) 100
    /\ 1 <= pageSize <= 100
    /\ totalPages = Qceiling (inject_Z totalItems / inject_Z pageSize)
    /\ (totalPages - 1) * pageSize < totalItems <= totalPages * pageSize
    /\ (totalItems = 0 -> totalPages = 0).
Proof.
  intros Hti r. subst r. rewrite calculate_exact by lia.
  set (params := Exact.Params.mk page limit totalItems).
  exists (Exact.Result.pageSize (Exact.calculate params)),
    (Exact.Result.totalPages (Exact.calculate params)).
  split; [reflexivity |]. split; [reflexivity |].
  apply (exact_calculate_totalPages_ceiling params). cbn. lia.
Qed.

Lemma calculate_totalPages_ceiling_witness :
  0 <= 95 < 2 ^ 53
  /\ exists pageSize totalPages : Z,
       PaginationResult.pageSize
         (calculate (int_params (Some 3) (Some 10) 95))
       = JSNum.of_Z pageSize
       /\ PaginationResult.totalPages
            (calculate (int_params (Some 3) (Some 10) 95))
          = JSNum.of_Z totalPages
       /\ totalPages = Qceiling (inject_Z 95 / inject_Z pageSize).
Proof.
  assert (H : 0 <= 95 < 2 ^ 53) by (split; [lia | reflexivity]).
  split; [exact H |].
  destruct (calculate_totalPages_ceiling (Some 3) (Some 10) 95 H)
    as (pageSize & totalPages & H1 & H2 & _ & _ & H3 & _).
  exists pageSize, totalPages. repeat split; assumption.
Defined.

(** For 10^17 items and a limit of 3 the quotient is rounded to
    33333333333333332, below the ceiling 33333333333333334 of the exact
    quotient; and below 2^53, for [2^53 - 3] items and the limit 1.5,
    the quotient is rounded down to an integer, one below the
    ceiling. *)
Lemma calculate_totalPages_ceiling_counterexample :
  PaginationResult.pageSize
    (calculate (int_params (Some 1) (Some 3) (10 ^ 17)))
  = JSNum.of_Z 3
  /\ PaginationResult.totalPages
       (calculate (int_params (Some 1) (Some 3) (10 ^ 17)))
     = JSNum.of_Z 33333333333333332
  /\ Qceiling (inject_Z (10 ^ 17) / inject_Z 3) = 33333333333333334
  /\ PaginationResult.totalPages
       (calculate (int_params (Some 1) (Some 3) (10 ^ 17)))
     <> JSNum.of_Z (Qceiling (inject_Z (10 ^ 17) / inject_Z 3))
  /\ PaginationResult.totalPages
       (calculate
          {| PaginationParams.page := None;
             PaginationParams.limit := Some (JSNum.Finite (3 # 2));
             PaginationParams.totalItems := JSNum.of_Z (2 ^ 53 - 3) |})
     = JSNum.of_Z 6004799503160659
  /\ Qceiling (inject_Z (2 ^ 53 - 3) / (3 # 2)) = 6004799503160660.
Proof.
  repeat split; try (vm_compute; reflexivity).
  vm_compute. intros H. discriminate H.
Qed.

(** C8: for integer arguments with [totalItems < 2^53], the offset is
    [(currentPage - 1) * pageSize], where [pageSize] is the requested
    limit clamped into [[1, 100]]. *)
Theorem calculate_offset (page limit : option Z) (totalItems : Z) :
  totalItems < 2 ^ 53 ->
  let r := calculate (int_params page limit totalItems) in
  exists currentPage pageSize : Z,
    PaginationResult.currentPage r = JSNum.of_Z currentPage
    /\ PaginationResult.pageSize r = JSNum.of_Z pageSize
    /\ PaginationResult.offset r
       = JSNum.of_Z ((currentPage - 1) * pageSize)
    /\ pageSize = Z.min (Z.max (JS.nullish limit 10) 1) 100.
Proof.
  intros Hti r. subst r. rewrite calculate_exact by lia.
  set (params := Exact.Params.mk page limit totalItems).
  exists (Exact.Result.currentPage (Exact.calculate params)),
    (Exact.Result.pageSize (Exact.calculate params)).
  split; [reflexivity |]. split; [reflexivity |].
  pose proof (exact_calculate_offset params) as [Ho Hl].
  split; [| exact Hl].
  cbn [PaginationResult.offset int_result]. rewrite Ho. reflexivity.
Qed.

Lemma calculate_offset_witness :
  35 < 2 ^ 53
  /\ exists currentPage pageSize : Z,
       PaginationResult.currentPage
         (calculate (int_params (Some 3) (Some 10) 35))
       = JSNum.of_Z currentPage
       /\ PaginationResult.pageSize
            (calculate (int_params (Some 3) (Some 10) 35))
          = JSNum.of_Z pageSize
       /\ PaginationResult.offset
            (calculate (int_params (Some 3) (Some 10) 35))
          = JSNum.of_Z ((currentPage - 1) * pageSize).
Proof.
  assert (H : 35 < 2 ^ 53) by reflexivity.
  split; [exact H |].
  destruct (calculate_offset (Some 3) (Some 10) 35 H)
    as (currentPage & pageSize & H1 & H2 & H3 & _).
  exists currentPage, pageSize. repeat split; assumption.
Defined.

(** On page 10^17 of 10^17 items by 3, the current page is
    33333333333333332 and the offset 10^17, whereas
    [(currentPage - 1) * pageSize] is 99999999999999993. *)
Lemma calculate_offset_counterexample :
  PaginationResult.currentPage
    (calculate (int_params (Some (10 ^ 17)) (Some 3) (10 ^ 17)))
  = JSNum.of_Z 33333333333333332
  /\ PaginationResult.pageSize
       (calculate (int_params (Some (10 ^ 17)) (Some 3) (10 ^ 17)))
     = JSNum.of_Z 3
  /\ PaginationResult.offset
       (calculate (int_params (Some (10 ^ 17)) (Some 3) (10 ^ 17)))
     = JSNum.of_Z (10 ^ 17)
  /\ (33333333333333332 - 1) * 3 = 99999999999999993
  /\ PaginationResult.offset
       (calculate (int_params (Some (10 ^ 17)) (Some 3) (10 ^ 17)))
     <> JSNum.of_Z ((33333333333333332 - 1) * 3).
Proof.
  repeat split; try (vm_compute; reflexivity).
  vm_compute. intros H. discriminate H.
Qed.

(** C5: for integer arguments with [totalItems < 2^53], [items.end] is
    [min (offset + pageSize, totalItems)]; [items.start] is 0 exactly
    when [totalItems] (the input raised to 0) is 0, and [offset + 1]
    otherwise; the range is [{0, 0}] when [totalItems] is 0. *)
Theorem calculate_items_range (page limit : option Z) (totalItems : Z) :
  totalItems < 2 ^ 53 ->
  let r := calculate (int_params page limit totalItems) in
  let items := PaginationResult.items r in
  exists offset pageSize total : Z,
    PaginationResult.offset r = JSNum.of_Z offset
    /\ PaginationResult.pageSize r = JSNum.of_Z pageSize
    /\ PaginationResult.totalItems r = JSNum.of_Z total
    /\ total = Z.max totalItems 0
    /\ Items.end_ items = JSNum.of_Z (Z.min (offset + pageSize) total)
    /\ (Items.start items = JSNum.of_Z 0 <-> total = 0)
    /\ (total <> 0 -> Items.start items = JSNum.of_Z (offset + 1))
    /\ (total = 0 ->
        items = {| Items.start := JSNum.of_Z 0;
                   Items.end_ := JSNum.of_Z 0 |}).
Proof.
  intros Hti r items. subst items r. rewrite calculate_exact by lia.
  set (params := Exact.Params.mk page limit totalItems).
  exists (Exact.Result.offset (Exact.calculate params)),
    (Exact.Result.pageSize (Exact.calculate params)),
    (Exact.Result.totalItems (Exact.calculate params)).
  split; [reflexivity |]. split; [reflexivity |]. split; [reflexivity |].
  pose proof (exact_calculate_items_range params)
    as (Ht & He & Hs0 & Hs & Hz).
  cbn [PaginationResult.items int_result Items.start Items.end_].
  split; [exact Ht |].
  split; [rewrite He; reflexivity |].
  split.
  { rewrite <- Hs0. split; [apply of_Z_inj | intros ->; reflexivity]. }
  split.
  { intros Hne. rewrite (Hs Hne). reflexivity. }
  intros H0. rewrite (Hz H0). reflexivity.
Qed.

Lemma calculate_items_range_witness :
  35 < 2 ^ 53
  /\ exists offset pageSize total : Z,
       PaginationResult.offset
         (calculate (int_params (Some 4) (Some 10) 35))
       = JSNum.of_Z offset
       /\ PaginationResult.pageSize
            (calculate (int_params (Some 4) (Some 10) 35))
          = JSNum.of_Z pageSize
       /\ PaginationResult.totalItems
            (calculate (int_params (Some 4) (Some 10) 35))
          = JSNum.of_Z total
       /\ Items.end_
            (PaginationResult.items
               (calculate (int_params (Some 4) (Some 10) 35)))
          = JSNum.of_Z (Z.min (offset + pageSize) total).
Proof.
  assert (H : 35 < 2 ^ 53) by reflexivity.
  split; [exact H |].
  destruct (calculate_items_range (Some 4) (Some 10) 35 H)
    as (offset & pageSize & total & H1 & H2 & H3 & _ & H4 & _).
  exists offset, pageSize, total. repeat split; assumption.
Defined.

(** On page 10^17 of 10^17 items by 3 the offset is 10^17 and, the
    items not being 0, [items.start] is 10^17 too, not [offset + 1]; on
    page 10^18 of [100 * 2^53 + 256] items by 100 the offset is
    [100 * 2^53] and [items.end] is [100 * 2^53 + 128], whereas
    [min (offset + pageSize, totalItems)] is [100 * 2^53 + 100]. *)
Lemma calculate_items_range_counterexample :
  PaginationResult.totalItems
    (calculate (int_params (Some (10 ^ 17)) (Some 3) (10 ^ 17)))
  = JSNum.of_Z (10 ^ 17)
  /\ PaginationResult.offset
       (calculate (int_params (Some (10 ^ 17)) (Some 3) (10 ^ 17)))
     = JSNum.of_Z (10 ^ 17)
  /\ Items.start
       (PaginationResult.items
          (calculate (int_params (Some (10 ^ 17)) (Some 3) (10 ^ 17))))
     = JSNum.of_Z (10 ^ 17)
  /\ Items.start
       (PaginationResult.items
          (calculate (int_params (Some (10 ^ 17)) (Some 3) (10 ^ 17))))
     <> JSNum.of_Z (10 ^ 17 + 1)
  /\ PaginationResult.offset
       (calculate
          (int_params (Some (10 ^ 18)) (Some 100) (100 * 2 ^ 53 + 256)))
     = JSNum.of_Z (100 * 2 ^ 53)
  /\ Z.min (100 * 2 ^ 53 + 100) (100 * 2 ^ 53 + 256) = 100 * 2 ^ 53 + 100
  /\ Items.end_
       (PaginationResult.items
          (calculate
             (int_params (Some (10 ^ 18)) (Some 100) (100 * 2 ^ 53 + 256))))
     = JSNum.of_Z (100 * 2 ^ 53 + 128)
  /\ Items.end_
       (PaginationResult.items
          (calculate
             (int_params (Some (10 ^ 18)) (Some 100) (100 * 2 ^ 53 + 256))))
     <> JSNum.of_Z (Z.min (100 * 2 ^ 53 + 100) (100 * 2 ^ 53 + 256)).
Proof.
  repeat split; try (vm_compute; reflexivity);
    vm_compute; intros H; discriminate H.
Qed.

(** C9: for integer arguments with [totalItems < 2^53], [nextPage] is
    [currentPage + 1] when [hasNextPage] is true and [previousPage] is
    [currentPage - 1] when [hasPreviousPage] is true (and each is [null]
    otherwise). *)
Theorem calculate_adjacent_pages (page limit : option Z) (totalItems : Z) :
  totalItems < 2 ^ 53 ->
  let r := calculate (int_params page limit totalItems) in
  exists currentPage : Z,
    PaginationResult.currentPage r = JSNum.of_Z currentPage
    /\ PaginationResult.nextPage r
       = (if PaginationResult.hasNextPage r
          then Some (JSNum.of_Z (currentPage + 1))
          else None)
    /\ PaginationResult.previousPage r
       = (if PaginationResult.hasPreviousPage r
          then Some (JSNum.of_Z (currentPage - 1))
          else None).
Proof.
  intros Hti r. subst r. rewrite calculate_exact by lia.
  set (params := Exact.Params.mk page limit totalItems).
  exists (Exact.Result.currentPage (Exact.calculate params)).
  split; [reflexivity |].
  pose proof (exact_calculate_adjacent_pages params) as [Hn Hp].
  cbn [PaginationResult.nextPage PaginationResult.previousPage
       PaginationResult.hasNextPage PaginationResult.hasPreviousPage
       int_result].
  rewrite Hn, Hp.
  destruct (Exact.Result.hasNextPage (Exact.calculate params)),
    (Exact.Result.hasPreviousPage (Exact.calculate params));
    split; reflexivity.
Qed.

Lemma calculate_adjacent_pages_witness :
  35 < 2 ^ 53
  /\ exists currentPage : Z,
       PaginationResult.currentPage
         (calculate (int_params (Some 2) (Some 10) 35))
       = JSNum.of_Z currentPage
       /\ PaginationResult.nextPage
            (calculate (int_params (Some 2) (Some 10) 35))
          = Some (JSNum.of_Z (currentPage + 1)).
Proof.
  assert (H : 35 < 2 ^ 53) by reflexivity.
  split; [exact H |].
  destruct (calculate_adjacent_pages (Some 2) (Some 10) 35 H)
    as (currentPage & H1 & H2 & _).
  exists currentPage. split; [exact H1 | exact H2].
Defined.

(** On page 10^17 of 10^17 items by 3 there is a previous page, and it
    is the current page itself, 33333333333333332; on page [2^53 + 2]
    of 2^54 items by 1 the next page is [currentPage + 2]. *)
Lemma calculate_adjacent_pages_counterexample :
  PaginationResult.hasPreviousPage
    (calculate (int_params (Some (10 ^ 17)) (Some 3) (10 ^ 17)))
  = true
  /\ PaginationResult.currentPage
       (calculate (int_params (Some (10 ^ 17)) (Some 3) (10 ^ 17)))
     = JSNum.of_Z 33333333333333332
  /\ PaginationResult.previousPage
       (calculate (int_params (Some (10 ^ 17)) (Some 3) (10 ^ 17)))
     = Some (JSNum.of_Z 33333333333333332)
  /\ PaginationResult.hasNextPage
       (calculate (int_params (Some (2 ^ 53 + 2)) (Some 1) (2 ^ 54)))
     = true
  /\ PaginationResult.currentPage
       (calculate (int_params (Some (2 ^ 53 + 2)) (Some 1) (2 ^ 54)))
     = JSNum.of_Z (2 ^ 53 + 2)
  /\ PaginationResult.nextPage
       (calculate (int_params (Some (2 ^ 53 + 2)) (Some 1) (2 ^ 54)))
     = Some (JSNum.of_Z (2 ^ 53 + 4))
  /\ PaginationResult.previousPage
       (calculate (int_params (Some (10 ^ 17)) (Some 3) (10 ^ 17)))
     <> Some (JSNum.of_Z (33333333333333332 - 1))
  /\ PaginationResult.nextPage
       (calculate (int_params (Some (2 ^ 53 + 2)) (Some 1) (2 ^ 54)))
     <> Some (JSNum.of_Z (2 ^ 53 + 2 + 1)).
Proof.
  repeat split; try (vm_compute; reflexivity);
    vm_compute; intros H; discriminate H.
Qed.

(** ** [calculate]: further properties *)

(** X1: for integer arguments with [totalItems < 2^53], whatever the
    page and the limit (a limit of 0, a negative count, a page far past
    the end), the fields of the result are integers: the page size is
    in [[1, 100]], the counts are not negative, there are no more pages
    than items, and the offset is a position inside the items: between
    0 and [totalItems]. *)
Theorem calculate_result_bounds (page limit : option Z) (totalItems : Z) :
  totalItems < 2 ^ 53 ->
  let r := calculate (int_params page limit totalItems) in
  exists zr : Exact.Result.t,
    r = int_result zr
    /\ 1 <= Exact.Result.pageSize zr <= 100
    /\ 0 <= Exact.Result.totalItems zr
    /\ 0 <= Exact.Result.totalPages zr <= Exact.Result.totalItems zr
    /\ 0 <= Exact.Result.offset zr <= Exact.Result.totalItems zr.
Proof.
  intros Hti r.
  exists (Exact.calculate (Exact.Params.mk page limit totalItems)).
  split; [apply calculate_exact; exact Hti |].
  apply (exact_calculate_result_bounds
           (Exact.Params.mk page limit totalItems)).
Qed.

Lemma calculate_result_bounds_witness :
  -4 < 2 ^ 53
  /\ exists zr : Exact.Result.t,
       calculate (int_params (Some 1000) (Some 0) (-4)) = int_result zr
       /\ 1 <= Exact.Result.pageSize zr <= 100.
Proof.
  assert (H : -4 < 2 ^ 53) by reflexivity.
  split; [exact H |].
  destruct (calculate_result_bounds (Some 1000) (Some 0) (-4) H)
    as (zr & H1 & H2 & _).
  exists zr. split; [exact H1 | exact H2].
Defined.

(** X2: for integer arguments with [0 < totalItems < 2^53], the current
    page is an existing page and shows at least one item and at most
    [pageSize] items: [1 <= items.start <= items.end <= totalItems] and
    [items.end - items.start + 1 <= pageSize]. *)
Theorem calculate_page_nonempty (page limit : option Z) (totalItems : Z) :
  0 < totalItems < 2 ^ 53 ->
  let r := calculate (int_params page limit totalItems) in
  exists zr : Exact.Result.t,
    r = int_result zr
    /\ 1 <= Exact.Result.currentPage zr <= Exact.Result.totalPages zr
    /\ Exact.Result.offset zr < Exact.Result.totalItems zr
    /\ 1 <= Exact.Items.start (Exact.Result.items zr)
         <= Exact.Items.end_ (Exact.Result.items zr)
    /\ Exact.Items.end_ (Exact.Result.items zr) <= Exact.Result.totalItems zr
    /\ Exact.Items.end_ (Exact.Result.items zr)
       - Exact.Items.start (Exact.Result.items zr) + 1
       <= Exact.Result.pageSize zr.
Proof.
  intros Hti r.
  exists (Exact.calculate (Exact.Params.mk page limit totalItems)).
  split; [apply calculate_exact; lia |].
  apply (exact_calculate_page_nonempty
           (Exact.Params.mk page limit totalItems)).
  cbn. lia.
Qed.

Lemma calculate_page_nonempty_witness :
  0 < 35 < 2 ^ 53
  /\ exists zr : Exact.Result.t,
       calculate (int_params (Some 9) (Some 10) 35) = int_result zr
       /\ 1 <= Exact.Result.currentPage zr <= Exact.Result.totalPages zr.
Proof.
  assert (H : 0 < 35 < 2 ^ 53) by (split; reflexivity).
  split; [exact H |].
  destruct (calculate_page_nonempty (Some 9) (Some 10) 35 H)
    as (zr & H1 & H2 & _).
  exists zr. split; [exact H1 | exact H2].
Defined.

(** X3: for integer arguments with [totalItems < 2^53], a page that has
    a next page is full: it shows exactly [pageSize] items, ending at
    [offset + pageSize]. *)
Theorem calculate_inner_page_full
    (page limit : option Z) (totalItems : Z) :
  totalItems < 2 ^ 53 ->
  PaginationResult.hasNextPage
    (calculate (int_params page limit totalItems)) = true ->
  let r := calculate (int_params page limit totalItems) in
  exists zr : Exact.Result.t,
    r = int_result zr
    /\ Exact.Items.start (Exact.Result.items zr) = Exact.Result.offset zr + 1
    /\ Exact.Items.end_ (Exact.Result.items zr)
       = Exact.Result.offset zr + Exact.Result.pageSize zr
    /\ Exact.Items.end_ (Exact.Result.items zr)
       - Exact.Items.start (Exact.Result.items zr) + 1
       = Exact.Result.pageSize zr
    /\ Exact.Items.end_ (Exact.Result.items zr) < Exact.Result.totalItems zr.
Proof.
  intros Hti Hnext r. subst r.
  rewrite calculate_exact in * by exact Hti.
  exists (Exact.calculate (Exact.Params.mk page limit totalItems)).
  split; [reflexivity |].
  apply (exact_calculate_inner_page_full
           (Exact.Params.mk page limit totalItems)).
  exact Hnext.
Qed.

Lemma calculate_inner_page_full_witness :
  35 < 2 ^ 53
  /\ PaginationResult.hasNextPage
       (calculate (int_params (Some 2) (Some 10) 35)) = true
  /\ exists zr : Exact.Result.t,
       calculate (int_params (Some 2) (Some 10) 35) = int_result zr
       /\ Exact.Items.end_ (Exact.Result.items zr)
          = Exact.Result.offset zr + Exact.Result.pageSize zr.
Proof.
  assert (H : 35 < 2 ^ 53) by reflexivity.
  assert (Hn : PaginationResult.hasNextPage
                 (calculate (int_params (Some 2) (Some 10) 35)) = true)
    by (vm_compute; reflexivity).
  split; [exact H |]. split; [exact Hn |].
  destruct (calculate_inner_page_full (Some 2) (Some 10) 35 H Hn)
    as (zr & H1 & _ & H2 & _).
  exists zr. split; [exact H1 | exact H2].
Defined.

(** X4: for integer arguments with [totalItems < 2^53], a page without
    a next page ends at the last item: [items.end = totalItems] (0 when
    there is no item), and it is the last page, or page 1 when there is
    no page. *)
Theorem calculate_last_page_end
    (page limit : option Z) (totalItems : Z) :
  totalItems < 2 ^ 53 ->
  PaginationResult.hasNextPage
    (calculate (int_params page limit totalItems)) = false ->
  let r := calculate (int_params page limit totalItems) in
  Items.end_ (PaginationResult.items r) = PaginationResult.totalItems r
  /\ PaginationResult.currentPage r
     = JSNum.Math_max (PaginationResult.totalPages r) (JSNum.of_Z 1).
Proof.
  intros Hti Hnext r. subst r.
  rewrite calculate_exact in * by exact Hti.
  pose proof (exact_calculate_last_page_end
                (Exact.Params.mk page limit totalItems) Hnext) as [He Hc].
  cbn [PaginationResult.items PaginationResult.totalItems
       PaginationResult.currentPage PaginationResult.totalPages
       int_result Items.end_].
  rewrite He, Hc, of_Z_max. split; reflexivity.
Qed.

Lemma calculate_last_page_end_witness :
  35 < 2 ^ 53
  /\ PaginationResult.hasNextPage
       (calculate (int_params (Some 4) (Some 10) 35)) = false
  /\ Items.end_
       (PaginationResult.items
          (calculate (int_params (Some 4) (Some 10) 35)))
     = PaginationResult.totalItems
         (calculate (int_params (Some 4) (Some 10) 35)).
Proof.
  assert (H : 35 < 2 ^ 53) by reflexivity.
  assert (Hn : PaginationResult.hasNextPage
                 (calculate (int_params (Some 4) (Some 10) 35)) = false)
    by (vm_compute; reflexivity).
  split; [exact H |]. split; [exact Hn |].
  exact (proj1 (calculate_last_page_end (Some 4) (Some 10) 35 H Hn)).
Defined.

(** The fields of a result are functions of the current page, the page
    size and the number of items. *)
Lemma calculate_determined (p1 p2 : PaginationParams.t) :
  PaginationResult.pageSize (calculate p1)
  = PaginationResult.pageSize (calculate p2) ->
  PaginationResult.totalItems (calculate p1)
  = PaginationResult.totalItems (calculate p2) ->
  PaginationResult.currentPage (calculate p1)
  = PaginationResult.currentPage (calculate p2) ->
  calculate p1 = calculate p2.
Proof.
  unfold calculate.
  cbn [PaginationResult.pageSize PaginationResult.totalItems
       PaginationResult.currentPage].
  intros HL HT Hcp. rewrite HL, HT in *. rewrite Hcp. reflexivity.
Qed.

Lemma calculate_currentPage_def (params : PaginationParams.t) :
  PaginationResult.currentPage (calculate params)
  = JSNum.Math_min
      (JSNum.Math_max
         (JS.nullish (PaginationParams.page params) (JSNum.of_Z 1))
         (JSNum.of_Z 1))
      (JSNum.Math_max
         (JSNum.Math_ceil
            (JSNum.div (PaginationResult.totalItems (calculate params))
                       (PaginationResult.pageSize (calculate params))))
         (JSNum.of_Z 1)).
Proof. reflexivity. Qed.

Lemma calculate_pageSize_def (params : PaginationParams.t) :
  PaginationResult.pageSize (calculate params)
  = JSNum.Math_min
      (JSNum.Math_max
         (JS.nullish (PaginationParams.limit params) (JSNum.of_Z 10))
         (JSNum.of_Z 1))
      (JSNum.of_Z 100).
Proof. reflexivity. Qed.

Lemma calculate_totalItems_def (params : PaginationParams.t) :
  PaginationResult.totalItems (calculate params)
  = JSNum.Math_max (PaginationParams.totalItems params) (JSNum.of_Z 0).
Proof. reflexivity. Qed.

(** X5: for all integer arguments, a result is a fixed point: asking
    again for its own current page, page size and item count returns the
    same result. *)
Theorem calculate_idempotent (page limit : option Z) (totalItems : Z) :
  let r := calculate (int_params page limit totalItems) in
  calculate
    {| PaginationParams.page := Some (PaginationResult.currentPage r);
       PaginationParams.limit := Some (PaginationResult.pageSize r);
       PaginationParams.totalItems := PaginationResult.totalItems r |}
  = r.
Proof.
  intros r.
  pose proof (calculate_fields page limit totalItems)
    as (HL & HT & HTP & Hnan & Hcp).
  fold r in HL, HT, HTP, Hnan, Hcp.
  set (q := {| PaginationParams.page := Some (PaginationResult.currentPage r);
               PaginationParams.limit := Some (PaginationResult.pageSize r);
               PaginationParams.totalItems := PaginationResult.totalItems r |}).
  assert (HL' : PaginationResult.pageSize (calculate q)
                = PaginationResult.pageSize r).
  { rewrite calculate_pageSize_def. subst q.
    cbn [PaginationParams.limit JS.nullish].
    rewrite HL, of_Z_max, of_Z_min. f_equal. lia. }
  assert (HT' : PaginationResult.totalItems (calculate q)
                = PaginationResult.totalItems r).
  { rewrite calculate_totalItems_def. subst q.
    cbn [PaginationParams.totalItems].
    rewrite HT, of_Z_max. f_equal. lia. }
  apply calculate_determined; [exact HL' | exact HT' |].
  rewrite calculate_currentPage_def, HL', HT', <- HTP. subst q.
  cbn [PaginationParams.page JS.nullish].
  set (last := JSNum.Math_max (PaginationResult.totalPages r) (JSNum.of_Z 1))
    in *.
  assert (Hlast : JSNum.is_NaN last = false)
    by (apply Math_max_not_NaN; [exact Hnan | reflexivity]).
  set (P := Z.max (JS.nullish page 1) 1) in *.
  assert (Hmax : JSNum.Math_max (PaginationResult.currentPage r)
                                (JSNum.of_Z 1)
                 = PaginationResult.currentPage r).
  { rewrite Hcp. unfold JSNum.Math_min at 1 2.
    rewrite Hlast. cbn [JSNum.is_NaN JSNum.of_Z orb].
    fold (JSNum.of_Z P).
    destruct (JSNum.leb (JSNum.of_Z P) last) eqn:Hle.
    - rewrite of_Z_max. f_equal. lia.
    - subst last. unfold JSNum.Math_max at 2 3. rewrite Hnan.
      cbn [JSNum.is_NaN JSNum.of_Z orb]. fold (JSNum.of_Z 1).
      destruct (JSNum.leb (PaginationResult.totalPages r) (JSNum.of_Z 1))
        eqn:Htp.
      + reflexivity.
      + unfold JSNum.Math_max. rewrite Hnan, Htp. reflexivity. }
  rewrite Hmax.
  assert (Hle : JSNum.leb (PaginationResult.currentPage r) last = true).
  { rewrite Hcp. apply Math_min_upper; [reflexivity | exact Hlast]. }
  assert (Hcnan : JSNum.is_NaN (PaginationResult.currentPage r) = false).
  { rewrite Hcp. apply Math_min_not_NaN; [reflexivity | exact Hlast]. }
  unfold JSNum.Math_min at 1. rewrite Hcnan, Hlast, Hle. reflexivity.
Qed.

(** X6: for all integer arguments, [calculate] only sees its clamped
    arguments: the result is the one for the page raised to 1 (1 when
    absent), the limit clamped into [[1, 100]] (10 when absent; a limit
    of 0 is raised to 1, not replaced by the default) and the item count
    raised to 0. *)
Theorem calculate_clamped_inputs (page limit : option Z) (totalItems : Z) :
  calculate (int_params page limit totalItems)
  = calculate
      (int_params
         (Some (Z.max (JS.nullish page 1) 1))
         (Some (Z.min (Z.max (JS.nullish limit 10) 1) 100))
         (Z.max totalItems 0)).
Proof.
  pose proof (calculate_fields page limit totalItems)
    as (HL & HT & HTP & _ & Hcp).
  pose proof (calculate_fields
                (Some (Z.max (JS.nullish page 1) 1))
                (Some (Z.min (Z.max (JS.nullish limit 10) 1) 100))
                (Z.max totalItems 0))
    as (HL' & HT' & HTP' & _ & Hcp').
  cbv zeta in *. cbn [JS.nullish] in HL', Hcp'.
  assert (HLeq : Z.min (Z.max (Z.min (Z.max (JS.nullish limit 10) 1) 100) 1)
                       100
                 = Z.min (Z.max (JS.nullish limit 10) 1) 100) by lia.
  assert (HTeq : Z.max (Z.max totalItems 0) 0 = Z.max totalItems 0) by lia.
  assert (HPeq : Z.max (Z.max (JS.nullish page 1) 1) 1
                 = Z.max (JS.nullish page 1) 1) by lia.
  rewrite HLeq in HL'. rewrite HTeq in HT'. rewrite HPeq in Hcp'.
  apply calculate_determined.
  - rewrite HL, HL'. reflexivity.
  - rewrite HT, HT'. reflexivity.
  - rewrite Hcp, Hcp', HTP, HTP', HL, HL', HT, HT'. reflexivity.
Qed.

(** ** [calculate]: moving between pages *)

(** The second call of [calculate], on fields of a first result. *)
Lemma calculate_again
    (zr : Exact.Result.t) (n : Z) :
  Exact.Result.totalItems zr < 2 ^ 53 ->
  calculate
    {| PaginationParams.page := Some (JSNum.of_Z n);
       PaginationParams.limit :=
         Some (PaginationResult.pageSize (int_result zr));
       PaginationParams.totalItems :=
         PaginationResult.totalItems (int_result zr) |}
  = int_result
      (Exact.calculate
         (Exact.Params.mk (Some n) (Some (Exact.Result.pageSize zr))
                          (Exact.Result.totalItems zr))).
Proof.
  intros Hti.
  apply (calculate_exact (Some n) (Some (Exact.Result.pageSize zr))
                         (Exact.Result.totalItems zr) Hti).
Qed.

(** X7: for integer arguments with [totalItems < 2^53], following
    [nextPage] moves one page forward without a gap or an overlap: the
    page reached is [currentPage + 1], not capped; its offset is one
    page size further, its first item is the one after the last item of
    the page left, and it has the page left as its previous page. *)
Theorem calculate_next_page
    (page limit : option Z) (totalItems : Z) (n : JSNum.number) :
  totalItems < 2 ^ 53 ->
  PaginationResult.nextPage (calculate (int_params page limit totalItems))
  = Some n ->
  let r := calculate (int_params page limit totalItems) in
  let r' :=
    calculate
      {| PaginationParams.page := Some n;
         PaginationParams.limit := Some (PaginationResult.pageSize r);
         PaginationParams.totalItems := PaginationResult.totalItems r |} in
  exists zr zr' : Exact.Result.t,
    r = int_result zr
    /\ r' = int_result zr'
    /\ Exact.Result.currentPage zr' = Exact.Result.currentPage zr + 1
    /\ Exact.Result.totalPages zr' = Exact.Result.totalPages zr
    /\ Exact.Result.offset zr'
       = Exact.Result.offset zr + Exact.Result.pageSize zr
    /\ Exact.Items.start (Exact.Result.items zr')
       = Exact.Items.end_ (Exact.Result.items zr) + 1
    /\ Exact.Result.previousPage zr' = Some (Exact.Result.currentPage zr).
Proof.
  intros Hti Hnext r r'. subst r' r.
  rewrite calculate_exact in * by exact Hti.
  set (params := Exact.Params.mk page limit totalItems) in *.
  cbn [PaginationResult.nextPage int_result] in Hnext.
  destruct (Exact.Result.nextPage (Exact.calculate params)) as [m |] eqn:Hm;
    [| discriminate Hnext].
  injection Hnext as <-.
  pose proof (totalItems_clamped params) as HT.
  cbn [Exact.Params.totalItems params] in HT.
  rewrite calculate_again by lia.
  eexists. eexists. split; [reflexivity |]. split; [reflexivity |].
  apply (exact_calculate_next_page params m Hm).
Qed.

Lemma calculate_next_page_witness :
  35 < 2 ^ 53
  /\ PaginationResult.nextPage
       (calculate (int_params (Some 2) (Some 10) 35))
     = Some (JSNum.of_Z 3)
  /\ exists zr zr' : Exact.Result.t,
       calculate (int_params (Some 2) (Some 10) 35) = int_result zr
       /\ calculate
            {| PaginationParams.page := Some (JSNum.of_Z 3);
               PaginationParams.limit :=
                 Some (PaginationResult.pageSize
                         (calculate (int_params (Some 2) (Some 10) 35)));
               PaginationParams.totalItems :=
                 PaginationResult.totalItems
                   (calculate (int_params (Some 2) (Some 10) 35)) |}
          = int_result zr'
       /\ Exact.Items.start (Exact.Result.items zr')
          = Exact.Items.end_ (Exact.Result.items zr) + 1.
Proof.
  assert (H : 35 < 2 ^ 53) by reflexivity.
  assert (Hn : PaginationResult.nextPage
                 (calculate (int_params (Some 2) (Some 10) 35))
               = Some (JSNum.of_Z 3)) by (vm_compute; reflexivity).
  split; [exact H |]. split; [exact Hn |].
  destruct (calculate_next_page (Some 2) (Some 10) 35 (JSNum.of_Z 3) H Hn)
    as (zr & zr' & H1 & H2 & _ & _ & _ & H3 & _).
  exists zr, zr'. split; [exact H1 |]. split; [exact H2 | exact H3].
Defined.

(** X8: for integer arguments with [totalItems < 2^53], following
    [previousPage] moves one page back: the page reached is
    [currentPage - 1], it is full, its last item is the one before the
    first item of the page left, and it has the page left as its next
    page. *)
Theorem calculate_previous_page
    (page limit : option Z) (totalItems : Z) (n : JSNum.number) :
  totalItems < 2 ^ 53 ->
  PaginationResult.previousPage
    (calculate (int_params page limit totalItems))
  = Some n ->
  let r := calculate (int_params page limit totalItems) in
  let r' :=
    calculate
      {| PaginationParams.page := Some n;
         PaginationParams.limit := Some (PaginationResult.pageSize r);
         PaginationParams.totalItems := PaginationResult.totalItems r |} in
  exists zr zr' : Exact.Result.t,
    r = int_result zr
    /\ r' = int_result zr'
    /\ Exact.Result.currentPage zr' = Exact.Result.currentPage zr - 1
    /\ Exact.Result.offset zr'
       = Exact.Result.offset zr - Exact.Result.pageSize zr
    /\ Exact.Items.end_ (Exact.Result.items zr')
       = Exact.Items.start (Exact.Result.items zr) - 1
    /\ Exact.Result.nextPage zr' = Some (Exact.Result.currentPage zr).
Proof.
  intros Hti Hprev r r'. subst r' r.
  rewrite calculate_exact in * by exact Hti.
  set (params := Exact.Params.mk page limit totalItems) in *.
  cbn [PaginationResult.previousPage int_result] in Hprev.
  destruct (Exact.Result.previousPage (Exact.calculate params))
    as [m |] eqn:Hm; [| discriminate Hprev].
  injection Hprev as <-.
  pose proof (totalItems_clamped params) as HT.
  cbn [Exact.Params.totalItems params] in HT.
  rewrite calculate_again by lia.
  eexists. eexists. split; [reflexivity |]. split; [reflexivity |].
  apply (exact_calculate_previous_page params m Hm).
Qed.

Lemma calculate_previous_page_witness :
  35 < 2 ^ 53
  /\ PaginationResult.previousPage
       (calculate (int_params (Some 4) (Some 10) 35))
     = Some (JSNum.of_Z 3)
  /\ exists zr zr' : Exact.Result.t,
       calculate (int_params (Some 4) (Some 10) 35) = int_result zr
       /\ calculate
            {| PaginationParams.page := Some (JSNum.of_Z 3);
               PaginationParams.limit :=
                 Some (PaginationResult.pageSize
                         (calculate (int_params (Some 4) (Some 10) 35)));
               PaginationParams.totalItems :=
                 PaginationResult.totalItems
                   (calculate (int_params (Some 4) (Some 10) 35)) |}
          = int_result zr'
       /\ Exact.Items.end_ (Exact.Result.items zr')
          = Exact.Items.start (Exact.Result.items zr) - 1.
Proof.
  assert (H : 35 < 2 ^ 53) by reflexivity.
  assert (Hn : PaginationResult.previousPage
                 (calculate (int_params (Some 4) (Some 10) 35))
               = Some (JSNum.of_Z 3)) by (vm_compute; reflexivity).
  split; [exact H |]. split; [exact Hn |].
  destruct (calculate_previous_page (Some 4) (Some 10) 35 (JSNum.of_Z 3) H Hn)
    as (zr & zr' & H1 & H2 & _ & _ & H3 & _).
  exists zr, zr'. split; [exact H1 |]. split; [exact H2 | exact H3].
Defined.

(** X9: for all integer arguments, when all the items fit on one page
    ([totalItems <= pageSize]), every requested page, however large,
    lands on page 1 with no neighbour and offset 0. *)
Theorem calculate_single_page (page limit : option Z) (totalItems : Z) :
  JSNum.leb (JSNum.of_Z totalItems)
            (PaginationResult.pageSize
               (calculate (int_params page limit totalItems))) = true ->
  let r := calculate (int_params page limit totalItems) in
  JSNum.leb (PaginationResult.totalPages r) (JSNum.of_Z 1) = true
  /\ PaginationResult.currentPage r = JSNum.of_Z 1
  /\ PaginationResult.offset r = JSNum.of_Z 0
  /\ PaginationResult.hasNextPage r = false
  /\ PaginationResult.hasPreviousPage r = false
  /\ PaginationResult.nextPage r = None
  /\ PaginationResult.previousPage r = None.
Proof.
  intros Hfit r. subst r.
  pose proof (calculate_fields page limit totalItems) as (HL & _).
  cbv zeta in HL. rewrite HL, of_Z_leb in Hfit. apply Z.leb_le in Hfit.
  assert (H100 : 100 < 2 ^ 53) by reflexivity.
  rewrite calculate_exact by lia.
  set (params := Exact.Params.mk page limit totalItems).
  assert (Hz : Exact.Params.totalItems params
               <= Exact.Result.pageSize (Exact.calculate params)).
  { rewrite pageSize_clamped. exact Hfit. }
  pose proof (exact_calculate_single_page params Hz)
    as (H1 & H2 & H3 & H4 & H5 & H6 & H7).
  cbn [PaginationResult.totalPages PaginationResult.currentPage
       PaginationResult.offset PaginationResult.hasNextPage
       PaginationResult.hasPreviousPage PaginationResult.nextPage
       PaginationResult.previousPage int_result].
  rewrite H2, H3, H4, H5, H6, H7, of_Z_leb.
  repeat split. apply Z.leb_le. exact H1.
Qed.

Lemma calculate_single_page_witness :
  JSNum.leb (JSNum.of_Z 7)
            (PaginationResult.pageSize
               (calculate (int_params (Some 50) None 7))) = true
  /\ PaginationResult.currentPage
       (calculate (int_params (Some 50) None 7)) = JSNum.of_Z 1.
Proof.
  assert (H : JSNum.leb (JSNum.of_Z 7)
                (PaginationResult.pageSize
                   (calculate (int_params (Some 50) None 7))) = true)
    by (vm_compute; reflexivity).
  split; [exact H |].
  destruct (calculate_single_page (Some 50) None 7 H) as (_ & H2 & _).
  exact H2.
Defined.

(** * [generateMetaTags] *)

(** C7: for every base URL and every pagination result, the tags are
    the [prev] tag, present exactly when [hasPreviousPage] is true, then
    the [next] tag, present exactly when [hasNextPage] is true, and
    nothing else; the content of each is the base URL, ["?page="] and
    the page the result holds, as the template literal converts it. *)
Theorem generateMetaTags_prev_next
    (to_string : option JSNum.number -> string)
    (baseUrl : string) (pagination : PaginationResult.t) :
  let prev :=
    {| MetaTag.property := "prev";
       MetaTag.content :=
         baseUrl ++ "?page="
           ++ to_string (PaginationResult.previousPage pagination) |} in
  let next :=
    {| MetaTag.property := "next";
       MetaTag.content :=
         baseUrl ++ "?page="
           ++ to_string (PaginationResult.nextPage pagination) |} in
  generateMetaTags to_string baseUrl pagination
  = (if PaginationResult.hasPreviousPage pagination then [prev] else [])
      ++ (if PaginationResult.hasNextPage pagination then [next] else [])
  /\ (In prev (generateMetaTags to_string baseUrl pagination)
      <-> PaginationResult.hasPreviousPage pagination = true)
  /\ (In next (generateMetaTags to_string baseUrl pagination)
      <-> PaginationResult.hasNextPage pagination = true)
  /\ (to_string (Some (JSNum.of_Z 1)) = "1"%string ->
      to_string (Some (JSNum.of_Z 3)) = "3"%string ->
      generateMetaTags to_string "https://x/y"
        (calculate (int_params (Some 2) (Some 10) 35))
      = [ {| MetaTag.property := "prev";
             MetaTag.content := "https://x/y?page=1" |};
          {| MetaTag.property := "next";
             MetaTag.content := "https://x/y?page=3" |} ]).
Proof.
  intros prev next.
  assert (Heq : generateMetaTags to_string baseUrl pagination
                = (if PaginationResult.hasPreviousPage pagination
                   then [prev] else [])
                    ++ (if PaginationResult.hasNextPage pagination
                        then [next] else [])).
  { unfold generateMetaTags, JS.push.
    destruct (PaginationResult.hasPreviousPage pagination),
      (PaginationResult.hasNextPage pagination); reflexivity. }
  split; [exact Heq |].
  assert (Hne : prev <> next) by (subst prev next; intros H; discriminate H).
  split; [| split].
  - rewrite Heq.
    destruct (PaginationResult.hasPreviousPage pagination),
      (PaginationResult.hasNextPage pagination); simpl;
      split; intros; try tauto; try discriminate;
      try (exfalso; intuition congruence).
  - rewrite Heq.
    destruct (PaginationResult.hasPreviousPage pagination),
      (PaginationResult.hasNextPage pagination); simpl;
      split; intros; try tauto; try discriminate;
      try (exfalso; intuition congruence).
  - intros H1 H3.
    assert (Hr : calculate (int_params (Some 2) (Some 10) 35)
                 = int_result
                     (Exact.calculate (Exact.Params.mk (Some 2) (Some 10) 35)))
      by (apply calculate_exact; reflexivity).
    rewrite Hr. unfold generateMetaTags, JS.push.
    cbn. fold (JSNum.of_Z 1). fold (JSNum.of_Z 3).
    rewrite H1, H3. reflexivity.
Qed.

(** ** The methods together *)

Lemma generateMetaTags_eq
    (to_string : option JSNum.number -> string)
    (baseUrl : string) (pagination : PaginationResult.t) :
  generateMetaTags to_string baseUrl pagination
  = (if PaginationResult.hasPreviousPage pagination
     then [ {| MetaTag.property := "prev";
               MetaTag.content :=
                 baseUrl ++ "?page="
                   ++ to_string
                        (PaginationResult.previousPage pagination) |} ]
     else [])
      ++ (if PaginationResult.hasNextPage pagination
          then [ {| MetaTag.property := "next";
                    MetaTag.content :=
                      baseUrl ++ "?page="
                        ++ to_string
                             (PaginationResult.nextPage pagination) |} ]
          else []).
Proof.
  unfold generateMetaTags, JS.push.
  destruct (PaginationResult.hasPreviousPage pagination),
    (PaginationResult.hasNextPage pagination); reflexivity.
Qed.

(** X16: for integer arguments with [totalItems < 2^53], the tags of a
    calculated result never carry [null]: they are the [prev] tag for
    page [currentPage - 1] when the current page is above 1, then the
    [next] tag for page [currentPage + 1] when the current page is below
    the last; there is no tag at all exactly when there is at most one
    page. *)
Theorem generateMetaTags_of_calculate
    (to_string : option JSNum.number -> string)
    (baseUrl : string) (page limit : option Z) (totalItems : Z) :
  totalItems < 2 ^ 53 ->
  let r := calculate (int_params page limit totalItems) in
  let url (n : Z) :=
    (baseUrl ++ "?page=" ++ to_string (Some (JSNum.of_Z n)))%string in
  exists currentPage totalPages : Z,
    PaginationResult.currentPage r = JSNum.of_Z currentPage
    /\ PaginationResult.totalPages r = JSNum.of_Z totalPages
    /\ generateMetaTags to_string baseUrl r
       = (if 1 <? currentPage
          then [ {| MetaTag.property := "prev";
                    MetaTag.content := url (currentPage - 1) |} ]
          else [])
           ++ (if currentPage <? totalPages
               then [ {| MetaTag.property := "next";
                         MetaTag.content := url (currentPage + 1) |} ]
               else [])
    /\ (generateMetaTags to_string baseUrl r = [] <-> totalPages <= 1).
Proof.
  intros Hti r url. subst r.
  rewrite calculate_exact by exact Hti.
  set (params := Exact.Params.mk page limit totalItems).
  exists (Exact.Result.currentPage (Exact.calculate params)),
    (Exact.Result.totalPages (Exact.calculate params)).
  split; [reflexivity |]. split; [reflexivity |].
  rewrite generateMetaTags_eq.
  cbn [PaginationResult.hasPreviousPage PaginationResult.hasNextPage
       PaginationResult.previousPage PaginationResult.nextPage int_result].
  rewrite nextPage_eq, previousPage_eq.
  change (Exact.Result.hasNextPage (Exact.calculate params))
    with (Exact.Result.currentPage (Exact.calculate params)
          <? Exact.Result.totalPages (Exact.calculate params)).
  change (Exact.Result.hasPreviousPage (Exact.calculate params))
    with (Exact.Result.currentPage (Exact.calculate params) >? 1).
  rewrite Z.gtb_ltb.
  calc_facts params.
  destruct (Z.ltb_spec 1 (Exact.Result.currentPage (Exact.calculate params))),
    (Z.ltb_spec (Exact.Result.currentPage (Exact.calculate params))
                (Exact.Result.totalPages (Exact.calculate params)));
    cbn [app option_map]; (split; [reflexivity |]);
    split; intros Hx; try discriminate Hx; try reflexivity; lia.
Qed.

Lemma generateMetaTags_of_calculate_witness :
  35 < 2 ^ 53
  /\ exists currentPage totalPages : Z,
       PaginationResult.currentPage
         (calculate (int_params (Some 1) (Some 10) 35))
       = JSNum.of_Z currentPage
       /\ PaginationResult.totalPages
            (calculate (int_params (Some 1) (Some 10) 35))
          = JSNum.of_Z totalPages
       /\ (generateMetaTags (fun _ => "n"%string) "https://x/y"
             (calculate (int_params (Some 1) (Some 10) 35)) = []
           <-> totalPages <= 1).
Proof.
  assert (H : 35 < 2 ^ 53) by reflexivity.
  split; [exact H |].
  destruct (generateMetaTags_of_calculate
              (fun _ => "n"%string) "https://x/y" (Some 1) (Some 10) 35 H)
    as (currentPage & totalPages & H1 & H2 & _ & H3).
  exists currentPage, totalPages.
  split; [exact H1 |]. split; [exact H2 | exact H3].
Defined.

(** * [getPageNumbers] *)

Section SelectorEntries.

Lemma In_int_entry_Num (x : JSNum.number) (l : list Exact.entry) :
  In (Num x) (map int_entry l) ->
  exists n, x = JSNum.of_Z n /\ In (Exact.Num n) l.
Proof.
  intros H. apply in_map_iff in H. destruct H as ([n | s] & He & Hin).
  - injection He as <-. exists n. split; [reflexivity | exact Hin].
  - discriminate He.
Qed.

Lemma In_Num_int_entry (n : Z) (l : list Exact.entry) :
  In (Exact.Num n) l -> In (Num (JSNum.of_Z n)) (map int_entry l).
Proof. intros H. apply (in_map int_entry l (Exact.Num n) H). Qed.

Lemma In_int_entry_Str (s : string) (l : list Exact.entry) :
  In (Str s) (map int_entry l) <-> In (Exact.Str s) l.
Proof.
  split.
  - intros H. apply in_map_iff in H. destruct H as ([n | s'] & He & Hin).
    + discriminate He.
    + injection He as <-. exact Hin.
  - intros H. apply (in_map int_entry l (Exact.Str s) H).
Qed.

Lemma hd_error_int_entry (l : list Exact.entry) :
  hd_error (map int_entry l) = option_map int_entry (hd_error l).
Proof. destruct l; reflexivity. Qed.

Lemma last_int_entry (l : list Exact.entry) (d : Exact.entry) :
  last (map int_entry l) (int_entry d) = int_entry (last l d).
Proof.
  induction l as [| e l IH]; [reflexivity |].
  destruct l as [| e' l']; [reflexivity |].
  change (last (int_entry e' :: map int_entry l') (int_entry d)
          = int_entry (last (e' :: l') d)).
  exact IH.
Qed.

Lemma map_int_entry_Num (l : list Z) :
  map int_entry (map Exact.Num l) = map (fun n => Num (JSNum.of_Z n)) l.
Proof. rewrite map_map. reflexivity. Qed.

Lemma entry_numbers_int_entry (l : list Exact.entry) :
  entry_numbers (map int_entry l) = map JSNum.of_Z (numbers l).
Proof.
  induction l as [| [n | s] l IH]; cbn [map entry_numbers numbers int_entry];
    [reflexivity | rewrite IH; reflexivity | exact IH].
Qed.

(** A counter that adding 1 does not change never leaves the loop. *)
Lemma push_window_stuck (fuel : nat) :
  forall (i end_ : JSNum.number) (pages : list entry),
    JSNum.add i (JSNum.of_Z 1) = i ->
    JSNum.leb i end_ = true ->
    push_window fuel i end_ pages = JS.OutOfFuel.
Proof.
  induction fuel as [| fuel IH]; intros i end_ pages Hadd Hle;
    [reflexivity |].
  cbn [push_window]. rewrite Hle, Hadd. apply IH; assumption.
Qed.

(** From 2^53 - 2 to 2^53 + 2 the counter reaches 2^53 and stays
    there. *)
Lemma push_window_beyond (fuel : nat) (pages : list entry) :
  push_window fuel (JSNum.of_Z (2 ^ 53 - 2)) (JSNum.of_Z (2 ^ 53 + 2)) pages
  = JS.OutOfFuel.
Proof.
  destruct fuel as [| fuel]; [reflexivity |].
  cbn [push_window].
  assert (H1 : JSNum.leb (JSNum.of_Z (2 ^ 53 - 2)) (JSNum.of_Z (2 ^ 53 + 2))
               = true) by reflexivity.
  assert (H2 : JSNum.add (JSNum.of_Z (2 ^ 53 - 2)) (JSNum.of_Z 1)
               = JSNum.of_Z (2 ^ 53 - 1)) by (vm_compute; reflexivity).
  rewrite H1, H2.
  destruct fuel as [| fuel]; [reflexivity |].
  cbn [push_window].
  assert (H3 : JSNum.leb (JSNum.of_Z (2 ^ 53 - 1)) (JSNum.of_Z (2 ^ 53 + 2))
               = true) by reflexivity.
  assert (H4 : JSNum.add (JSNum.of_Z (2 ^ 53 - 1)) (JSNum.of_Z 1)
               = JSNum.of_Z (2 ^ 53)) by (vm_compute; reflexivity).
  rewrite H3, H4.
  apply push_window_stuck; vm_compute; reflexivity.
Qed.

Lemma getPageNumbers_beyond
    (fuel : nat) (maxVisible : option JSNum.number) :
  JS.default_arg maxVisible (JSNum.of_Z 5) = JSNum.of_Z 5 ->
  getPageNumbers fuel (JSNum.of_Z (2 ^ 53)) (JSNum.of_Z (2 ^ 53 + 4))
                 maxVisible
  = JS.OutOfFuel.
Proof.
  intros Hdef. unfold getPageNumbers. rewrite Hdef.
  assert (H1 : JSNum.leb (JSNum.of_Z (2 ^ 53 + 4)) (JSNum.of_Z 5) = false)
    by reflexivity.
  assert (H2 : window (JSNum.of_Z (2 ^ 53)) (JSNum.of_Z (2 ^ 53 + 4))
                      (JSNum.of_Z 5)
               = (JSNum.of_Z (2 ^ 53 - 2), JSNum.of_Z (2 ^ 53 + 2)))
    by (vm_compute; reflexivity).
  rewrite H1, H2. rewrite push_window_beyond. reflexivity.
Qed.

End SelectorEntries.

(** C3: for safe integers (below 2^53 in absolute value), a number of
    pages below 2^32 when the full list is asked for, and a loop allowed
    [max (maxVisible, 0) + 2] tests, the source returns the sequence of
    the algorithm of section 4.2, [maxVisible] being 5 when it is left
    out: the full list [1 .. totalPages] when
    [totalPages <= maxVisible], else page 1, the ellipsis when the
    corrected start exceeds 2, the window, the ellipsis when the
    corrected end is below [totalPages - 1], and [totalPages] when it
    exceeds 1, the correction near the start being applied before the
    one near the end.  At (50, 100, 5) the result is
    [1, "...", 48, 49, 50, 51, 52, "...", 100]. *)
Theorem getPageNumbers_refines_spec
    (fuel : nat) (currentPage totalPages : Z) (maxVisible : option Z) :
  page_args currentPage totalPages (JS.default_arg maxVisible 5) ->
  enough_fuel fuel (JS.default_arg maxVisible 5) ->
  getPageNumbers fuel (JSNum.of_Z currentPage) (JSNum.of_Z totalPages)
                 (option_map JSNum.of_Z maxVisible)
  = JS.Returns
      (map int_entry
           (Spec.pageNumbers currentPage totalPages
                             (JS.default_arg maxVisible 5)))
  /\ (totalPages <= JS.default_arg maxVisible 5 ->
      getPageNumbers fuel (JSNum.of_Z currentPage) (JSNum.of_Z totalPages)
                     (option_map JSNum.of_Z maxVisible)
      = JS.Returns
          (map (fun n => Num (JSNum.of_Z n)) (Spec.interval 1 totalPages)))
  /\ getPageNumbers 7 (JSNum.of_Z 50) (JSNum.of_Z 100) (Some (JSNum.of_Z 5))
     = JS.Returns
         [Num (JSNum.of_Z 1); Str "..."; Num (JSNum.of_Z 48);
          Num (JSNum.of_Z 49); Num (JSNum.of_Z 50); Num (JSNum.of_Z 51);
          Num (JSNum.of_Z 52); Str "..."; Num (JSNum.of_Z 100)]
  /\ getPageNumbers 7 (JSNum.of_Z 1) (JSNum.of_Z 3) (Some (JSNum.of_Z 5))
     = JS.Returns
         [Num (JSNum.of_Z 1); Num (JSNum.of_Z 2); Num (JSNum.of_Z 3)].
Proof.
  intros Hargs Hfuel.
  assert (Heq : getPageNumbers fuel (JSNum.of_Z currentPage)
                  (JSNum.of_Z totalPages) (option_map JSNum.of_Z maxVisible)
                = JS.Returns
                    (map int_entry
                         (Spec.pageNumbers currentPage totalPages
                            (JS.default_arg maxVisible 5)))).
  { rewrite getPageNumbers_exact by assumption.
    rewrite getPageNumbers_default. reflexivity. }
  split; [exact Heq |].
  split.
  { intros Hfull. rewrite Heq, pageNumbers_full by exact Hfull.
    rewrite map_int_entry_Num. reflexivity. }
  split; vm_compute; reflexivity.
Qed.

Lemma getPageNumbers_refines_spec_witness :
  page_args 50 100 5
  /\ enough_fuel 7 5
  /\ getPageNumbers 7 (JSNum.of_Z 50) (JSNum.of_Z 100) (Some (JSNum.of_Z 5))
     = JS.Returns (map int_entry (Spec.pageNumbers 50 100 5)).
Proof.
  assert (Ha : page_args 50 100 5).
  { unfold page_args. repeat split; reflexivity. }
  assert (Hf : enough_fuel 7 5) by (unfold enough_fuel; cbn; lia).
  split; [exact Ha |]. split; [exact Hf |].
  exact (proj1 (getPageNumbers_refines_spec 7 50 100 (Some 5) Ha Hf)).
Defined.

(** With 2^32 pages and [maxVisible = 2^32] the algorithm of section 4.2
    gives the list [1 .. 2^32]; the source asks [Array.from] for an array
    of 2^32 elements, which throws a [RangeError]: no list is returned.
    And on page 2^53 of [2^53 + 4] pages, with the default [maxVisible],
    the loop does not end, where the algorithm gives
    [1, "...", 2^53 - 2 .. 2^53 + 2, "...", 2^53 + 4]. *)
Lemma getPageNumbers_refines_spec_counterexample :
  getPageNumbers 0 (JSNum.of_Z 1) (JSNum.of_Z (2 ^ 32))
                 (Some (JSNum.of_Z (2 ^ 32)))
  = JS.RangeError
  /\ getPageNumbers 7 (JSNum.of_Z 1) (JSNum.of_Z (2 ^ 32))
                    (Some (JSNum.of_Z (2 ^ 32)))
     = JS.RangeError
  /\ Spec.pageNumbers 1 (2 ^ 32) (2 ^ 32)
     = map Exact.Num (Spec.interval 1 (2 ^ 32))
  /\ ~ (exists (fuel : nat) (pages : list entry),
           getPageNumbers fuel (JSNum.of_Z (2 ^ 53))
                          (JSNum.of_Z (2 ^ 53 + 4)) None
           = JS.Returns pages)
  /\ Spec.pageNumbers (2 ^ 53) (2 ^ 53 + 4) 5
     = [Exact.Num 1; Exact.Str "..."; Exact.Num (2 ^ 53 - 2);
        Exact.Num (2 ^ 53 - 1); Exact.Num (2 ^ 53); Exact.Num (2 ^ 53 + 1);
        Exact.Num (2 ^ 53 + 2); Exact.Str "..."; Exact.Num (2 ^ 53 + 4)].
Proof.
  split; [vm_compute; reflexivity |].
  split; [vm_compute; reflexivity |].
  split; [apply pageNumbers_full; lia |].
  split; [| vm_compute; reflexivity].
  intros (fuel & pages & H).
  rewrite getPageNumbers_beyond in H by reflexivity.
  discriminate H.
Qed.

(** C10: for safe integers with [totalPages >= 0] and
    [maxVisible >= 1], a number of pages below 2^32 when the full list
    is asked for, and a loop allowed [maxVisible + 2] tests, the source
    returns a list of integers whose numeric entries increase strictly
    and none of which occurs twice; in the compressed case
    ([totalPages > maxVisible]) the window lies in
    [[2, totalPages - 1]], so the numeric entries are page 1, the window
    and page [totalPages], and no page of the window is 1 or
    [totalPages]. *)
Theorem getPageNumbers_strictly_increasing
    (fuel : nat) (currentPage totalPages maxVisible : Z) :
  0 <= totalPages ->
  1 <= maxVisible ->
  page_args currentPage totalPages maxVisible ->
  enough_fuel fuel maxVisible ->
  exists pages : list Exact.entry,
    getPageNumbers fuel (JSNum.of_Z currentPage) (JSNum.of_Z totalPages)
                   (Some (JSNum.of_Z maxVisible))
    = JS.Returns (map int_entry pages)
    /\ entry_numbers (map int_entry pages) = map JSNum.of_Z (numbers pages)
    /\ StronglySorted Z.lt (numbers pages)
    /\ NoDup (numbers pages)
    /\ (maxVisible < totalPages ->
        exists start end_ : Z,
          2 <= start
          /\ end_ <= totalPages - 1
          /\ numbers pages
             = [1] ++ Spec.interval start end_ ++ [totalPages]
          /\ (forall n, In n (Spec.interval start end_) ->
                        1 < n < totalPages)
          /\ pages
             = [Exact.Num 1]
                 ++ (if 2 <? start then [Exact.Str "..."] else [])
                 ++ map Exact.Num (Spec.interval start end_)
                 ++ (if end_ <? totalPages - 1
                     then [Exact.Str "..."] else [])
                 ++ [Exact.Num totalPages]).
Proof.
  intros Htp Hmv Hargs Hfuel.
  exists (Exact.getPageNumbers currentPage totalPages (Some maxVisible)).
  split; [apply (getPageNumbers_exact fuel currentPage totalPages
                   (Some maxVisible)); assumption |].
  split; [apply entry_numbers_int_entry |].
  pose proof (exact_getPageNumbers_strictly_increasing
                currentPage totalPages maxVisible Htp Hmv)
    as (Hs & Hd & Hc).
  split; [exact Hs |]. split; [exact Hd |].
  intros Hlt.
  exists (fst (Exact.window currentPage totalPages maxVisible)),
    (snd (Exact.window currentPage totalPages maxVisible)).
  exact (Hc Hlt).
Qed.

Lemma getPageNumbers_strictly_increasing_witness :
  0 <= 100
  /\ 1 <= 5
  /\ page_args 50 100 5
  /\ enough_fuel 7 5
  /\ exists pages : list Exact.entry,
       getPageNumbers 7 (JSNum.of_Z 50) (JSNum.of_Z 100)
                      (Some (JSNum.of_Z 5))
       = JS.Returns (map int_entry pages)
       /\ StronglySorted Z.lt (numbers pages).
Proof.
  assert (Ha : page_args 50 100 5).
  { unfold page_args. repeat split; reflexivity. }
  assert (Hf : enough_fuel 7 5) by (unfold enough_fuel; cbn; lia).
  split; [lia |]. split; [lia |]. split; [exact Ha |]. split; [exact Hf |].
  destruct (getPageNumbers_strictly_increasing 7 50 100 5
              ltac:(lia) ltac:(lia) Ha Hf)
    as (pages & H1 & _ & H2 & _).
  exists pages. split; [exact H1 | exact H2].
Defined.

(** On page 2^53 of [2^53 + 4] pages, with [maxVisible = 5], the window
    is [[2^53 - 2, 2^53 + 2]]; the counter of the loop reaches 2^53,
    where [i++] leaves it unchanged, and the call returns no list,
    however many tests the loop is allowed. *)
Lemma getPageNumbers_strictly_increasing_counterexample :
  0 <= 2 ^ 53 + 4
  /\ 1 <= 5
  /\ window (JSNum.of_Z (2 ^ 53)) (JSNum.of_Z (2 ^ 53 + 4)) (JSNum.of_Z 5)
     = (JSNum.of_Z (2 ^ 53 - 2), JSNum.of_Z (2 ^ 53 + 2))
  /\ JSNum.add (JSNum.of_Z (2 ^ 53)) (JSNum.of_Z 1) = JSNum.of_Z (2 ^ 53)
  /\ ~ (exists (fuel : nat) (pages : list entry),
           getPageNumbers fuel (JSNum.of_Z (2 ^ 53))
                          (JSNum.of_Z (2 ^ 53 + 4)) (Some (JSNum.of_Z 5))
           = JS.Returns pages).
Proof.
  split; [vm_compute; discriminate |]. split; [lia |].
  split; [vm_compute; reflexivity |]. split; [vm_compute; reflexivity |].
  intros (fuel & pages & H).
  rewrite getPageNumbers_beyond in H by reflexivity.
  discriminate H.
Qed.

(** ** [getPageNumbers]: further properties *)

(** X10: for safe integers with [maxVisible >= 0], every page number
    listed is a page that exists, [1 <= n <= totalPages]; in particular
    the list is empty when there is no page. *)
Theorem getPageNumbers_valid_pages
    (fuel : nat) (currentPage totalPages maxVisible : Z) :
  0 <= maxVisible ->
  page_args currentPage totalPages maxVisible ->
  enough_fuel fuel maxVisible ->
  exists pages : list entry,
    getPageNumbers fuel (JSNum.of_Z currentPage) (JSNum.of_Z totalPages)
                   (Some (JSNum.of_Z maxVisible))
    = JS.Returns pages
    /\ (forall x, In (Num x) pages ->
                  exists n, x = JSNum.of_Z n /\ 1 <= n <= totalPages)
    /\ (totalPages <= 0 -> pages = []).
Proof.
  intros Hmv Hargs Hfuel.
  pose proof (exact_getPageNumbers_valid_pages
                currentPage totalPages maxVisible Hmv) as [Hin Hnil].
  eexists. split.
  { apply (getPageNumbers_exact fuel currentPage totalPages
             (Some maxVisible)); assumption. }
  split.
  - intros x Hx. apply In_int_entry_Num in Hx. destruct Hx as (n & -> & Hn).
    exists n. split; [reflexivity | apply Hin; exact Hn].
  - intros H0. rewrite (Hnil H0). reflexivity.
Qed.

Lemma getPageNumbers_valid_pages_witness :
  0 <= 5
  /\ page_args 50 100 5
  /\ enough_fuel 7 5
  /\ exists pages : list entry,
       getPageNumbers 7 (JSNum.of_Z 50) (JSNum.of_Z 100)
                      (Some (JSNum.of_Z 5))
       = JS.Returns pages
       /\ (forall x, In (Num x) pages ->
                     exists n, x = JSNum.of_Z n /\ 1 <= n <= 100).
Proof.
  assert (Ha : page_args 50 100 5)
    by (unfold page_args; repeat split; reflexivity).
  assert (Hf : enough_fuel 7 5) by (unfold enough_fuel; cbn; lia).
  split; [lia |]. split; [exact Ha |]. split; [exact Hf |].
  destruct (getPageNumbers_valid_pages 7 50 100 5 ltac:(lia) Ha Hf)
    as (pages & H1 & H2 & _).
  exists pages. split; [exact H1 | exact H2].
Defined.

(** X12: for safe integers with [maxVisible >= 3] (the default 5
    included), the current page, when it is an existing page, is always
    listed. *)
Theorem getPageNumbers_shows_current
    (fuel : nat) (currentPage totalPages : Z) (maxVisible : option Z) :
  3 <= JS.default_arg maxVisible 5 ->
  1 <= currentPage <= totalPages ->
  page_args currentPage totalPages (JS.default_arg maxVisible 5) ->
  enough_fuel fuel (JS.default_arg maxVisible 5) ->
  exists pages : list entry,
    getPageNumbers fuel (JSNum.of_Z currentPage) (JSNum.of_Z totalPages)
                   (option_map JSNum.of_Z maxVisible)
    = JS.Returns pages
    /\ In (Num (JSNum.of_Z currentPage)) pages.
Proof.
  intros Hmv Hcp Hargs Hfuel.
  eexists. split.
  { apply getPageNumbers_exact; assumption. }
  apply In_Num_int_entry.
  apply exact_getPageNumbers_shows_current; assumption.
Qed.

Lemma getPageNumbers_shows_current_witness :
  3 <= JS.default_arg None 5
  /\ 1 <= 50 <= 100
  /\ page_args 50 100 (JS.default_arg None 5)
  /\ enough_fuel 7 (JS.default_arg None 5)
  /\ exists pages : list entry,
       getPageNumbers 7 (JSNum.of_Z 50) (JSNum.of_Z 100) None
       = JS.Returns pages
       /\ In (Num (JSNum.of_Z 50)) pages.
Proof.
  assert (Ha : page_args 50 100 (JS.default_arg None 5))
    by (unfold page_args; repeat split; reflexivity).
  assert (Hf : enough_fuel 7 (JS.default_arg None 5))
    by (unfold enough_fuel; cbn; lia).
  assert (Hm : 3 <= JS.default_arg None 5) by (cbn; lia).
  split; [exact Hm |]. split; [lia |].
  split; [exact Ha |]. split; [exact Hf |].
  exact (getPageNumbers_shows_current 7 50 100 None Hm ltac:(lia) Ha Hf).
Defined.

(** X13: for safe integers with at least one page and
    [maxVisible >= 0], the list starts with page 1 and ends with the
    last page, wherever the current page is. *)
Theorem getPageNumbers_first_last
    (fuel : nat) (currentPage totalPages maxVisible : Z) :
  1 <= totalPages ->
  0 <= maxVisible ->
  page_args currentPage totalPages maxVisible ->
  enough_fuel fuel maxVisible ->
  exists pages : list entry,
    getPageNumbers fuel (JSNum.of_Z currentPage) (JSNum.of_Z totalPages)
                   (Some (JSNum.of_Z maxVisible))
    = JS.Returns pages
    /\ hd_error pages = Some (Num (JSNum.of_Z 1))
    /\ last pages (Str "") = Num (JSNum.of_Z totalPages).
Proof.
  intros Htp Hmv Hargs Hfuel.
  pose proof (exact_getPageNumbers_first_last
                currentPage totalPages maxVisible Htp Hmv) as [Hhd Hlast].
  eexists. split.
  { apply (getPageNumbers_exact fuel currentPage totalPages
             (Some maxVisible)); assumption. }
  split.
  - rewrite hd_error_int_entry, Hhd. reflexivity.
  - change (Str "") with (int_entry (Exact.Str "")).
    rewrite last_int_entry, Hlast. reflexivity.
Qed.

Lemma getPageNumbers_first_last_witness :
  1 <= 100
  /\ 0 <= 5
  /\ page_args 50 100 5
  /\ enough_fuel 7 5
  /\ exists pages : list entry,
       getPageNumbers 7 (JSNum.of_Z 50) (JSNum.of_Z 100)
                      (Some (JSNum.of_Z 5))
       = JS.Returns pages
       /\ hd_error pages = Some (Num (JSNum.of_Z 1))
       /\ last pages (Str "") = Num (JSNum.of_Z 100).
Proof.
  assert (Ha : page_args 50 100 5)
    by (unfold page_args; repeat split; reflexivity).
  assert (Hf : enough_fuel 7 5) by (unfold enough_fuel; cbn; lia).
  split; [lia |]. split; [lia |]. split; [exact Ha |]. split; [exact Hf |].
  exact (getPageNumbers_first_last 7 50 100 5 ltac:(lia) ltac:(lia) Ha Hf).
Defined.

(** X14: [maxVisible] does not bound the length of the list: for safe
    integers with [maxVisible >= 0] the list has at most
    [2 * floor (maxVisible / 2) + 5] entries (page 1, two ellipses, the
    last page and a window of at most [2 * floor (maxVisible / 2) + 1]
    pages), and the bound is reached: 9 entries for
    [maxVisible = 5]. *)
Theorem getPageNumbers_length
    (fuel : nat) (currentPage totalPages maxVisible : Z) :
  0 <= maxVisible ->
  page_args currentPage totalPages maxVisible ->
  enough_fuel fuel maxVisible ->
  (exists pages : list entry,
      getPageNumbers fuel (JSNum.of_Z currentPage) (JSNum.of_Z totalPages)
                     (Some (JSNum.of_Z maxVisible))
      = JS.Returns pages
      /\ Z.of_nat (List.length pages) <= 2 * (maxVisible / 2) + 5)
  /\ (exists pages : list entry,
         getPageNumbers 7 (JSNum.of_Z 50) (JSNum.of_Z 100)
                        (Some (JSNum.of_Z 5))
         = JS.Returns pages
         /\ List.length pages = 9%nat).
Proof.
  intros Hmv Hargs Hfuel.
  pose proof (exact_getPageNumbers_length
                currentPage totalPages maxVisible Hmv) as [Hlen _].
  split.
  - eexists. split.
    { apply (getPageNumbers_exact fuel currentPage totalPages
               (Some maxVisible)); assumption. }
    rewrite length_map. exact Hlen.
  - eexists. split; [vm_compute; reflexivity | reflexivity].
Qed.

Lemma getPageNumbers_length_witness :
  0 <= 5
  /\ page_args 50 100 5
  /\ enough_fuel 7 5
  /\ exists pages : list entry,
       getPageNumbers 7 (JSNum.of_Z 50) (JSNum.of_Z 100)
                      (Some (JSNum.of_Z 5))
       = JS.Returns pages
       /\ Z.of_nat (List.length pages) <= 2 * (5 / 2) + 5.
Proof.
  assert (Ha : page_args 50 100 5)
    by (unfold page_args; repeat split; reflexivity).
  assert (Hf : enough_fuel 7 5) by (unfold enough_fuel; cbn; lia).
  split; [lia |]. split; [exact Ha |]. split; [exact Hf |].
  exact (proj1 (getPageNumbers_length 7 50 100 5 ltac:(lia) Ha Hf)).
Defined.

(** X15: for safe integers with [maxVisible >= 0], the list shows an
    ellipsis exactly when [totalPages >= maxVisible + 2]; up to
    [maxVisible + 1] pages it is the complete list [1 .. totalPages], so
    the compressed branch taken at [totalPages = maxVisible + 1] hides
    nothing. *)
Theorem getPageNumbers_ellipsis_threshold
    (fuel : nat) (currentPage totalPages maxVisible : Z) :
  0 <= maxVisible ->
  page_args currentPage totalPages maxVisible ->
  enough_fuel fuel maxVisible ->
  exists pages : list entry,
    getPageNumbers fuel (JSNum.of_Z currentPage) (JSNum.of_Z totalPages)
                   (Some (JSNum.of_Z maxVisible))
    = JS.Returns pages
    /\ (In (Str "...") pages <-> maxVisible + 2 <= totalPages)
    /\ (totalPages <= maxVisible + 1 ->
        pages
        = map (fun n => Num (JSNum.of_Z n)) (Spec.interval 1 totalPages)).
Proof.
  intros Hmv Hargs Hfuel.
  pose proof (exact_getPageNumbers_ellipsis_threshold
                currentPage totalPages maxVisible Hmv) as [Hell Hfull].
  eexists. split.
  { apply (getPageNumbers_exact fuel currentPage totalPages
             (Some maxVisible)); assumption. }
  split.
  - rewrite In_int_entry_Str. exact Hell.
  - intros Hle. rewrite (Hfull Hle). apply map_int_entry_Num.
Qed.

Lemma getPageNumbers_ellipsis_threshold_witness :
  0 <= 5
  /\ page_args 3 6 5
  /\ enough_fuel 7 5
  /\ exists pages : list entry,
       getPageNumbers 7 (JSNum.of_Z 3) (JSNum.of_Z 6) (Some (JSNum.of_Z 5))
       = JS.Returns pages
       /\ (In (Str "...") pages <-> 5 + 2 <= 6).
Proof.
  assert (Ha : page_args 3 6 5)
    by (unfold page_args; repeat split; reflexivity).
  assert (Hf : enough_fuel 7 5) by (unfold enough_fuel; cbn; lia).
  split; [lia |]. split; [exact Ha |]. split; [exact Hf |].
  destruct (getPageNumbers_ellipsis_threshold 7 3 6 5 ltac:(lia) Ha Hf)
    as (pages & H1 & H2 & _).
  exists pages. split; [exact H1 | exact H2].
Defined.

(** X17: the selector built from a calculated result, with the default
    [maxVisible], for integer arguments with [totalItems < 2^53]: every
    number it lists is an existing page, and when there is at least one
    item it starts with page 1, ends with the last page and lists the
    current page; with no item it is empty. *)
Theorem getPageNumbers_of_calculate
    (fuel : nat) (page limit : option Z) (totalItems : Z) :
  totalItems < 2 ^ 53 ->
  enough_fuel fuel 5 ->
  let r := calculate (int_params page limit totalItems) in
  exists (totalPages : Z) (pages : list entry),
    PaginationResult.totalPages r = JSNum.of_Z totalPages
    /\ getPageNumbers fuel (PaginationResult.currentPage r)
                      (PaginationResult.totalPages r) None
       = JS.Returns pages
    /\ (forall x, In (Num x) pages ->
                  exists n, x = JSNum.of_Z n /\ 1 <= n <= totalPages)
    /\ (totalItems <= 0 -> pages = [])
    /\ (0 < totalItems ->
        hd_error pages = Some (Num (JSNum.of_Z 1))
        /\ In (Num (PaginationResult.currentPage r)) pages
        /\ In (Num (PaginationResult.totalPages r)) pages).
Proof.
  intros Hti Hfuel r. subst r.
  rewrite calculate_exact by exact Hti.
  set (params := Exact.Params.mk page limit totalItems).
  pose proof (exact_getPageNumbers_of_calculate params)
    as (Hin & Hnil & Hpos).
  cbv zeta in Hin, Hnil, Hpos.
  calc_facts params.
  pose proof (totalPages_le_totalItems params) as Hle.
  assert (H32 : 5 < 2 ^ 32) by reflexivity.
  assert (Hargs : page_args (Exact.Result.currentPage (Exact.calculate params))
                            (Exact.Result.totalPages (Exact.calculate params))
                            (JS.default_arg None 5)).
  { unfold page_args. cbn [JS.default_arg Exact.Params.totalItems params] in *.
    assert (H53 : 2 ^ 53 = 9007199254740992) by reflexivity.
    repeat split; lia. }
  exists (Exact.Result.totalPages (Exact.calculate params)).
  eexists. split; [reflexivity |].
  cbn [PaginationResult.currentPage PaginationResult.totalPages int_result].
  split.
  { apply (getPageNumbers_exact fuel _ _ None Hargs Hfuel). }
  split.
  { intros x Hx. apply In_int_entry_Num in Hx. destruct Hx as (n & -> & Hn).
    exists n. split; [reflexivity | apply Hin; exact Hn]. }
  cbn [Exact.Params.totalItems params] in *.
  split.
  { intros Hno. rewrite Hnil by lia. reflexivity. }
  intros Hsome. destruct Hpos as (Hhd & Hcp & Htp); [lia |].
  split; [rewrite hd_error_int_entry, Hhd; reflexivity |].
  split; apply In_Num_int_entry; assumption.
Qed.

Lemma getPageNumbers_of_calculate_witness :
  95 < 2 ^ 53
  /\ enough_fuel 7 5
  /\ exists (totalPages : Z) (pages : list entry),
       PaginationResult.totalPages
         (calculate (int_params (Some 3) (Some 10) 95))
       = JSNum.of_Z totalPages
       /\ getPageNumbers 7
            (PaginationResult.currentPage
               (calculate (int_params (Some 3) (Some 10) 95)))
            (PaginationResult.totalPages
               (calculate (int_params (Some 3) (Some 10) 95)))
            None
          = JS.Returns pages.
Proof.
  assert (H : 95 < 2 ^ 53) by reflexivity.
  assert (Hf : enough_fuel 7 5) by (unfold enough_fuel; cbn; lia).
  split; [exact H |]. split; [exact Hf |].
  destruct (getPageNumbers_of_calculate 7 (Some 3) (Some 10) 95 H Hf)
    as (totalPages & pages & H1 & H2 & _).
  exists totalPages, pages. split; [exact H1 | exact H2].
Defined.

(** X20: the page selector in closed form, for safe integers with
    [maxVisible >= 1].  Up to [maxVisible + 1] pages the list is
    complete.  Beyond that, with [half = floor (maxVisible / 2)]: near
    the start ([currentPage <= half + 2]) it is [1 .. maxVisible], an
    ellipsis and the last page; otherwise near the end
    ([currentPage + half >= totalPages - 1]) it is page 1, an ellipsis
    and the last [maxVisible] pages; otherwise it is page 1, an
    ellipsis, the pages [currentPage - half .. currentPage + half], an
    ellipsis and the last page. *)
Theorem getPageNumbers_closed_form
    (fuel : nat) (currentPage totalPages maxVisible : Z) :
  1 <= maxVisible ->
  page_args currentPage totalPages maxVisible ->
  enough_fuel fuel maxVisible ->
  let half := maxVisible / 2 in
  let pages (l : list Z) := map (fun n => Num (JSNum.of_Z n)) l in
  getPageNumbers fuel (JSNum.of_Z currentPage) (JSNum.of_Z totalPages)
                 (Some (JSNum.of_Z maxVisible))
  = JS.Returns
      (if totalPages <=? maxVisible + 1
       then pages (Spec.interval 1 totalPages)
       else if currentPage <=? half + 2
       then pages (Spec.interval 1 maxVisible)
              ++ [Str "..."; Num (JSNum.of_Z totalPages)]
       else if totalPages - 1 <=? currentPage + half
       then [Num (JSNum.of_Z 1); Str "..."]
              ++ pages (Spec.interval (totalPages - maxVisible + 1)
                                      totalPages)
       else [Num (JSNum.of_Z 1); Str "..."]
              ++ pages (Spec.interval (currentPage - half)
                                      (currentPage + half))
              ++ [Str "..."; Num (JSNum.of_Z totalPages)]).
Proof.
  intros Hmv Hargs Hfuel half pages.
  change (Some (JSNum.of_Z maxVisible))
    with (option_map JSNum.of_Z (Some maxVisible)).
  rewrite (getPageNumbers_exact fuel currentPage totalPages
             (Some maxVisible)) by assumption.
  rewrite (exact_getPageNumbers_closed_form
             currentPage totalPages maxVisible Hmv).
  cbv zeta. fold half. f_equal. subst pages.
  destruct (totalPages <=? maxVisible + 1);
    [apply map_int_entry_Num |].
  destruct (currentPage <=? half + 2);
    [rewrite map_app, map_int_entry_Num; reflexivity |].
  destruct (totalPages - 1 <=? currentPage + half);
    rewrite !map_app, map_int_entry_Num; reflexivity.
Qed.

Lemma getPageNumbers_closed_form_witness :
  1 <= 5
  /\ page_args 50 100 5
  /\ enough_fuel 7 5
  /\ getPageNumbers 7 (JSNum.of_Z 50) (JSNum.of_Z 100) (Some (JSNum.of_Z 5))
     = JS.Returns
         ([Num (JSNum.of_Z 1); Str "..."]
            ++ map (fun n => Num (JSNum.of_Z n)) (Spec.interval 48 52)
            ++ [Str "..."; Num (JSNum.of_Z 100)]).
Proof.
  assert (Ha : page_args 50 100 5)
    by (unfold page_args; repeat split; reflexivity).
  assert (Hf : enough_fuel 7 5) by (unfold enough_fuel; cbn; lia).
  split; [lia |]. split; [exact Ha |]. split; [exact Hf |].
  exact (getPageNumbers_closed_form 7 50 100 5 ltac:(lia) Ha Hf).
Defined.

(** ** The selector when there is no page *)

Section NoPage.

Import JSNum.

(** A negative fraction rounds to a number that is not positive. *)
Lemma round_binary64_negative (n d : Z) :
  0 < n -> 0 < d -> leb (round_binary64 true n d) (Finite 0) = true.
Proof.
  intros Hn Hd. unfold round_binary64.
  destruct (Z.eqb_spec n 0) as [-> | _]; [lia |]. cbv zeta.
  set (e := Z.max (log2_frac n d) (-1022)).
  destruct (Z.leb_spec 0 (e - 52)) as [Hk | Hk].
  - assert (Hp : 0 < 2 ^ (e - 52)) by (apply Z.pow_pos_nonneg; lia).
    pose proof (round_half_even_spec n (d * 2 ^ (e - 52))
                  ltac:(lia) ltac:(nia)) as (Hm & _).
    assert (H0 : 0 <= n / (d * 2 ^ (e - 52)))
      by (apply Z.div_pos; nia).
    destruct (2 ^ 1024 <=? _); [reflexivity |].
    cbn [leb]. apply Qle_bool_iff. rewrite Qred_correct.
    unfold Qle. cbn [Qnum Qden]. nia.
  - assert (Hp : 0 < 2 ^ (- (e - 52))) by (apply Z.pow_pos_nonneg; lia).
    pose proof (round_half_even_spec (n * 2 ^ (- (e - 52))) d
                  ltac:(nia) ltac:(lia)) as (Hm & _).
    assert (H0 : 0 <= n * 2 ^ (- (e - 52)) / d)
      by (apply Z.div_pos; nia).
    cbn [leb]. apply Qle_bool_iff. rewrite Qred_correct.
    unfold Qle. cbn [Qnum Qden]. lia.
Qed.

Lemma round_nonpositive (z : Z) :
  z <= 0 -> leb (round (z # 1)) (of_Z 0) = true.
Proof.
  intros Hz. unfold round. cbn [Qnum Qden].
  destruct z as [| p | p]; [reflexivity | lia |].
  apply round_binary64_negative; lia.
Qed.

Lemma sub_of_Z_round (a b : Z) :
  sub (of_Z a) (of_Z b) = round ((a - b) # 1).
Proof.
  unfold sub, opp, add, of_Z, inject_Z, Qplus, Qopp.
  cbn [Qnum Qden Pos.mul]. rewrite !Z.mul_1_r. reflexivity.
Qed.

(** Whatever the integers, the window starts at 2 or above and ends at
    [totalPages - 1] or below. *)
Lemma window_bounds (currentPage totalPages maxVisible : Z) :
  leb (of_Z 2)
      (fst (window (of_Z currentPage) (of_Z totalPages) (of_Z maxVisible)))
  = true
  /\ leb (snd (window (of_Z currentPage) (of_Z totalPages)
                      (of_Z maxVisible)))
         (sub (of_Z totalPages) (of_Z 1))
     = true.
Proof.
  unfold window. cbv zeta.
  set (half := Math_floor (div (of_Z maxVisible) (of_Z 2))).
  assert (Hhalf : is_NaN half = false)
    by (apply Math_floor_not_NaN, div_of_Z_not_NaN; lia).
  set (t1 := sub (of_Z totalPages) (of_Z 1)).
  assert (Ht1 : is_NaN t1 = false)
    by (subst t1; rewrite sub_of_Z_round; apply round_not_NaN).
  set (a := sub (of_Z currentPage) half).
  assert (Ha : is_NaN a = false)
    by (apply (sub_finite_not_NaN half (inject_Z currentPage) Hhalf)).
  set (b := add (of_Z currentPage) half).
  assert (Hb : is_NaN b = false)
    by (apply (add_finite_not_NaN half (inject_Z currentPage) Hhalf)).
  set (d := add (sub (of_Z totalPages) (of_Z maxVisible)) (of_Z 1)).
  assert (Hd : is_NaN d = false).
  { apply (add_finite_not_NaN _ (inject_Z 1)).
    rewrite sub_of_Z_round. apply round_not_NaN. }
  assert (H2 : is_NaN (of_Z 2) = false) by reflexivity.
  assert (Hm : is_NaN (of_Z maxVisible) = false) by reflexivity.
  pose proof (Math_max_upper_r a (of_Z 2) Ha H2) as Hs0.
  pose proof (Math_min_upper b t1 Hb Ht1) as He0.
  pose proof (Math_min_upper (of_Z maxVisible) t1 Hm Ht1) as He1.
  pose proof (Math_max_upper_l (of_Z 2) d H2 Hd) as Hs1.
  pose proof (leb_refl t1 Ht1) as Hrefl.
  destruct (leb (Math_max a (of_Z 2)) (of_Z 2));
    match goal with
    | |- context [geb ?x ?y] => destruct (geb x y)
    end; cbn [fst snd]; split; assumption || reflexivity.
Qed.

End NoPage.

(** X11: for all integers, a negative [maxVisible] takes the compressed
    branch even when there is no page: for
    [maxVisible < totalPages <= 1] the only page number listed is 1,
    although with [totalPages <= 0] page 1 does not exist; the loop is
    left at its first test. *)
Theorem getPageNumbers_no_page_lists_one
    (fuel : nat) (currentPage totalPages maxVisible : Z) :
  maxVisible < totalPages ->
  totalPages <= 1 ->
  (1 <= fuel)%nat ->
  exists pages : list entry,
    getPageNumbers fuel (JSNum.of_Z currentPage) (JSNum.of_Z totalPages)
                   (Some (JSNum.of_Z maxVisible))
    = JS.Returns pages
    /\ entry_numbers pages = [JSNum.of_Z 1]
    /\ hd_error pages = Some (Num (JSNum.of_Z 1)).
Proof.
  intros Hlt Hone Hfuel.
  unfold getPageNumbers. cbn [JS.default_arg]. rewrite of_Z_leb.
  destruct (Z.leb_spec totalPages maxVisible) as [Hle | _]; [lia |].
  pose proof (window_bounds currentPage totalPages maxVisible) as [Hs He].
  destruct (window (JSNum.of_Z currentPage) (JSNum.of_Z totalPages)
                   (JSNum.of_Z maxVisible)) as [s e].
  cbn [fst snd] in Hs, He.
  assert (Ht1 : JSNum.leb (JSNum.sub (JSNum.of_Z totalPages) (JSNum.of_Z 1))
                          (JSNum.of_Z 0) = true).
  { rewrite sub_of_Z_round. apply round_nonpositive. lia. }
  assert (Hempty : JSNum.leb s e = false).
  { destruct (JSNum.leb s e) eqn:Hse; [| reflexivity].
    pose proof (leb_trans _ _ _ Hs
                  (leb_trans _ _ _ Hse (leb_trans _ _ _ He Ht1))) as H20.
    discriminate H20. }
  destruct fuel as [| fuel]; [lia |].
  cbn [push_window]. rewrite Hempty.
  rewrite gtb_of_Z.
  destruct (Z.ltb_spec 1 totalPages) as [Hgt | _]; [lia |].
  eexists. split; [reflexivity |].
  unfold JS.push.
  destruct (JSNum.gtb s (JSNum.of_Z 2)),
    (JSNum.ltb e (JSNum.sub (JSNum.of_Z totalPages) (JSNum.of_Z 1)));
    split; reflexivity.
Qed.

Lemma getPageNumbers_no_page_lists_one_witness :
  -1 < 0
  /\ 0 <= 1
  /\ (1 <= 1)%nat
  /\ exists pages : list entry,
       getPageNumbers 1 (JSNum.of_Z 1) (JSNum.of_Z 0)
                      (Some (JSNum.of_Z (-1)))
       = JS.Returns pages
       /\ entry_numbers pages = [JSNum.of_Z 1].
Proof.
  split; [lia |]. split; [lia |]. split; [lia |].
  destruct (getPageNumbers_no_page_lists_one 1 1 0 (-1)
              ltac:(lia) ltac:(lia) ltac:(lia))
    as (pages & H1 & H2 & _).
  exists pages. split; [exact H1 | exact H2].
Defined.

(** X19: the two methods agree on their bounds: when what
    [parseSearchParams] returns is integral, [calculate] takes its page
    and its limit as they are, the limit becoming the page size and the
    page being capped only by the number of pages. *)
Theorem calculate_of_parseSearchParams
    (searchParams : URLSearchParams.t) (p l totalItems : Z) :
  PageLimit.page (parseSearchParams searchParams) = JSNum.of_Z p ->
  PageLimit.limit (parseSearchParams searchParams) = JSNum.of_Z l ->
  let r :=
    calculate
      {| PaginationParams.page :=
           Some (PageLimit.page (parseSearchParams searchParams));
         PaginationParams.limit :=
           Some (PageLimit.limit (parseSearchParams searchParams));
         PaginationParams.totalItems := JSNum.of_Z totalItems |} in
  1 <= p
  /\ 1 <= l <= 100
  /\ PaginationResult.pageSize r = JSNum.of_Z l
  /\ PaginationResult.currentPage r
     = JSNum.Math_min
         (JSNum.of_Z p)
         (JSNum.Math_max (PaginationResult.totalPages r) (JSNum.of_Z 1)).
Proof.
  intros Hp Hl r.
  pose proof (page_lower searchParams) as Hpl.
  pose proof (limit_range searchParams) as [Hll Hlu].
  rewrite Hp in Hpl. rewrite Hl in Hll, Hlu.
  change (JSNum.Finite 1) with (JSNum.of_Z 1) in Hpl, Hll.
  change (JSNum.Finite 100) with (JSNum.of_Z 100) in Hlu.
  rewrite of_Z_leb in Hpl, Hll, Hlu.
  apply Z.leb_le in Hpl, Hll, Hlu.
  split; [exact Hpl |]. split; [lia |]. subst r.
  rewrite Hp, Hl.
  pose proof (calculate_fields (Some p) (Some l) totalItems)
    as (HL & _ & _ & _ & Hcp).
  cbv zeta in HL, Hcp. cbn [JS.nullish] in HL, Hcp.
  replace (Z.min (Z.max l 1) 100) with l in HL by lia.
  replace (Z.max p 1) with p in Hcp by lia.
  split; [exact HL | exact Hcp].
Qed.

Lemma calculate_of_parseSearchParams_witness :
  PageLimit.page (parseSearchParams [("page", "7")]%string) = JSNum.of_Z 7
  /\ PageLimit.limit (parseSearchParams [("page", "7")]%string)
     = JSNum.of_Z 10
  /\ PaginationResult.pageSize
       (calculate
          {| PaginationParams.page :=
               Some (PageLimit.page
                       (parseSearchParams [("page", "7")]%string));
             PaginationParams.limit :=
               Some (PageLimit.limit
                       (parseSearchParams [("page", "7")]%string));
             PaginationParams.totalItems := JSNum.of_Z 35 |})
     = JSNum.of_Z 10.
Proof.
  split; [reflexivity |]. split; [reflexivity |].
  pose proof (calculate_of_parseSearchParams
                [("page", "7")]%string 7 10 35 eq_refl eq_refl) as H.
  destruct H as (_ & _ & H & _). exact H.
Defined.

(** ** Arguments that are not integers *)

(** A page that is not an integer is kept as it is: page 3.5 of 32
    items by 10 is page 3.5 of 4, its neighbours are 2.5 and 4.5, and
    its items are 26 to 32. *)
Example calculate_fractional_page :
  calculate
    {| PaginationParams.page := Some (JSNum.Finite (7 # 2));
       PaginationParams.limit := Some (JSNum.of_Z 10);
       PaginationParams.totalItems := JSNum.of_Z 32 |}
  = {| PaginationResult.currentPage := JSNum.Finite (7 # 2);
       PaginationResult.totalPages := JSNum.of_Z 4;
       PaginationResult.pageSize := JSNum.of_Z 10;
       PaginationResult.totalItems := JSNum.of_Z 32;
       PaginationResult.hasNextPage := true;
       PaginationResult.hasPreviousPage := true;
       PaginationResult.nextPage := Some (JSNum.Finite (9 # 2));
       PaginationResult.previousPage := Some (JSNum.Finite (5 # 2));
       PaginationResult.offset := JSNum.of_Z 25;
       PaginationResult.items :=
         {| Items.start := JSNum.of_Z 26; Items.end_ := JSNum.of_Z 32 |} |}.
Proof. vm_compute. reflexivity. Qed.

(** On page 3.5 of 10 pages the selector lists integers only, and not
    the current page. *)
Example getPageNumbers_fractional_page :
  getPageNumbers 7 (JSNum.Finite (7 # 2)) (JSNum.of_Z 10) None
  = JS.Returns
      [Num (JSNum.of_Z 1); Num (JSNum.of_Z 2); Num (JSNum.of_Z 3);
       Num (JSNum.of_Z 4); Num (JSNum.of_Z 5); Str "...";
       Num (JSNum.of_Z 10)].
Proof. vm_compute. reflexivity. Qed.

(** ** What [parseSearchParams] returns, given to [calculate] *)

Section AnyQuery.

Import JSNum.

Lemma Math_max_1_idem (x : number) :
  is_NaN x = false ->
  Math_max (Math_max x (Finite 1)) (Finite 1) = Math_max x (Finite 1).
Proof.
  intros Hx. unfold Math_max at 2 3. rewrite Hx. cbn [is_NaN orb].
  destruct (leb x (Finite 1)) eqn:Hle.
  - reflexivity.
  - unfold Math_max. rewrite Hx, Hle. reflexivity.
Qed.

Lemma clamp_idem (x : number) :
  is_NaN x = false ->
  Math_min
    (Math_max (Math_min (Math_max x (Finite 1)) (Finite 100)) (Finite 1))
    (Finite 100)
  = Math_min (Math_max x (Finite 1)) (Finite 100).
Proof.
  intros Hx. unfold Math_max at 2 3. rewrite Hx. cbn [is_NaN orb].
  destruct (leb x (Finite 1)) eqn:Hle.
  - reflexivity.
  - unfold Math_min at 2 3. rewrite Hx. cbn [is_NaN orb].
    destruct (leb x (Finite 100)) eqn:Hhi.
    + unfold Math_max, Math_min. rewrite Hx, Hle. cbn [is_NaN orb].
      rewrite Hx, Hhi. reflexivity.
    + reflexivity.
Qed.

(** A number between 1 and 100 is finite and not zero. *)
Lemma between_1_100_finite (x : number) :
  leb (Finite 1) x = true -> leb x (Finite 100) = true ->
  exists q, x = Finite q /\ Qeq_bool q 0 = false.
Proof.
  destruct x as [| [|] | q]; cbn [leb]; try discriminate.
  intros Hlo _. exists q. split; [reflexivity |].
  destruct (Qeq_bool q 0) eqn:Hq; [| reflexivity].
  apply Qeq_bool_iff in Hq. apply Qle_bool_iff in Hlo.
  rewrite Hq in Hlo. unfold Qle in Hlo. cbn in Hlo. lia.
Qed.

End AnyQuery.

(** X21: [calculate] accepts whatever [parseSearchParams] returns, a
    fraction or an infinite page included: for every query and every
    integer item count the limit read is the page size as it is, the
    number of pages is not NaN, and the current page is the page read,
    capped by the number of pages, in [[1, max (totalPages, 1)]]. *)
Theorem calculate_of_any_query
    (searchParams : URLSearchParams.t) (totalItems : Z) :
  let q := parseSearchParams searchParams in
  let r :=
    calculate
      {| PaginationParams.page := Some (PageLimit.page q);
         PaginationParams.limit := Some (PageLimit.limit q);
         PaginationParams.totalItems := JSNum.of_Z totalItems |} in
  PaginationResult.pageSize r = PageLimit.limit q
  /\ JSNum.is_NaN (PaginationResult.totalPages r) = false
  /\ JSNum.leb (JSNum.of_Z 1) (PaginationResult.currentPage r) = true
  /\ JSNum.leb (PaginationResult.currentPage r)
               (JSNum.Math_max (PaginationResult.totalPages r)
                               (JSNum.of_Z 1)) = true
  /\ PaginationResult.currentPage r
     = JSNum.Math_min
         (PageLimit.page q)
         (JSNum.Math_max (PaginationResult.totalPages r) (JSNum.of_Z 1)).
Proof.
  intros q r.
  set (params := {| PaginationParams.page := Some (PageLimit.page q);
                    PaginationParams.limit := Some (PageLimit.limit q);
                    PaginationParams.totalItems := JSNum.of_Z totalItems |})
    in *.
  pose proof (page_lower searchParams) as Hp1. fold q in Hp1.
  pose proof (limit_range searchParams) as [Hl1 Hl100]. fold q in Hl1, Hl100.
  assert (Hpn : JSNum.is_NaN (PageLimit.page q) = false).
  { subst q. rewrite page_eq. apply Math_max_not_NaN;
      [apply or_not_NaN | reflexivity]. }
  assert (HL : PaginationResult.pageSize r = PageLimit.limit q).
  { subst r. rewrite calculate_pageSize_def. subst params.
    cbn [PaginationParams.limit JS.nullish].
    subst q. rewrite limit_eq. apply clamp_idem. apply or_not_NaN. }
  assert (HP : JSNum.Math_max (PageLimit.page q) (JSNum.of_Z 1)
               = PageLimit.page q).
  { subst q. rewrite page_eq. apply Math_max_1_idem. apply or_not_NaN. }
  assert (HT : PaginationResult.totalItems r
               = JSNum.of_Z (Z.max totalItems 0)).
  { subst r. rewrite calculate_totalItems_def. subst params.
    cbn [PaginationParams.totalItems]. apply of_Z_max. }
  assert (Hnan : JSNum.is_NaN (PaginationResult.totalPages r) = false).
  { change (PaginationResult.totalPages r)
      with (JSNum.Math_ceil
              (JSNum.div (PaginationResult.totalItems r)
                         (PaginationResult.pageSize r))).
    rewrite HL, HT.
    destruct (between_1_100_finite _ Hl1 Hl100) as (l & -> & Hl0).
    apply Math_ceil_not_NaN. unfold JSNum.div, JSNum.of_Z. rewrite Hl0.
    apply round_not_NaN. }
  set (last := JSNum.Math_max (PaginationResult.totalPages r) (JSNum.of_Z 1)).
  assert (Hlast : JSNum.is_NaN last = false)
    by (apply Math_max_not_NaN; [exact Hnan | reflexivity]).
  assert (Hcp : PaginationResult.currentPage r
                = JSNum.Math_min (PageLimit.page q) last).
  { subst r. rewrite calculate_currentPage_def. subst params.
    cbn [PaginationParams.page JS.nullish]. rewrite HP. reflexivity. }
  split; [exact HL |]. split; [exact Hnan |].
  split; [| split; [| exact Hcp]].
  - rewrite Hcp. unfold JSNum.Math_min. rewrite Hpn, Hlast. cbn [orb].
    destruct (JSNum.leb (PageLimit.page q) last); [exact Hp1 |].
    apply Math_max_upper_r; [exact Hnan | reflexivity].
  - rewrite Hcp. apply Math_min_upper; assumption.
Qed.

(** The query [?page=2.5&limit=0.5] with 3 items is page 2.5 of 3 pages
    of 1 item; [?page=Infinity] with 35 items is the last page, 4. *)
Example calculate_of_fractional_query :
  PaginationResult.currentPage
    (calculate
       {| PaginationParams.page :=
            Some (PageLimit.page
                    (parseSearchParams
                       [("page", "2.5"); ("limit", "0.5")]%string));
          PaginationParams.limit :=
            Some (PageLimit.limit
                    (parseSearchParams
                       [("page", "2.5"); ("limit", "0.5")]%string));
          PaginationParams.totalItems := JSNum.of_Z 3 |})
  = JSNum.Finite (5 # 2)
  /\ PaginationResult.currentPage
       (calculate
          {| PaginationParams.page :=
               Some (PageLimit.page
                       (parseSearchParams [("page", "Infinity")]%string));
             PaginationParams.limit :=
               Some (PageLimit.limit
                       (parseSearchParams [("page", "Infinity")]%string));
             PaginationParams.totalItems := JSNum.of_Z 35 |})
     = JSNum.of_Z 4.
Proof. split; vm_compute; reflexivity. Qed.
